(** * plundered/recorder: recording and replaying HTTP round trips

    A shallow embedding of [recorder.go] (package [recorder]) and the
    properties of its record/replay transports.

    The package's own code ([Record], [Replay], [ReplayFS], [buildName],
    [RoundTripFunc], [Filters], [errNotFound]) is embedded statement by
    statement.  What it calls in Go's standard library is modelled next to
    it: [crypto/md5] and [encoding/base64] as executable functions,
    [os], [io/fs] and [path] as a small file system with injectable
    failures, and the HTTP wire codec ([httputil.DumpRequest],
    [httputil.DumpResponse], [http.ReadResponse]) as an interface the
    theorems quantify over.

    The repository's package [cmdline] ([cmdline.go]) follows in a module
    of its own, ahead of the properties. *)

From Stdlib Require Import ZArith List String Ascii Bool Lia.
From Stdlib.Strings Require Import Byte.
From stdpp Require Import base option list strings gmap.

Local Open Scope string_scope.
Local Open Scope list_scope.
Local Open Scope Z_scope.

(** ** Bytes *)

(** Go's [[]byte]. *)
Abbreviation bytes := (list byte).

Definition Z_of_byte (x : byte) : Z := Z.of_N (Byte.to_N x).

Definition byte_of_Z (z : Z) : byte :=
  match Byte.of_N (Z.to_N (z mod 256)) with
  | Some x => x
  | None => x00
  end.

(** Go's [string(b)] and [[]byte(s)]. *)
Definition string_of_bytes (b : bytes) : string := string_of_list_byte b.
Definition bytes_of_string (s : string) : bytes := list_byte_of_string s.

(** ** crypto/md5 (RFC 1321) *)

Module md5.

Definition w32 (z : Z) : Z := z mod 2 ^ 32.

Definition rotl (x c : Z) : Z :=
  w32 (Z.lor (Z.shiftl x c) (Z.shiftr x (32 - c))).

Definition not32 (x : Z) : Z := Z.lxor x 4294967295.

(** Per-round left-rotation amounts. *)
Definition shifts : list Z :=
  [ 7; 12; 17; 22; 7; 12; 17; 22; 7; 12; 17; 22; 7; 12; 17; 22;
    5; 9; 14; 20; 5; 9; 14; 20; 5; 9; 14; 20; 5; 9; 14; 20;
    4; 11; 16; 23; 4; 11; 16; 23; 4; 11; 16; 23; 4; 11; 16; 23;
    6; 10; 15; 21; 6; 10; 15; 21; 6; 10; 15; 21; 6; 10; 15; 21 ].

(** [floor (2^32 * abs (sin (i + 1)))] for [i = 0 .. 63]. *)
Definition table : list Z :=
  [ 3614090360; 3905402710; 606105819; 3250441966;
    4118548399; 1200080426; 2821735955; 4249261313;
    1770035416; 2336552879; 4294925233; 2304563134;
    1804603682; 4254626195; 2792965006; 1236535329;
    4129170786; 3225465664; 643717713; 3921069994;
    3593408605; 38016083; 3634488961; 3889429448;
    568446438; 3275163606; 4107603335; 1163531501;
    2850285829; 4243563512; 1735328473; 2368359562;
    4294588738; 2272392833; 1839030562; 4259657740;
    2763975236; 1272893353; 4139469664; 3200236656;
    681279174; 3936430074; 3572445317; 76029189;
    3654602809; 3873151461; 530742520; 3299628645;
    4096336452; 1126891415; 2878612391; 4237533241;
    1700485571; 2399980690; 4293915773; 2240044497;
    1873313359; 4264355552; 2734768916; 1309151649;
    4149444226; 3174756917; 718787259; 3951481745 ].

Definition digest : Type := Z * Z * Z * Z.

Definition init : digest := (1732584193, 4023233417, 2562383102, 271733878).

(** Little-endian 32-bit words of a byte sequence. *)
Fixpoint words (l : list Z) : list Z :=
  match l with
  | b0 :: b1 :: b2 :: b3 :: rest =>
      (b0 + 256 * b1 + 65536 * b2 + 16777216 * b3) :: words rest
  | _ => []
  end.

Definition word_bytes (x : Z) : list Z :=
  [ x mod 256; (x / 256) mod 256; (x / 65536) mod 256; (x / 16777216) mod 256 ].

(** The message followed by 0x80, zeros up to 56 modulo 64, and the bit
    length as a 64-bit little-endian integer. *)
Definition pad (msg : list Z) : list Z :=
  let len := Z.of_nat (length msg) in
  let bits := (8 * len) mod 2 ^ 64 in
  msg ++ [128] ++ repeat 0 (Z.to_nat ((55 - len) mod 64))
      ++ word_bytes (bits mod 2 ^ 32) ++ word_bytes (bits / 2 ^ 32).

Definition step (M : list Z) (s : digest) (i : nat) : digest :=
  let '(A, B, C, D) := s in
  let iz := Z.of_nat i in
  let '(F, g) :=
    if iz <? 16 then (Z.lor (Z.land B C) (Z.land (not32 B) D), iz)
    else if iz <? 32 then (Z.lor (Z.land D B) (Z.land (not32 D) C), (5 * iz + 1) mod 16)
    else if iz <? 48 then (Z.lxor (Z.lxor B C) D, (3 * iz + 5) mod 16)
    else (Z.lxor C (Z.lor B (not32 D)), (7 * iz) mod 16) in
  let F' := w32 (F + A + nth i table 0 + nth (Z.to_nat g) M 0) in
  (D, w32 (B + rotl F' (nth i shifts 0)), B, C).

Definition block (s : digest) (chunk : list Z) : digest :=
  let '(a0, b0, c0, d0) := s in
  let '(A, B, C, D) := fold_left (step (words chunk)) (seq 0 64) s in
  (w32 (a0 + A), w32 (b0 + B), w32 (c0 + C), w32 (d0 + D)).

(** [blocks n l s] digests the first [n] 64-byte blocks of [l]. *)
Fixpoint blocks (n : nat) (l : list Z) (s : digest) : digest :=
  match n with
  | O => s
  | S n' => blocks n' (skipn 64 l) (block s (firstn 64 l))
  end.

(** [md5.New(); h.Write(b); h.Sum(nil)]: the 16-byte checksum of [b]. *)
Definition Sum (b : bytes) : bytes :=
  let p := pad (map Z_of_byte b) in
  let '(a0, b0, c0, d0) := blocks (length p / 64)%nat p init in
  map byte_of_Z (word_bytes a0 ++ word_bytes b0 ++ word_bytes c0 ++ word_bytes d0).

End md5.

(** ** encoding/base64 (RFC 4648, section 5) *)

Module base64.

(** The alphabet of [base64.URLEncoding]. *)
Definition encodeURL : string :=
  "ABCDEFGHIJKLMNOPQRSTUVWXYZabcdefghijklmnopqrstuvwxyz0123456789-_".

Definition StdPadding : ascii := "="%char.

Definition enc6 (n : Z) : ascii :=
  match String.get (Z.to_nat (n mod 64)) encodeURL with
  | Some c => c
  | None => StdPadding
  end.

Fixpoint encode (src : list Z) : string :=
  match src with
  | [] => EmptyString
  | [a] =>
      String (enc6 (Z.shiftr a 2))
        (String (enc6 (Z.shiftl (Z.land a 3) 4))
           (String StdPadding (String StdPadding EmptyString)))
  | [a; b] =>
      String (enc6 (Z.shiftr a 2))
        (String (enc6 (Z.lor (Z.shiftl (Z.land a 3) 4) (Z.shiftr b 4)))
           (String (enc6 (Z.shiftl (Z.land b 15) 2))
              (String StdPadding EmptyString)))
  | a :: b :: c :: rest =>
      String (enc6 (Z.shiftr a 2))
        (String (enc6 (Z.lor (Z.shiftl (Z.land a 3) 4) (Z.shiftr b 4)))
           (String (enc6 (Z.lor (Z.shiftl (Z.land b 15) 2) (Z.shiftr c 6)))
              (String (enc6 (Z.land c 63)) (encode rest))))
  end.

(** [base64.URLEncoding.EncodeToString]. *)
Definition URLEncoding_EncodeToString (src : bytes) : string :=
  encode (map Z_of_byte src).

End base64.

(** ** buildName *)

(** [s[:n]] on a Go string.  Go panics when [n] exceeds [len(s)];
    [buildName] slices a 24-character string (see [buildName_encoding_length]),
    so the panic cannot occur there. *)
Definition slice_to (n : nat) (s : string) : string := substring 0 n s.

Definition buildName (b : bytes) : string * string :=
  let h := md5.Sum b in
  let s := base64.URLEncoding_EncodeToString h in
  (slice_to 8 s +:+ ".req.txt", slice_to 8 s +:+ ".res.txt").

#[global] Arguments buildName : simpl never.


(** ** Errors *)

(** Errors made by the standard library: the [*fs.PathError] of [os] and
    [io/fs], the failures of the HTTP codec, and [path.ErrBadPattern]. *)
Inductive LibError : Type :=
| PathError (op path msg : string)
| CodecError (msg : string)
| ErrBadPattern.

Inductive result (A : Type) : Type :=
| Ok (a : A)
| Err (e : LibError).
Arguments Ok {A} a.
Arguments Err {A} e.

(** Go's [error] values as this package sees them.  [errNotFound] is the
    package variable [errors.New("response not found")]; [Errorf] is
    [fmt.Errorf] with a format free of [%w], [Errorf_w] is [fmt.Errorf]
    with one [%w] operand; the strings are the [%q] operands. *)
Inductive error : Type :=
| errNotFound
| ErrLib (e : LibError)
| ErrTransport (msg : string)
| Errorf (format : string) (args : list string)
| Errorf_w (format : string) (wrapped : error) (args : list string).

#[global] Instance LibError_eq_dec : EqDecision LibError.
Proof. solve_decision. Defined.

#[global] Instance error_eq_dec : EqDecision error.
Proof. solve_decision. Defined.

(** [errors.Is]: [err] or an error it wraps is [target]. *)
Fixpoint errors_Is (err target : error) : bool :=
  if decide (err = target) then true
  else match err with
       | Errorf_w _ wrapped _ => errors_Is wrapped target
       | _ => false
       end.

(** The error at the bottom of a chain of [%w] wrappings. *)
Fixpoint root_cause (err : error) : error :=
  match err with
  | Errorf_w _ wrapped _ => root_cause wrapped
  | _ => err
  end.

(** ** HTTP objects *)

(** [http.Request], reduced to what reaches the wire.  [Body] is [None]
    for a nil body and otherwise the content still to be read. *)
Record Request : Type := mkRequest {
  Method : string;
  URL : string;
  Host : string;
  Header : gmap string (list string);
  Body : option bytes
}.

(** [http.Response], an HTTP/1.1 response without transfer encoding.
    [ContentLength] is the field of that name, -1 when the length is not
    known; it is a field of its own, whatever [ResHeader] says. *)
Record Response : Type := mkResponse {
  Status : string;
  StatusCode : Z;
  ResHeader : gmap string (list string);
  ContentLength : Z;
  ResBody : option bytes
}.

Definition set_Body (body : option bytes) (r : Request) : Request :=
  mkRequest (Method r) (URL r) (Host r) (Header r) body.

Definition set_Header (h : gmap string (list string)) (r : Request) : Request :=
  mkRequest (Method r) (URL r) (Host r) h (Body r).

Definition set_ResHeader (h : gmap string (list string)) (r : Response) : Response :=
  mkResponse (Status r) (StatusCode r) h (ContentLength r) (ResBody r).

(** [r.Header.Del(key)] for a canonical [key], on a request and on a
    response. *)
Definition Header_Del (key : string) (r : Request) : Request :=
  set_Header (delete key (Header r)) r.

Definition ResHeader_Del (key : string) (r : Response) : Response :=
  set_ResHeader (delete key (ResHeader r)) r.

(** [type RequestFilter func(r *http.Request)] and
    [type ResponseFilter func(r *http.Response)]: what the call does to the
    object it is handed. *)
Definition RequestFilter : Type := Request -> Request.
Definition ResponseFilter : Type := Response -> Response.

(** [type Filters struct { RequestFilter; ResponseFilter }]; a nil func is
    [None]. *)
Record Filters : Type := mkFilters {
  Filters_RequestFilter : option RequestFilter;
  Filters_ResponseFilter : option ResponseFilter
}.

(** [http.RoundTripper] as the live transport underneath the recorder: it
    reads the request it is handed and answers with a response, an error,
    or both.  It leaves the request and the files alone, as the contract
    of [RoundTrip] asks.  A [RoundTripper] is the transport at the time of
    one call: what the network answers to the same request at another
    time is another [RoundTripper]. *)
Definition RoundTripper : Type := Request -> option Response * option error.

(** The HTTP pieces of the standard library that the package calls.
    [httputil.DumpRequest] and [httputil.DumpResponse] are taken with
    [body = true]; both leave the object's body readable again with the
    content it had. *)
Record HTTPLib : Type := mkHTTPLib {
  httputil_DumpRequest : Request -> result bytes;
  httputil_DumpResponse : Response -> result bytes;
  http_ReadResponse : bytes -> Request -> result Response;
  http_DefaultTransport : RoundTripper
}.

(** ** The world: objects, files, and what happened *)

(** A [*http.Request] or [*http.Response]. *)
Abbreviation loc := nat.

Inductive Event : Type :=
| EvMkdirAll (path : string) (err : option LibError)
| EvWriteFile (dir name : string) (data : bytes) (err : option LibError)
| EvRoundTrip (req : Request) (err : option error)
| EvReadDir (dir : string)
| EvReadFile (name : string).

(** The requests and responses behind the pointers, the disk
    (directories by path, each a map from entry name to file content) and
    the calls made so far, oldest first. *)
Record World : Type := mkWorld {
  requests : gmap loc Request;
  responses : gmap loc Response;
  disk : gmap string (gmap string bytes);
  trace : list Event
}.

Definition log (e : Event) (w : World) : World :=
  mkWorld (requests w) (responses w) (disk w) (trace w ++ [e]).

Definition with_requests (h : gmap loc Request) (w : World) : World :=
  mkWorld h (responses w) (disk w) (trace w).

Definition with_responses (h : gmap loc Response) (w : World) : World :=
  mkWorld (requests w) h (disk w) (trace w).

Definition with_disk (d : gmap string (gmap string bytes)) (w : World) : World :=
  mkWorld (requests w) (responses w) d (trace w).

(** Computations over the world; [None] is a run-time panic (a nil
    dereference or an index out of range). *)
Definition M (A : Type) : Type := World -> option (A * World).

Definition ret {A : Type} (a : A) : M A := fun w => Some (a, w).

Definition bind {A B : Type} (m : M A) (k : A -> M B) : M B :=
  fun w => match m w with
           | Some (a, w') => k a w'
           | None => None
           end.

Definition panic {A : Type} : M A := fun _ => None.

Notation "'let*' x ':=' m 'in' k" := (bind m (fun x => k))
  (at level 10, x pattern, m at level 100, k at level 200).

(** How [os.WriteFile] can fail.  It opens the file with
    [O_WRONLY|O_CREATE|O_TRUNC], writes and closes: when the open fails
    nothing has changed; when the write or the close fails the file is
    there, cut to the bytes that were written. *)
Inductive WriteFault : Type :=
  | OpenFails (e : LibError)
  | WriteFails (e : LibError) (written : nat).

(** What the environment decides: whether a directory can be made and
    whether a file can be written (permissions, quotas, an empty path). *)
Record OSEnv : Type := mkOSEnv {
  mkdir_fault : gmap string (gmap string bytes) -> string -> option LibError;
  write_fault : gmap string (gmap string bytes) -> string -> string -> option WriteFault
}.

(** [filepath.Join(dir, name)] for a [name] without separators: the entry
    [name] of the directory [dir]. *)
Definition filepath_Join (dir name : string) : string * string := (dir, name).

(** The joined path as the errors of [os] print it: an empty [dir] is
    left out. *)
Definition path_of (dir name : string) : string :=
  if decide (dir = EmptyString) then name else dir +:+ "/" +:+ name.

(** [fs.FS] through [fs.ReadDir] and [fs.ReadFile], as functions of the
    files it is a view of.  [FS_ReadDir] gives the entry names. *)
Record FS : Type := mkFS {
  FS_ReadDir : gmap string (gmap string bytes) -> string -> result (list string);
  FS_ReadFile : gmap string (gmap string bytes) -> string -> result bytes
}.

(** [os.DirFS(dir)].  With an empty [dir] every operation fails
    ([os: DirFS with empty root]); it is not a view of the working
    directory.  The directories of the model hold regular files only. *)
Definition os_DirFS (dir : string) : FS :=
  mkFS
    (fun d name =>
       if decide (dir = EmptyString)
       then Err (PathError "open" name "os: DirFS with empty root")
       else
         match d !! dir with
         | Some entries =>
             if decide (name = ".") then Ok (map fst (map_to_list entries))
             else Err (PathError "open" name "not a directory")
         | None => Err (PathError "open" name "no such file or directory")
         end)
    (fun d name =>
       if decide (dir = EmptyString)
       then Err (PathError "open" name "os: DirFS with empty root")
       else
         match d !! dir with
         | Some entries =>
             match entries !! name with
             | Some content => Ok content
             | None => Err (PathError "open" name "no such file or directory")
             end
         | None => Err (PathError "open" name "no such file or directory")
         end).

(** ** path.Match and strings.HasSuffix *)

(** [star k] is the rest of a pattern [k] put after a star: the star takes
    any run of characters other than the separator. *)
Definition star (k : list ascii -> bool) : list ascii -> bool :=
  fix go (s : list ascii) : bool :=
    k s || match s with
           | [] => false
           | x :: s' => negb (Ascii.eqb x "/") && go s'
           end.

Definition one (ok : ascii -> bool) (k : list ascii -> bool) (s : list ascii) : bool :=
  match s with
  | [] => false
  | x :: s' => ok x && k s'
  end.

(** Patterns of a star, a question mark, a backslash (character 92)
    before a character taken literally, and plain characters. *)
Fixpoint pmatch (p : list ascii) : list ascii -> bool :=
  match p with
  | [] => fun s => match s with [] => true | _ => false end
  | c :: p' =>
      if Ascii.eqb c "*" then star (pmatch p')
      else if Ascii.eqb c "?" then one (fun x => negb (Ascii.eqb x "/")) (pmatch p')
      else if Ascii.eqb c "092" then
        match p' with
        | e :: p'' => one (Ascii.eqb e) (pmatch p'')
        | [] => fun _ => false
        end
      else one (Ascii.eqb c) (pmatch p')
  end.

Fixpoint pattern_ok (p : list ascii) : bool :=
  match p with
  | [] => true
  | c :: p' =>
      if Ascii.eqb c "[" then false
      else if Ascii.eqb c "092" then
        match p' with
        | _ :: p'' => pattern_ok p''
        | [] => false
        end
      else pattern_ok p'
  end.

(** [path.Match].  Bracket classes are left out of the model and reported
    as a bad pattern; the patterns of [ReplayFS] have none
    (see [glob_pattern_plain]). *)
Definition path_Match (pattern name : string) : result bool :=
  if pattern_ok (list_ascii_of_string pattern)
  then Ok (pmatch (list_ascii_of_string pattern) (list_ascii_of_string name))
  else Err ErrBadPattern.

(** [strings.HasSuffix]. *)
Definition strings_HasSuffix (s suf : string) : bool :=
  bool_decide (suffix (list_ascii_of_string suf) (list_ascii_of_string s)).

(** The entry names that match, in directory order; [path.Join(".", n)] is
    [n]. *)
Fixpoint glob_names (pattern : string) (names : list string) : result (list string) :=
  match names with
  | [] => Ok []
  | n :: rest =>
      match path_Match pattern n with
      | Err e => Err e
      | Ok matched =>
          match glob_names pattern rest with
          | Err e => Err e
          | Ok m => Ok (if matched then n :: m else m)
          end
      end
  end.

(** ** The package and the operations it calls *)

Section recorder.

Variable os : OSEnv.
Variable http : HTTPLib.

(** What [os.MkdirAll(path, 0o755)] does to the disk: nothing when the
    directory is there, a new empty directory otherwise. *)
Definition make_dir (d : gmap string (gmap string bytes)) (path : string)
  : result (gmap string (gmap string bytes)) :=
  match mkdir_fault os d path with
  | Some e => Err e
  | None =>
      Ok match d !! path with
         | Some _ => d
         | None => <[path := ∅]> d
         end
  end.

(** What [os.WriteFile(name, data, 0o644)] does to the disk when it
    succeeds: the file is created or replaced in a directory that
    exists. *)
Definition write_file (d : gmap string (gmap string bytes)) (dir base : string)
    (data : bytes) : result (gmap string (gmap string bytes)) :=
  match write_fault os d dir base with
  | Some (OpenFails e) => Err e
  | Some (WriteFails e _) =>
      match d !! dir with
      | None => Err (PathError "open" (path_of dir base) "no such file or directory")
      | Some _ => Err e
      end
  | None =>
      match d !! dir with
      | None => Err (PathError "open" (path_of dir base) "no such file or directory")
      | Some entries => Ok (<[dir := <[base := data]> entries]> d)
      end
  end.

(** The disk after [os.WriteFile] has failed: as it was when the file
    could not be opened, and with the file cut to what was written when
    the failure came later. *)
Definition failed_write (d : gmap string (gmap string bytes)) (dir base : string)
    (data : bytes) : gmap string (gmap string bytes) :=
  match write_fault os d dir base, d !! dir with
  | Some (WriteFails _ written), Some entries =>
      <[dir := <[base := take written data]> entries]> d
  | _, _ => d
  end.

Definition os_MkdirAll (path : string) : M (option LibError) :=
  fun w =>
    match make_dir (disk w) path with
    | Err e => Some (Some e, log (EvMkdirAll path (Some e)) w)
    | Ok d => Some (None, log (EvMkdirAll path None) (with_disk d w))
    end.

Definition os_WriteFile (name : string * string) (data : bytes) : M (option LibError) :=
  fun w =>
    let '(dir, base) := name in
    match write_file (disk w) dir base data with
    | Err e =>
        Some (Some e,
              log (EvWriteFile dir base data (Some e))
                (with_disk (failed_write (disk w) dir base data) w))
    | Ok d => Some (None, log (EvWriteFile dir base data None) (with_disk d w))
    end.

(** [fs.ReadDir(fsys, dir)] and [fs.ReadFile(fsys, name)]. *)
Definition fs_ReadDir (fsys : FS) (dir : string) : M (result (list string)) :=
  fun w => Some (FS_ReadDir fsys (disk w) dir, log (EvReadDir dir) w).

Definition fs_ReadFile (fsys : FS) (name : string) : M (result bytes) :=
  fun w => Some (FS_ReadFile fsys (disk w) name, log (EvReadFile name) w).

(** [fs.Glob(fsys, pattern)] for a pattern without a directory part and
    with a meta character, on an [fsys] without a [Glob] method of its
    own: a bad pattern is an error, an unreadable directory is not. *)
Definition fs_Glob (fsys : FS) (pattern : string) : M (result (list string)) :=
  match path_Match pattern EmptyString with
  | Err e => ret (Err e)
  | Ok _ =>
      let* infos := fs_ReadDir fsys "." in
      match infos with
      | Err _ => ret (Ok [])
      | Ok names => ret (glob_names pattern names)
      end
  end.

(** Reading and writing through a [*http.Request]. *)
Definition load_Request (p : loc) : M Request :=
  fun w => match requests w !! p with
           | Some r => Some (r, w)
           | None => None
           end.

Definition update_Request (p : loc) (f : Request -> Request) : M unit :=
  fun w => match requests w !! p with
           | Some r => Some (tt, with_requests (<[p := f r]> (requests w)) w)
           | None => None
           end.

Definition update_Response (p : option loc) (f : Response -> Response) : M unit :=
  fun w => match p with
           | Some p =>
               match responses w !! p with
               | Some r => Some (tt, with_responses (<[p := f r]> (responses w)) w)
               | None => None
               end
           | None => None
           end.

Definition new_Request (r : Request) : M loc :=
  fun w => let p := fresh (dom (requests w)) in
           Some (p, with_requests (<[p := r]> (requests w)) w).

Definition new_Response (r : Response) : M loc :=
  fun w => let p := fresh (dom (responses w)) in
           Some (p, with_responses (<[p := r]> (responses w)) w).

(** [req.Clone(ctx)]: a new request with a copy of the header map. *)
Definition Request_Clone (req : loc) : M loc :=
  let* r := load_Request req in
  new_Request r.

(** [httputil.DumpRequest(req, true)]. *)
Definition DumpRequest (req : loc) : M (result bytes) :=
  let* r := load_Request req in
  ret (httputil_DumpRequest http r).

(** [httputil.DumpResponse(res, true)]. *)
Definition DumpResponse (res : option loc) : M (result bytes) :=
  fun w => match res with
           | Some p =>
               match responses w !! p with
               | Some r => Some (httputil_DumpResponse http r, w)
               | None => None
               end
           | None => None
           end.

(** [http.ReadResponse(bufio.NewReader(bytes.NewReader(b)), req)]. *)
Definition ReadResponse (b : bytes) (req : loc) : M (option loc * option error) :=
  let* r := load_Request req in
  match http_ReadResponse http b r with
  | Err e => ret (None, Some (ErrLib e))
  | Ok res =>
      let* p := new_Response res in
      ret (Some p, None)
  end.

(** [rt.RoundTrip(req)] on the live transport. *)
Definition rt_RoundTrip (rt : RoundTripper) (req : loc) : M (option loc * option error) :=
  let* r := load_Request req in
  let '(res, err) := rt r in
  let* _ := (fun w => Some (tt, log (EvRoundTrip r err) w)) in
  match res with
  | None => ret (None, err)
  | Some res =>
      let* p := new_Response res in
      ret (Some p, err)
  end.

(** ** The package *)

(** [type RoundTripFunc func(req *http.Request) (res *http.Response, err error)] *)
Definition RoundTripFunc : Type := loc -> M (option loc * option error).

(** [func (rtf RoundTripFunc) RoundTrip(r)] *)
Definition RoundTrip (rtf : RoundTripFunc) (r : loc) : M (option loc * option error) :=
  rtf r.

(** The deferred function of both transports:
    [if err != nil { err = fmt.Errorf(format, err) }]. *)
Definition deferred (format : string) (body : M (option loc * option error))
  : M (option loc * option error) :=
  let* (res, err) := body in
  match err with
  | Some e => ret (res, Some (Errorf_w format e []))
  | None => ret (res, None)
  end.

(** [Record].  Each step is the statement of [recorder.go] named beside
    it.  When [httputil.DumpRequest] fails the Go code returns before it
    restores [req.Body]; the model leaves the caller's request as it
    was. *)
Definition Record (rt : option RoundTripper) (basepath : string) (f : option Filters)
  : RoundTripFunc :=
  let rt := match rt with
            | None => http_DefaultTransport http    (* rt = http.DefaultTransport *)
            | Some rt => rt
            end in
  fun req =>
    deferred "problem while recording transport: %w" (
      (* _ = os.MkdirAll(basepath, 0o755) *)
      let* _ := os_MkdirAll basepath in
      (* dumpReq := req.Clone(context.Background()) *)
      let* dumpReq := Request_Clone req in
      (* dumpReq.Body = req.Body *)
      let* r := load_Request req in
      let* _ := update_Request dumpReq (set_Body (Body r)) in
      (* if f != nil && f.RequestFilter != nil { f.RequestFilter(dumpReq) } *)
      let* _ := match f with
                | Some (mkFilters (Some filter) _) => update_Request dumpReq filter
                | _ => ret tt
                end in
      (* b, err := httputil.DumpRequest(dumpReq, true) *)
      let* dumped := DumpRequest dumpReq in
      match dumped with
      | Err e => ret (None, Some (ErrLib e))
      | Ok b =>
          (* req.Body = dumpReq.Body *)
          let* d := load_Request dumpReq in
          let* _ := update_Request req (set_Body (Body d)) in
          let '(reqname, resname) := buildName b in
          let name := filepath_Join basepath reqname in
          (* os.WriteFile(name, b, 0o644) *)
          let* werr := os_WriteFile name b in
          match werr with
          | Some e => ret (None, Some (ErrLib e))
          | None =>
              (* if res, err = rt.RoundTrip(req); err != nil { return } *)
              let* (res, err) := rt_RoundTrip rt req in
              match err with
              | Some e => ret (res, Some e)
              | None =>
                  (* if f != nil && f.ResponseFilter != nil { f.ResponseFilter(res) } *)
                  let* _ := match f with
                            | Some (mkFilters _ (Some filter)) => update_Response res filter
                            | _ => ret tt
                            end in
                  (* b, err = httputil.DumpResponse(res, true) *)
                  let* dumped := DumpResponse res in
                  match dumped with
                  | Err e => ret (None, Some (ErrLib e))
                  | Ok b =>
                      let name := filepath_Join basepath resname in
                      let* werr := os_WriteFile name b in
                      match werr with
                      | Some e => ret (None, Some (ErrLib e))
                      | None => ret (res, None)
                      end
                  end
              end
          end
      end).

(** [ReplayFS]. *)
Definition ReplayFS (fsys : FS) : RoundTripFunc :=
  fun req =>
    deferred "problem while replaying transport: %w" (
      (* b, err := httputil.DumpRequest(req, true) *)
      let* dumped := DumpRequest req in
      match dumped with
      | Err e => ret (None, Some (ErrLib e))
      | Ok b =>
          let '(_, name) := buildName b in
          let glob := "*" +:+ name in
          (* matches, err := fs.Glob(fsys, glob) *)
          let* globbed := fs_Glob fsys glob in
          match globbed with
          | Err e => ret (None, Some (ErrLib e))
          | Ok matches =>
              (* if len(matches) == 0 *)
              if (length matches =? 0)%nat then
                ret (None,
                     Some (Errorf_w "%w: no replay file matches %q" errNotFound [glob]))
              (* if len(matches) > 1 *)
              else if (1 <? length matches)%nat then
                ret (None,
                     Some (Errorf "ambiguous response: multiple replay files match %q"
                             [glob]))
              else
                (* b, err = fs.ReadFile(fsys, matches[0]) *)
                match matches with
                | [] => panic
                | m0 :: _ =>
                    let* read := fs_ReadFile fsys m0 in
                    match read with
                    | Err e => ret (None, Some (ErrLib e))
                    | Ok b => ReadResponse b req
                    end
                end
          end
      end).

(** [Replay]. *)
Definition Replay (basepath : string) : RoundTripFunc :=
  ReplayFS (os_DirFS basepath).

End recorder.

(** ** Vocabulary of the properties *)

(** The characters of [base64.URLEncoding] other than the padding. *)
Definition url_safe (c : ascii) : bool :=
  let n := nat_of_ascii c in
  ((65 <=? n) && (n <=? 90) || (97 <=? n) && (n <=? 122)
   || (48 <=? n) && (n <=? 57) || (n =? 45) || (n =? 95))%nat.

(** A character that [path.Match] takes literally. *)
Definition plain (c : ascii) : bool :=
  negb (Ascii.eqb c "*") && negb (Ascii.eqb c "?")
  && negb (Ascii.eqb c "[") && negb (Ascii.eqb c "092").

(** A directory entry's name: no path separator in it. *)
Definition base_name (n : string) : bool :=
  forallb (fun c => negb (Ascii.eqb c "/")) (list_ascii_of_string n).

(** [n] is a file name that ends with [name]. *)
Definition fixture_named (name n : string) : bool :=
  base_name n && strings_HasSuffix n name.

(** The names [fs.Glob] gets to see: the entries of the root directory, or
    nothing when the directory cannot be read. *)
Definition listing (fsys : FS) (d : gmap string (gmap string bytes)) : list string :=
  match FS_ReadDir fsys d "." with
  | Ok names => names
  | Err _ => []
  end.

(** The stored file names that end with the response file name of a
    request whose dump is [b]. *)
Definition fixtures_for (fsys : FS) (d : gmap string (gmap string bytes)) (b : bytes)
  : list string :=
  List.filter (fixture_named (buildName b).2) (listing fsys d).

Definition is_network (e : Event) : bool :=
  match e with
  | EvRoundTrip _ _ => true
  | _ => false
  end.

Definition is_file_activity (e : Event) : bool :=
  match e with
  | EvWriteFile _ _ _ _ | EvReadDir _ | EvReadFile _ => true
  | _ => false
  end.

Definition replaying (e : error) : error :=
  Errorf_w "problem while replaying transport: %w" e [].

Definition recording (e : error) : error :=
  Errorf_w "problem while recording transport: %w" e [].

(** What the filters of [f] do to a request and to a response; nothing
    when [f] or the filter is nil. *)
Definition request_filter (f : option Filters) : Request -> Request :=
  match f with
  | Some (mkFilters (Some filter) _) => filter
  | _ => fun r => r
  end.

Definition response_filter (f : option Filters) : Response -> Response :=
  match f with
  | Some (mkFilters _ (Some filter)) => filter
  | _ => fun r => r
  end.

(** The live transport behind [Record rt]. *)
Definition live (http : HTTPLib) (rt : option RoundTripper) : RoundTripper :=
  match rt with
  | None => http_DefaultTransport http
  | Some rt => rt
  end.

(** The content stored under [dir/name], if any. *)
Definition stored (d : gmap string (gmap string bytes)) (dir name : string)
  : option bytes :=
  match d !! dir with
  | Some entries => entries !! name
  | None => None
  end.

(** Same status code, same headers, same body content. *)
Definition equivalent (a b : Response) : Prop :=
  StatusCode a = StatusCode b
  /\ ResHeader a = ResHeader b
  /\ default [] (ResBody a) = default [] (ResBody b).

Definition no_filters (f : option Filters) : bool :=
  match f with
  | None | Some (mkFilters None None) => true
  | _ => false
  end.

(** The request as the live transport is handed it: the caller's, with
    the body the dump left on the clone. *)
Definition sent_request (f : option Filters) (r : Request) : Request :=
  set_Body (Body (request_filter f r)) r.

(** ** Three properties a recording may or may not have *)

Section Expectations.

Variable os : OSEnv.
Variable http : HTTPLib.
Variable rt : option RoundTripper.
Variable basepath : string.

(** Whatever was recorded for a request is what a replay of a request
    with the same dump returns. *)
Definition replays_what_was_recorded (req req' : loc) (w : World) : Prop :=
  forall r r' p w1 recorded,
    requests w !! req = Some r ->
    (Record os http rt basepath None req w) = Some ((Some p, None), w1) ->
    responses w1 !! p = Some recorded ->
    requests w1 !! req' = Some r' ->
    httputil_DumpRequest http r' = httputil_DumpRequest http r ->
    exists q w2 replayed,
      Replay http basepath req' w1 = Some ((Some q, None), w2)
      /\ responses w2 !! q = Some replayed
      /\ equivalent replayed recorded.

(** The response handed back to the caller is the one the live transport
    gave, whatever the response filter did for the fixture. *)
Definition live_response_unaltered (f : option Filters) (req : loc) (w : World)
  : Prop :=
  forall r p w' live_res err,
    requests w !! req = Some r ->
    (Record os http rt basepath f req w) = Some ((Some p, None), w') ->
    live http rt (sent_request f r) = (Some live_res, err) ->
    responses w' !! p = Some live_res.

(** A failure to create the store directory ends the call with a wrapped
    error, before any file or network activity. *)
Definition aborts_when_MkdirAll_fails (f : option Filters) (req : loc) (w : World)
  : Prop :=
  forall e,
    make_dir os (disk w) basepath = Err e ->
    exists out err w' evs,
      (Record os http rt basepath f req w) = Some ((out, Some (recording err)), w')
      /\ trace w' = trace w ++ evs
      /\ Forall (fun ev => is_network ev = false /\ is_file_activity ev = false) evs.

End Expectations.

(** ** A concrete library to run the transports on

    A plain HTTP/1.1 wire format for the codec, canned transports, and
    file systems; the examples are computed with them. *)

Module wire.

Definition CRLF : string := String "013" (String "010" EmptyString).

Definition field_lines (k : string) (vs : list string) : string :=
  fold_right (fun v acc => k +:+ ": " +:+ v +:+ CRLF +:+ acc) EmptyString vs.

Definition header_lines (h : gmap string (list string)) : string :=
  fold_right (fun kv acc => field_lines kv.1 kv.2 +:+ acc) EmptyString (map_to_list h).

Definition DumpRequest (r : Request) : result bytes :=
  Ok (bytes_of_string
        (Method r +:+ " " +:+ URL r +:+ " HTTP/1.1" +:+ CRLF
         +:+ "Host: " +:+ Host r +:+ CRLF
         +:+ header_lines (Header r) +:+ CRLF)
      ++ default [] (Body r)).

Definition digit (c : ascii) : option Z :=
  let n := nat_of_ascii c in
  if ((48 <=? n) && (n <=? 57))%nat then Some (Z.of_nat n - 48) else None.

(** Decimal numbers, written and read. *)
Fixpoint decimal_go (fuel : nat) (n : Z) (acc : string) : string :=
  match fuel with
  | O => acc
  | S fuel =>
      let acc := String (ascii_of_nat (Z.to_nat (48 + n mod 10))) acc in
      if n / 10 =? 0 then acc else decimal_go fuel (n / 10) acc
  end.

Definition decimal (n : Z) : string :=
  if n <? 0 then "-" +:+ decimal_go (S (Z.to_nat (Z.log2 (- n)))) (- n) EmptyString
  else decimal_go (S (Z.to_nat (Z.log2 n))) n EmptyString.

Fixpoint number_go (s : string) (acc : Z) : option Z :=
  match s with
  | EmptyString => Some acc
  | String c rest =>
      match digit c with
      | Some d => number_go rest (10 * acc + d)
      | None => None
      end
  end.

Definition number (s : string) : option Z :=
  match s with
  | EmptyString => None
  | _ => number_go s 0
  end.

(** The headers that [Response.Write] takes from the fields of the
    response, not from its header map. *)
Definition respExcludeHeader (h : gmap string (list string)) : gmap string (list string) :=
  delete "Trailer" (delete "Transfer-Encoding" (delete "Content-Length" h)).

(** Whether the header map asks to close the connection. *)
Definition has_close (h : gmap string (list string)) : bool :=
  existsb (String.eqb "close") (default [] (h !! "Connection")).

(** [httputil.DumpResponse(r, true)], that is [r.Write]: the status
    line; [Connection: close] when the length is not known;
    [Content-Length] from the field [ContentLength], where a zero with a
    body that is not empty stands for a length that is not known; the
    header map without the headers the fields stand for; the body, whose
    length has to be the one announced. *)
Definition DumpResponse (r : Response) : result bytes :=
  let body := default [] (ResBody r) in
  let len := if (ContentLength r =? 0) && negb (length body =? 0)%nat
             then -1 else ContentLength r in
  if negb (len =? -1) && negb (len =? Z.of_nat (length body)) then
    Err (CodecError ("http: ContentLength=" +:+ decimal len +:+ " with Body length "
                     +:+ decimal (Z.of_nat (length body))))
  else
    Ok (bytes_of_string
          ("HTTP/1.1 " +:+ Status r +:+ CRLF
           +:+ (if (len =? -1) && negb (has_close (ResHeader r))
                then "Connection: close" +:+ CRLF else EmptyString)
           +:+ (if 0 <=? len
                then "Content-Length: " +:+ decimal len +:+ CRLF else EmptyString)
           +:+ header_lines (respExcludeHeader (ResHeader r)) +:+ CRLF)
        ++ body).

(** [cut a b s] splits [s] at its first occurrence of the two
    characters [a b]. *)
Fixpoint cut (a b : ascii) (s : string) : option (string * string) :=
  match s with
  | String c (String c' rest' as rest) =>
      if Ascii.eqb c a && Ascii.eqb c' b then Some (EmptyString, rest')
      else match cut a b rest with
           | Some (line, rem) => Some (String c line, rem)
           | None => None
           end
  | _ => None
  end.

Fixpoint read_header (fuel : nat) (s : string) (h : gmap string (list string))
  : option (gmap string (list string) * string) :=
  match fuel with
  | O => None
  | S fuel =>
      match cut "013" "010" s with
      | None => None
      | Some (line, rest) =>
          if decide (line = EmptyString) then Some (h, rest)
          else match cut ":" " " line with
               | Some (k, v) =>
                   read_header fuel rest (<[k := default [] (h !! k) ++ [v]]> h)
               | None => None
               end
      end
  end.

Definition status_code (s : string) : option Z :=
  match s with
  | String a (String b (String c _)) =>
      match digit a, digit b, digit c with
      | Some x, Some y, Some z => Some (100 * x + 10 * y + z)
      | _, _, _ => None
      end
  | _ => None
  end.

Definition malformed : LibError := CodecError "malformed HTTP response".

(** No body comes with these status codes. *)
Definition bodyless (code : Z) : bool :=
  (code / 100 =? 1) || (code =? 204) || (code =? 304).

(** [http.ReadResponse]: the status line and the headers, of which
    [Connection: close] is taken out; the body is as long as
    [Content-Length] says, and without that header it is what is left of
    the input when the connection is to be closed, and empty
    otherwise. *)
Definition ReadResponse (b : bytes) (req : Request) : result Response :=
  match cut "013" "010" (string_of_bytes b) with
  | None => Err malformed
  | Some (line, rest) =>
      match status_code (substring 9 (String.length line - 9) line) with
      | None => Err malformed
      | Some code =>
          match read_header (String.length rest) rest ∅ with
          | None => Err malformed
          | Some (h0, rest) =>
              let close := has_close h0 in
              let h := if close then delete "Connection" h0 else h0 in
              let status := substring 9 (String.length line - 9) line in
              let announced :=
                match h !! "Content-Length" with
                | Some (v :: _) => Some (number v)
                | _ => None
                end in
              match announced with
              | Some None => Err (CodecError "bad Content-Length")
              | Some (Some n) =>
                  if decide (Method req = "HEAD") then
                    Ok (mkResponse status code h n (Some []))
                  else if bodyless code then
                    Ok (mkResponse status code h 0 (Some []))
                  else
                    Ok (mkResponse status code h n
                          (Some (take (Z.to_nat n) (bytes_of_string rest))))
              | None =>
                  if decide (Method req = "HEAD") then
                    Ok (mkResponse status code h (-1) (Some []))
                  else if bodyless code then
                    Ok (mkResponse status code h 0 (Some []))
                  else
                    Ok (mkResponse status code h (-1)
                          (Some (if close then bytes_of_string rest else [])))
              end
          end
      end
  end.

End wire.

Module example.

Definition get_status : Request :=
  mkRequest "GET" "/status" "example.com"
    {[ "Authorization" := ["Bearer X"] ]} None.

Definition up : Response :=
  mkResponse "200 OK" 200
    (<[ "Set-Cookie" := ["session=1"] ]> {[ "Content-Type" := ["text/plain"] ]})
    2 (Some (bytes_of_string "up")).

(** A transport that answers, and one that cannot connect. *)
Definition upstream : RoundTripper := fun _ => (Some up, None).

Definition unreachable : RoundTripper :=
  fun _ => (None, Some (ErrTransport "connection refused")).

Definition http : HTTPLib :=
  mkHTTPLib wire.DumpRequest wire.DumpResponse wire.ReadResponse upstream.

(** An environment without failures, and one in which the empty path
    cannot be made a directory: [os.MkdirAll] of the empty path reports
    ENOENT, while [filepath.Join] of the empty path and a name is that
    name, a file of the working directory. *)
Definition sound_os : OSEnv := mkOSEnv (fun _ _ => None) (fun _ _ _ => None).

Definition working_dir_os : OSEnv :=
  mkOSEnv
    (fun _ path => if decide (path = EmptyString)
                   then Some (PathError "mkdir" EmptyString "no such file or directory")
                   else None)
    (fun _ _ _ => None).

Definition del_Authorization : RequestFilter := Header_Del "Authorization".

Definition del_Set_Cookie : ResponseFilter := ResHeader_Del "Set-Cookie".

(** A file system held in memory, whatever the disk. *)
Definition memFS (files : gmap string bytes) : FS :=
  mkFS
    (fun _ dir => if decide (dir = ".") then Ok (map fst (map_to_list files))
                  else Err (PathError "open" dir "not a directory"))
    (fun _ name => match files !! name with
                   | Some content => Ok content
                   | None => Err (PathError "open" name "file does not exist")
                   end).

(** One live request, nothing on disk, nothing done yet. *)
Definition start : World := mkWorld {[ 0%nat := get_status ]} ∅ ∅ [].

(** The same with the working directory on disk. *)
Definition in_working_dir : World :=
  mkWorld {[ 0%nat := get_status ]} ∅ {[ EmptyString := ∅ ]} [].

(** The dump of [get_status], whose names are [F8_GfuNf.req.txt] and
    [F8_GfuNf.res.txt], and the dump of [up]. *)
Definition dumped (d : result bytes) : bytes :=
  match d with
  | Ok b => b
  | Err _ => []
  end.

Definition get_status_bytes : bytes := dumped (wire.DumpRequest get_status).

Definition up_bytes : bytes := dumped (wire.DumpResponse up).

(** A store in which an earlier recording of the same request was given
    a label. *)
Definition labelled : World :=
  mkWorld {[ 0%nat := get_status ]} ∅
    {[ "fixtures" := {[ "login-F8_GfuNf.res.txt" := up_bytes ]} ]} [].

(** Two fixtures for one request, one fixture, none. *)
Definition two_fixtures : FS :=
  memFS (<[ "v1-F8_GfuNf.res.txt" := up_bytes ]>
           {[ "v2-F8_GfuNf.res.txt" := up_bytes ]}).

Definition one_fixture : FS := memFS {[ "status-F8_GfuNf.res.txt" := up_bytes ]}.

Definition no_fixture : FS := memFS ∅.

(** The result and the world of a run that did not panic. *)
Definition result_of (run : option ((option loc * option error) * World))
  : option loc * option error :=
  match run with
  | Some (out, _) => out
  | None => (None, None)
  end.

Definition world_of (run : option ((option loc * option error) * World)) : World :=
  match run with
  | Some (_, w) => w
  | None => start
  end.

(** Recordings of [get_status]: as it is, through a filter that deletes
    the Authorization header of the request, through one that deletes the
    Set-Cookie header of the response, over a transport that cannot
    connect, into the working directory, and next to a labelled
    fixture. *)
Definition recorded_run :=
  (Record sound_os http (Some upstream) "fixtures" None 0%nat start).

Definition filtered_run :=
  (Record sound_os http (Some upstream) "fixtures"
    (Some (mkFilters (Some (Header_Del "Authorization")) None)) 0%nat start).

Definition cookie_run :=
  (Record sound_os http (Some upstream) "fixtures"
    (Some (mkFilters None (Some (ResHeader_Del "Set-Cookie")))) 0%nat start).

Definition unreachable_run :=
  (Record sound_os http (Some unreachable) "fixtures" None 0%nat start).

Definition working_dir_run :=
  (Record working_dir_os http (Some upstream) EmptyString None 0%nat in_working_dir).

Definition labelled_run :=
  (Record sound_os http (Some upstream) "fixtures" None 0%nat labelled).

End example.

(** ** The store under a recording *)

(** The disk once [os.MkdirAll(path)] has run, and the error it
    reported. *)
Definition after_MkdirAll (os : OSEnv) (d : gmap string (gmap string bytes)) (path : string)
  : gmap string (gmap string bytes) :=
  match make_dir os d path with
  | Ok d' => d'
  | Err _ => d
  end.

Definition MkdirAll_error (os : OSEnv) (d : gmap string (gmap string bytes)) (path : string)
  : option LibError :=
  match make_dir os d path with
  | Ok _ => None
  | Err e => Some e
  end.

(** The same files, whatever they hold: no file added, none removed. *)
Definition same_files (d d' : gmap string (gmap string bytes)) : Prop :=
  forall dir name, is_Some (stored d' dir name) <-> is_Some (stored d dir name).

(** ** Recordings that go wrong, and more requests *)

Module scenario.

(** A codec that cannot serialize a request. *)
Definition no_dump : HTTPLib :=
  mkHTTPLib (fun _ => Err (CodecError "http: ContentLength=16 with Body length 0"))
    wire.DumpResponse wire.ReadResponse example.upstream.

(** A file system that takes no write, and one that is full once the
    request fixture is written. *)
Definition read_only_os : OSEnv :=
  mkOSEnv (fun _ path => Some (PathError "mkdir" path "read-only file system"))
          (fun _ dir name =>
             Some (OpenFails (PathError "open" (path_of dir name) "read-only file system"))).

Definition full_disk_os : OSEnv :=
  mkOSEnv (fun _ _ => None)
          (fun _ dir name =>
             if strings_HasSuffix name ".res.txt"
             then Some (WriteFails
                          (PathError "write" (path_of dir name) "no space left on device") 0)
             else None).

(** A request with a body, and a filter that replaces the body. *)
Definition post_login : Request :=
  mkRequest "POST" "/login" "example.com" ∅ (Some (bytes_of_string "password=hunter2")).

Definition redact_body : RequestFilter := set_Body (Some (bytes_of_string "REDACTED")).

Definition login_start : World := mkWorld {[ 0%nat := post_login ]} ∅ ∅ [].

(** Two live requests. *)
Definition get_health : Request := mkRequest "GET" "/health" "example.com" ∅ None.

Definition two_requests : World :=
  mkWorld (<[ 1%nat := get_health ]> {[ 0%nat := example.get_status ]}) ∅ ∅ [].

(** A fixture that is no HTTP response. *)
Definition garbled : FS := example.memFS {[ "F8_GfuNf.res.txt" := bytes_of_string "garbled" ]}.

Definition no_dump_run :=
  (Record example.sound_os no_dump (Some example.upstream) "fixtures" None 0%nat example.start).

Definition read_only_run :=
  (Record read_only_os example.http (Some example.upstream) "fixtures" None 0%nat
     example.in_working_dir).

Definition full_disk_run :=
  (Record full_disk_os example.http (Some example.upstream) "fixtures" None 0%nat
     example.start).

Definition redacted_run :=
  (Record example.sound_os example.http (Some example.upstream) "fixtures"
     (Some (mkFilters (Some redact_body) None)) 0%nat login_start).

(** The upstream at a later time, when it answers otherwise. *)
Definition down : Response :=
  mkResponse "503 Service Unavailable" 503 ∅ 4 (Some (bytes_of_string "down")).

Definition upstream_later : RoundTripper := fun _ => (Some down, None).

Definition second_run :=
  (Record example.sound_os example.http (Some upstream_later) "fixtures" None 0%nat
     (example.world_of example.recorded_run)).

Definition two_requests_run :=
  (Record example.sound_os example.http (Some example.upstream) "fixtures" None 0%nat
     two_requests).

End scenario.

(** * plundered/cmdline: the kernel command line

    A shallow embedding of [cmdline.go] (package [cmdline]).  A Go string
    is the sequence of its bytes, a [string]; what the package calls in
    [strings], [unicode] and [unicode/utf8] is modelled next to it. *)

Module cmdline.

(** A code point. *)
Definition rune : Type := Z.

Definition byte_val (c : ascii) : Z := Z.of_nat (nat_of_ascii c).

(** ** unicode/utf8 *)

Definition RuneError : rune := 65533.

(** The entry of [utf8.first] for a leading byte of a multi-byte
    sequence: its size and the range accepted for the second byte. *)
Definition first (s0 : Z) : option (nat * Z * Z) :=
  if (194 <=? s0) && (s0 <=? 223) then Some (2%nat, 128, 191)
  else if s0 =? 224 then Some (3%nat, 160, 191)
  else if (225 <=? s0) && (s0 <=? 236) then Some (3%nat, 128, 191)
  else if s0 =? 237 then Some (3%nat, 128, 159)
  else if (238 <=? s0) && (s0 <=? 239) then Some (3%nat, 128, 191)
  else if s0 =? 240 then Some (4%nat, 144, 191)
  else if (241 <=? s0) && (s0 <=? 243) then Some (4%nat, 128, 191)
  else if s0 =? 244 then Some (4%nat, 128, 143)
  else None.

(** [s[i]], within bounds. *)
Definition at_index (i : nat) (s : string) : Z :=
  match get i s with
  | Some c => byte_val c
  | None => 0
  end.

(** [utf8.DecodeRuneInString]: the rune at the start of [s] and its width
    in bytes; an invalid or short sequence is [RuneError] of width 1. *)
Definition DecodeRuneInString (s : string) : rune * nat :=
  match s with
  | EmptyString => (RuneError, 0%nat)
  | String c0 _ =>
      let s0 := byte_val c0 in
      if s0 <? 128 then (s0, 1%nat)
      else
        match first s0 with
        | None => (RuneError, 1%nat)
        | Some (sz, lo, hi) =>
            if (String.length s <? sz)%nat then (RuneError, 1%nat)
            else
              let s1 := at_index 1 s in
              if (s1 <? lo) || (hi <? s1) then (RuneError, 1%nat)
              else if (sz <=? 2)%nat then
                (Z.lor (Z.shiftl (Z.land s0 31) 6) (Z.land s1 63), 2%nat)
              else
                let s2 := at_index 2 s in
                if (s2 <? 128) || (191 <? s2) then (RuneError, 1%nat)
                else if (sz <=? 3)%nat then
                  (Z.lor (Z.lor (Z.shiftl (Z.land s0 15) 12)
                                (Z.shiftl (Z.land s1 63) 6))
                         (Z.land s2 63), 3%nat)
                else
                  let s3 := at_index 3 s in
                  if (s3 <? 128) || (191 <? s3) then (RuneError, 1%nat)
                  else
                    (Z.lor (Z.lor (Z.lor (Z.shiftl (Z.land s0 7) 18)
                                         (Z.shiftl (Z.land s1 63) 12))
                                  (Z.shiftl (Z.land s2 63) 6))
                           (Z.land s3 63), 4%nat)
        end
  end.

(** ** unicode *)

Definition within (lo hi : Z) (r : rune) : bool := (lo <=? r) && (r <=? hi).

(** [unicode.IsSpace]. *)
Definition IsSpace (r : rune) : bool :=
  if r <=? 255 then
    within 9 13 r || (r =? 32) || (r =? 133) || (r =? 160)
  else
    (r =? 5760) || within 8192 8202 r || within 8232 8233 r
    || (r =? 8239) || (r =? 8287) || (r =? 12288).

(** [unicode.In(r, unicode.Quotation_Mark)]. *)
Definition Quotation_Mark (r : rune) : bool :=
  (r =? 34) || (r =? 39) || (r =? 171) || (r =? 187)
  || within 8216 8223 r || within 8249 8250 r || (r =? 11842)
  || within 12300 12303 r || within 12317 12319 r
  || within 65089 65092 r || (r =? 65282) || (r =? 65287)
  || within 65378 65379 r.

(** ** strings *)

(** [strings.FieldsFunc(s, f)]: the maximal runs of runes that [f]
    rejects.  [f] is called once on every rune, from left to right, and
    [st] is what its closure remembers from one call to the next.  The
    field under way, [s[start:end]], is [cur]; [skip] counts the bytes
    left of the rune just seen. *)
Fixpoint FieldsFunc_loop {S : Type} (f : S -> rune -> bool * S)
    (st : S) (skip : nat) (cur : option string) (s : string) : list string :=
  match s with
  | EmptyString =>
      match cur with
      | Some field => [field]
      | None => []
      end
  | String b rest =>
      match skip with
      | S k =>
          FieldsFunc_loop f st k ((fun field => field +:+ String b EmptyString) <$> cur) rest
      | O =>
          let '(r, size) := DecodeRuneInString s in
          let '(sep, st') := f st r in
          if sep then
            match cur with
            | Some field => [field]
            | None => []
            end ++ FieldsFunc_loop f st' (size - 1) None rest
          else
            FieldsFunc_loop f st' (size - 1)
              (Some (default EmptyString cur +:+ String b EmptyString)) rest
      end
  end.

Definition FieldsFunc {S : Type} (s : string) (f : S -> rune -> bool * S) (st : S)
  : list string :=
  FieldsFunc_loop f st 0 None s.

(** [strings.Index(s, substr)] for a [substr] of one byte: the index of
    its first occurrence, or -1. *)
Fixpoint Index (s : string) (c : ascii) : Z :=
  match s with
  | EmptyString => -1
  | String b rest =>
      if Ascii.eqb b c then 0
      else
        let i := Index rest c in
        if i =? -1 then -1 else i + 1
  end.

(** [strings.Replace(s, old, new, -1)] for [old] and [new] of one byte. *)
Fixpoint Replace (s : string) (old new : ascii) : string :=
  match s with
  | EmptyString => EmptyString
  | String b rest =>
      String (if Ascii.eqb b old then new else b) (Replace rest old new)
  end.

Definition in_cutset (cutset : string) (c : ascii) : bool :=
  existsb (Ascii.eqb c) (list_ascii_of_string cutset).

(** [strings.TrimLeft] and [strings.TrimRight] for a cutset of ASCII
    characters. *)
Fixpoint TrimLeft (s cutset : string) : string :=
  match s with
  | EmptyString => EmptyString
  | String b rest => if in_cutset cutset b then TrimLeft rest cutset else s
  end.

Fixpoint TrimRight (s cutset : string) : string :=
  match s with
  | EmptyString => EmptyString
  | String b rest =>
      match TrimRight rest cutset with
      | EmptyString => if in_cutset cutset b then EmptyString else String b EmptyString
      | kept => String b kept
      end
  end.

(** [strings.Trim]: [trimLeftASCII(trimRightASCII(s, &as), &as)]. *)
Definition Trim (s cutset : string) : string :=
  TrimLeft (TrimRight s cutset) cutset.

Definition is_ASCII (s : string) : bool :=
  forallb (fun c => byte_val c <? 128) (list_ascii_of_string s).

Definition lower (c : ascii) : ascii :=
  if (65 <=? byte_val c) && (byte_val c <=? 90)
  then ascii_of_nat (nat_of_ascii c + 32)
  else c.

(** [s[i:]]. *)
Definition slice_from (i : nat) (s : string) : string :=
  substring i (String.length s - i) s.

(** The two characters of the cutset of [doParse], a double and a single
    quote. *)
Definition quotes : string := String "034" (String "039" EmptyString).

Definition newline : string := String "010" EmptyString.

(** ** The package *)

(** An [io.Reader], by what [io.ReadAll] gets out of it: the bytes read
    and the error that ended the reading, if it was not the end of the
    input. *)
Record Reader : Type := mkReader {
  content : string;
  failure : option string
}.

Definition io_ReadAll (r : Reader) : string * option string :=
  (content r, failure r).

Definition strings_NewReader (s : string) : Reader := mkReader s None.

(** [type CmdLine struct] *)
Record CmdLine : Type := mkCmdLine {
  Raw : string;
  AsMap : gmap string string;
  Err : option string
}.

(** The closure [quotedFieldsCheck] of [doParse], with [lastQuote] passed
    in and out. *)
Definition quotedFieldsCheck (lastQuote : rune) (c : rune) : bool * rune :=
  if c =? lastQuote then (false, 0)
  else if negb (lastQuote =? 0) then (false, lastQuote)
  else if Quotation_Mark c then (false, c)
  else (IsSpace c, lastQuote).

(** [doParse]; the handler works on a state [S], the variables it
    captures. *)
Definition doParse {S : Type} (input : string)
    (handler : string -> string -> string -> string -> string -> S -> S) (st : S) : S :=
  fold_left
    (fun st flag =>
       let split := Index flag "=" in
       if (String.length flag =? 0)%nat then st
       else
         let '(key, value) :=
           if split =? -1 then (flag, "1")
           else (slice_to (Z.to_nat split) flag, slice_from (Z.to_nat (split + 1)) flag) in
         let canonicalKey := Replace key "-" "_" in
         let trimmedValue := Trim value quotes in
         handler flag key canonicalKey value trimmedValue st)
    (FieldsFunc input quotedFieldsCheck 0) st.

(** [parseToMap]. *)
Definition parseToMap (input : string) : gmap string string :=
  doParse input
    (fun flag key canonicalKey value trimmedValue flagMap =>
       <[key := trimmedValue]> (<[canonicalKey := trimmedValue]> flagMap))
    ∅.

(** [parse]. *)
Definition parse (cmdlineReader : Reader) : CmdLine :=
  let '(raw, err) := io_ReadAll cmdlineReader in
  let Raw := TrimRight raw newline in
  mkCmdLine Raw (parseToMap Raw) err.

Definition New (reader : Reader) : CmdLine := parse reader.

Definition FromString (cmdline : string) : CmdLine :=
  parse (strings_NewReader cmdline).

(** [Flag]: the value of a flag, and whether it was set. *)
Definition Flag (c : CmdLine) (flag : string) : string * bool :=
  let canonicalFlag := Replace flag "-" "_" in
  match AsMap c !! canonicalFlag with
  | Some value => (value, true)
  | None => (EmptyString, false)
  end.

Definition ContainsFlag (c : CmdLine) (flag : string) : bool :=
  (Flag c flag).2.

Section ToLower.

(** [strings.Map(unicode.ToLower, s)], the path [strings.ToLower] takes
    for a string that is not all ASCII. *)
Variable Map_unicode_ToLower : string -> string.

Definition ToLower (s : string) : string :=
  if is_ASCII s then string_of_list_ascii (map lower (list_ascii_of_string s))
  else Map_unicode_ToLower s.

Definition AsBool (c : CmdLine) (flag : string) : bool :=
  let canonicalFlag := Replace flag "-" "_" in
  match AsMap c !! canonicalFlag with
  | None => false
  | Some value =>
      let l := ToLower value in
      bool_decide (l = "1") || bool_decide (l = "yes") || bool_decide (l = "true")
  end.

End ToLower.

(** ** Vocabulary of the properties *)

(** The flags of a command line, in order. *)
Definition flags (input : string) : list string :=
  FieldsFunc (TrimRight input newline) quotedFieldsCheck 0.

(** The key of a flag and the value [doParse] hands on for it. *)
Definition key_of (flag : string) : string :=
  if Index flag "=" =? -1 then flag
  else slice_to (Z.to_nat (Index flag "=")) flag.

Definition raw_value_of (flag : string) : string :=
  if Index flag "=" =? -1 then "1"
  else slice_from (Z.to_nat (Index flag "=" + 1)) flag.

Definition value_of (flag : string) : string := Trim (raw_value_of flag) quotes.

Definition canonical (key : string) : string := Replace key "-" "_".

(** What the handler of [parseToMap] does for one flag. *)
Definition store (flagMap : gmap string string) (flag : string) : gmap string string :=
  <[key_of flag := value_of flag]> (<[canonical (key_of flag) := value_of flag]> flagMap).

(** The last flag whose key is [key], dashes and underscores alike. *)
Definition pick (key : string) (found : option string) (flag : string) : option string :=
  if bool_decide (canonical (key_of flag) = canonical key) then Some flag else found.

Definition last_flag (key : string) (fs : list string) : option string :=
  fold_left (pick key) fs None.

(** A string that neither begins nor ends with a character of [cutset]. *)
Definition trimmed (cutset : string) (s : string) : Prop :=
  forall c, in_cutset cutset c = true ->
            (forall rest, s <> String c rest)
            /\ (forall front, s <> front +:+ String c EmptyString).

(** The first [k] bytes of [s] are there and are not ASCII. *)
Fixpoint continued (k : nat) (s : string) : bool :=
  match k with
  | O => true
  | S k =>
      match s with
      | EmptyString => false
      | String c rest => (128 <=? byte_val c) && continued k rest
      end
  end.

(** A byte that neither separates nor quotes: ASCII, no space, no
    quotation mark; and a byte of a key: no equals sign either. *)
Definition plain_byte (c : ascii) : bool :=
  (byte_val c <? 128) && negb (IsSpace (byte_val c))
  && negb (Quotation_Mark (byte_val c)).

Definition word_byte (c : ascii) : bool :=
  plain_byte c && negb (Ascii.eqb c "=").

Definition space_byte (c : ascii) : bool :=
  (byte_val c <? 128) && IsSpace (byte_val c).

(** A word of plain bytes, and words with one space between them. *)
Definition plain_word (w : string) : Prop :=
  w <> EmptyString /\ forallb plain_byte (list_ascii_of_string w) = true.

Fixpoint unwords (ws : list string) : string :=
  match ws with
  | [] => EmptyString
  | [w] => w
  | w :: rest => w +:+ " " +:+ unwords rest
  end.

(** The command line of the package's test. *)
Definition exampleCmdLine : string :=
  "BOOT_IMAGE=/vmlinuz-4.11.2 ro "
  +:+ "test-flag test2-flag=8 "
  +:+ "uroot.initflags=" +:+ String "034" "systemd test-flag=3  test2-flag runlevel=2"
  +:+ String "034" " "
  +:+ "root=LABEL=/ biosdevname=0 net.ifnames=0 fsck.repair=yes "
  +:+ "ipv6.autoconf=0 erst_disable nox2apic crashkernel=128M "
  +:+ "systemd.unified_cgroup_hierarchy=1 cgroup_no_v1=all console=tty0 "
  +:+ "console=ttyS0,115200 security=selinux selinux=1 enforcing=0".

(** A reader that fails at once, as the test's [badreader]. *)
Definition badreader : Reader := mkReader EmptyString (Some "io: read/write on closed pipe").

End cmdline.

(** * Properties *)

(** ** buildName *)

(** Checksums and encodings of known inputs. *)
Example md5_empty :
  base64.URLEncoding_EncodeToString (md5.Sum []) = "1B2M2Y8AsgTpgAmY7PhCfg==".
Proof. vm_compute. reflexivity. Qed.

Example md5_abc :
  map Z_of_byte (md5.Sum (bytes_of_string "abc"))
  = [144; 1; 80; 152; 60; 210; 79; 176; 214; 150; 63; 125; 40; 225; 127; 114].
Proof. vm_compute. reflexivity. Qed.

Example md5_fox :
  base64.URLEncoding_EncodeToString
    (md5.Sum (bytes_of_string "The quick brown fox jumps over the lazy dog"))
  = "nhB9nTcrtoJr2B01QqQZ1g==".
Proof. vm_compute. reflexivity. Qed.

Example md5_two_blocks :
  base64.URLEncoding_EncodeToString
    (md5.Sum (repeat "a"%byte 119)) = "invQcy7WooznX22ryQ4WEw==".
Proof. vm_compute. reflexivity. Qed.

Example md5_56 :
  base64.URLEncoding_EncodeToString
    (md5.Sum (repeat "a"%byte 56)) = "OwyKxwP4KLBMbBlwBtFyGA==".
Proof. vm_compute. reflexivity. Qed.

Example md5_64 :
  base64.URLEncoding_EncodeToString
    (md5.Sum (repeat "a"%byte 64)) = "AUhC1IC1cUlaSgNjeT9zZw==".
Proof. vm_compute. reflexivity. Qed.

Example base64_url : base64.encode [251; 255; 254] = "-__-".
Proof. reflexivity. Qed.

Example buildName_abc :
  buildName (bytes_of_string "abc") = ("kAFQmDzS.req.txt", "kAFQmDzS.res.txt").
Proof. vm_compute. reflexivity. Qed.

Lemma list_ascii_of_string_app (a b : string) :
  list_ascii_of_string (a +:+ b) = list_ascii_of_string a ++ list_ascii_of_string b.
Proof. induction a as [|c a IH]; simpl; [reflexivity | now rewrite IH]. Qed.

Lemma enc6_url_safe (n : Z) : url_safe (base64.enc6 n) = true.
Proof.
  unfold base64.enc6.
  assert (H : (Z.to_nat (n mod 64) < 64)%nat).
  { pose proof (Z.mod_pos_bound n 64 eq_refl). lia. }
  revert H. generalize (Z.to_nat (n mod 64)). intros k H.
  do 64 (destruct k as [|k]; [reflexivity|]). lia.
Qed.

Lemma md5_Sum_length (b : bytes) : length (md5.Sum b) = 16%nat.
Proof.
  unfold md5.Sum.
  destruct (md5.blocks _ _ _) as [[[a0 b0] c0] d0]. reflexivity.
Qed.

(** The first eight characters of the encoding of at least six bytes come
    from the alphabet. *)
Lemma encode_prefix (l : list Z) :
  (6 <= length l)%nat ->
  exists c0 c1 c2 c3 c4 c5 c6 c7 rest,
    base64.encode l
    = String c0 (String c1 (String c2 (String c3
        (String c4 (String c5 (String c6 (String c7 rest)))))))
    /\ Forall (fun c => url_safe c = true) [c0; c1; c2; c3; c4; c5; c6; c7].
Proof.
  intros H.
  destruct l as [|x0 [|x1 [|x2 [|x3 [|x4 [|x5 l]]]]]]; simpl in H; try lia.
  cbn [base64.encode].
  do 9 eexists. split; [reflexivity|].
  repeat constructor; apply enc6_url_safe.
Qed.

Lemma buildName_encoding_length (b : bytes) :
  String.length (base64.URLEncoding_EncodeToString (md5.Sum b)) = 24%nat.
Proof.
  unfold base64.URLEncoding_EncodeToString.
  pose proof (md5_Sum_length b) as H.
  destruct (md5.Sum b) as [|x0 [|x1 [|x2 [|x3 [|x4 [|x5 [|x6 [|x7
    [|x8 [|x9 [|x10 [|x11 [|x12 [|x13 [|x14 [|x15 [|x16 l]]]]]]]]]]]]]]]]];
    simpl in H; try lia.
  reflexivity.
Qed.

(** The shape of the two names: a common prefix of eight alphabet
    characters. *)
Lemma buildName_shape (b : bytes) :
  exists prefix,
    String.length prefix = 8%nat
    /\ forallb url_safe (list_ascii_of_string prefix) = true
    /\ buildName b = (prefix +:+ ".req.txt", prefix +:+ ".res.txt").
Proof.
  unfold buildName, base64.URLEncoding_EncodeToString.
  destruct (encode_prefix (map Z_of_byte (md5.Sum b)))
    as (c0 & c1 & c2 & c3 & c4 & c5 & c6 & c7 & rest & -> & Hsafe).
  { rewrite length_map, md5_Sum_length. lia. }
  exists (String c0 (String c1 (String c2 (String c3
            (String c4 (String c5 (String c6 (String c7 EmptyString)))))))).
  split; [reflexivity|]. split.
  - cbn [list_ascii_of_string forallb].
    repeat match goal with
           | H : Forall _ (_ :: _) |- _ => inversion H; clear H; subst
           end.
    repeat match goal with H : url_safe _ = true |- _ => rewrite H; clear H end.
    reflexivity.
  - unfold slice_to. cbn [substring]. destruct rest; reflexivity.
Qed.

(** C2.  [buildName] is a function of the bytes alone: byte strings that
    are equal get the same two names.  The names share a prefix, the first
    eight characters of the URL-safe base64 encoding of the MD5 checksum,
    all from the URL-safe alphabet; the request file name is the prefix
    followed by [.req.txt], the response file name the prefix followed by
    [.res.txt]. *)
Theorem buildName_names (b1 b2 : bytes) :
  b1 = b2 ->
  exists prefix,
    prefix = slice_to 8 (base64.URLEncoding_EncodeToString (md5.Sum b1))
    /\ String.length prefix = 8%nat
    /\ forallb url_safe (list_ascii_of_string prefix) = true
    /\ buildName b1 = (prefix +:+ ".req.txt", prefix +:+ ".res.txt")
    /\ buildName b2 = buildName b1.
Proof.
  intros <-.
  destruct (buildName_shape b1) as (prefix & Hlen & Hsafe & Hname).
  exists prefix. repeat split; try assumption.
  unfold buildName in Hname.
  injection Hname as H _.
  apply (f_equal list_ascii_of_string) in H.
  rewrite !list_ascii_of_string_app in H.
  apply app_inv_tail in H.
  rewrite <- (string_of_list_ascii_of_string prefix), <- H.
  now rewrite string_of_list_ascii_of_string.
Qed.

Lemma buildName_names_witness :
  exists prefix,
    prefix = "kAFQmDzS"
    /\ buildName (bytes_of_string "abc") = (prefix +:+ ".req.txt", prefix +:+ ".res.txt").
Proof.
  destruct (buildName_names (bytes_of_string "abc") (bytes_of_string "abc") eq_refl)
    as (prefix & Hp & _ & _ & Hn & _).
  exists prefix. split; [|exact Hn].
  rewrite Hp. vm_compute. reflexivity.
Defined.

(** ** Globbing *)

Lemma pmatch_plain (lit s : list ascii) :
  forallb plain lit = true ->
  pmatch lit s = true <-> s = lit.
Proof.
  revert s. induction lit as [|c lit IH]; intros s Hp.
  - destruct s; simpl; split; intros; congruence.
  - simpl in Hp. apply andb_true_iff in Hp as [Hc Hp].
    unfold plain in Hc.
    repeat (apply andb_true_iff in Hc as [Hc ?]).
    simpl.
    repeat match goal with
           | H : negb (Ascii.eqb ?c ?x) = true |- _ =>
               apply negb_true_iff in H; rewrite H
           end.
    destruct s as [|x s]; simpl; [split; intros; congruence|].
    rewrite andb_true_iff, (IH s Hp), Ascii.eqb_eq.
    split; [intros [-> ->]; reflexivity | intros [= -> ->]; auto].
Qed.

Lemma star_spec (k : list ascii -> bool) (s : list ascii) :
  star k s = true <->
  exists pre post,
    s = pre ++ post /\ forallb (fun c => negb (Ascii.eqb c "/")) pre = true
    /\ k post = true.
Proof.
  induction s as [|x s IH].
  - simpl. rewrite orb_false_r. split.
    + intros H. exists [], []. auto.
    + intros (pre & post & Hs & _ & Hk).
      symmetry in Hs. apply app_eq_nil in Hs as [-> ->]. exact Hk.
  - change (star k (x :: s))
      with (k (x :: s) || (negb (Ascii.eqb x "/") && star k s)).
    rewrite orb_true_iff, andb_true_iff, IH. split.
    + intros [Hk | [Hx (pre & post & -> & Hpre & Hk)]].
      * exists [], (x :: s). auto.
      * exists (x :: pre), post. simpl. rewrite Hx, Hpre. auto.
    + intros (pre & post & Hs & Hpre & Hk).
      destruct pre as [|y pre]; simpl in Hs.
      * subst post. auto.
      * injection Hs as -> ->. simpl in Hpre.
        apply andb_true_iff in Hpre as [Hx Hpre].
        right. split; [exact Hx|]. exists pre, post. auto.
Qed.

Lemma pattern_ok_plain (lit : list ascii) :
  forallb plain lit = true -> pattern_ok lit = true.
Proof.
  induction lit as [|c lit IH]; simpl; [reflexivity|].
  intros Hp. apply andb_true_iff in Hp as [Hc Hp].
  unfold plain in Hc.
  repeat (apply andb_true_iff in Hc as [Hc ?]).
  repeat match goal with
         | H : negb (Ascii.eqb ?c ?x) = true |- _ =>
             apply negb_true_iff in H; rewrite H
         end.
  auto.
Qed.

(** A ['*'] followed by plain characters without a separator matches the
    file names that end with those characters. *)
Lemma path_Match_star (name n : string) :
  forallb plain (list_ascii_of_string name) = true ->
  base_name name = true ->
  path_Match ("*" +:+ name) n = Ok (fixture_named name n).
Proof.
  intros Hp Hb. unfold path_Match.
  change (list_ascii_of_string ("*" +:+ name))
    with ("*"%char :: list_ascii_of_string name).
  change (pattern_ok ("*"%char :: list_ascii_of_string name))
    with (pattern_ok (list_ascii_of_string name)).
  rewrite (pattern_ok_plain _ Hp). f_equal.
  change (pmatch ("*"%char :: list_ascii_of_string name))
    with (star (pmatch (list_ascii_of_string name))).
  apply eq_true_iff_eq. rewrite star_spec.
  unfold fixture_named, strings_HasSuffix, base_name in *.
  rewrite andb_true_iff, bool_decide_eq_true.
  set (l := list_ascii_of_string name) in *.
  set (s := list_ascii_of_string n).
  split.
  - intros (pre & post & Hs & Hpre & Hk).
    apply (pmatch_plain _ _ Hp) in Hk. subst post.
    split.
    + rewrite Hs, forallb_app, Hpre, Hb. reflexivity.
    + exists pre. exact Hs.
  - intros [Hs [pre Hpre]]. exists pre, l. split; [exact Hpre|].
    rewrite Hpre, forallb_app in Hs. apply andb_true_iff in Hs as [Hs _].
    split; [exact Hs|]. now apply pmatch_plain.
Qed.

Lemma glob_names_star (name : string) (names : list string) :
  forallb plain (list_ascii_of_string name) = true ->
  base_name name = true ->
  glob_names ("*" +:+ name) names = Ok (List.filter (fixture_named name) names).
Proof.
  intros Hp Hb. induction names as [|n names IH]; [reflexivity|].
  cbn [glob_names List.filter].
  rewrite (path_Match_star _ _ Hp Hb), IH. reflexivity.
Qed.

Lemma url_safe_plain (c : ascii) :
  url_safe c = true -> plain c = true /\ Ascii.eqb c "/" = false.
Proof.
  destruct c as [[] [] [] [] [] [] [] []]; vm_compute; intros; try discriminate; auto.
Qed.

(** The response file name is made of plain characters and has no
    separator in it: the pattern of [ReplayFS] is a star and a literal. *)
Lemma glob_pattern_plain (b : bytes) :
  forallb plain (list_ascii_of_string (buildName b).2) = true
  /\ base_name (buildName b).2 = true.
Proof.
  destruct (buildName_shape b) as (prefix & _ & Hsafe & ->).
  cbn [snd]. unfold base_name.
  rewrite list_ascii_of_string_app, !forallb_app.
  assert (H : forallb plain (list_ascii_of_string prefix) = true
              /\ forallb (fun c => negb (Ascii.eqb c "/"))
                   (list_ascii_of_string prefix) = true).
  { induction (list_ascii_of_string prefix) as [|c l IH]; [auto|].
    simpl in Hsafe. apply andb_true_iff in Hsafe as [Hc Hl].
    destruct (url_safe_plain c Hc) as [H1 H2], (IH Hl) as [H3 H4].
    simpl. rewrite H1, H2, H3, H4. auto. }
  destruct H as [-> ->]. split; reflexivity.
Qed.

(** ** ReplayFS, step by step *)

(** Runs the monadic plumbing of a transport as far as it goes. *)
Ltac run :=
  cbv beta iota delta
    [bind ret panic deferred replaying recording
     os_MkdirAll os_WriteFile filepath_Join fs_Glob fs_ReadDir fs_ReadFile
     load_Request update_Request update_Response new_Request new_Response
     Request_Clone DumpRequest DumpResponse ReadResponse rt_RoundTrip].

Section ReplayFS_run.

Variable http : HTTPLib.
Variable fsys : FS.

(** What [ReplayFS] does once the request is dumped, by the number of
    fixtures found. *)
Lemma ReplayFS_run (req : loc) (w : World) (r : Request) (b : bytes) :
  requests w !! req = Some r ->
  httputil_DumpRequest http r = Ok b ->
  ReplayFS http fsys req w =
    let glob := "*" +:+ (buildName b).2 in
    let w1 := log (EvReadDir ".") w in
    match fixtures_for fsys (disk w) b with
    | [] =>
        Some ((None, Some (replaying
                 (Errorf_w "%w: no replay file matches %q" errNotFound [glob]))), w1)
    | [m0] =>
        deferred "problem while replaying transport: %w"
          (let* read := fs_ReadFile fsys m0 in
           match read with
           | Err e => ret (None, Some (ErrLib e))
           | Ok b' => ReadResponse http b' req
           end) w1
    | _ :: _ :: _ =>
        Some ((None, Some (replaying
                 (Errorf "ambiguous response: multiple replay files match %q" [glob]))), w1)
    end.
Proof.
  intros Hreq Hdump.
  destruct (glob_pattern_plain b) as [Hp Hb].
  unfold ReplayFS, fixtures_for, listing.
  destruct (buildName b) as [reqname name] eqn:Hname. cbn [snd] in *.
  run. rewrite Hreq. run. rewrite Hdump, Hname. run.
  rewrite (path_Match_star name EmptyString Hp Hb). run.
  destruct (FS_ReadDir fsys (disk w) ".") as [names|e]; run.
  - rewrite (glob_names_star name names Hp Hb).
    destruct (List.filter (fixture_named name) names) as [|m0 [|m1 ms]];
      reflexivity.
  - reflexivity.
Qed.

(** When the request cannot be dumped, nothing is looked up. *)
Lemma ReplayFS_dump_error (req : loc) (w : World) (r : Request) (e : LibError) :
  requests w !! req = Some r ->
  httputil_DumpRequest http r = Err e ->
  ReplayFS http fsys req w = Some ((None, Some (replaying (ErrLib e))), w).
Proof.
  intros Hreq Hdump.
  unfold ReplayFS. run. rewrite Hreq. run. rewrite Hdump. reflexivity.
Qed.

Lemma ReplayFS_nil (req : loc) (w : World) :
  requests w !! req = None -> ReplayFS http fsys req w = None.
Proof.
  intros Hreq.
  unfold ReplayFS. run. rewrite Hreq. reflexivity.
Qed.

End ReplayFS_run.

(** ** Record, step by step *)

Lemma set_Body_Body (r : Request) : set_Body (Body r) r = r.
Proof. destruct r; reflexivity. Qed.

(** A new object never sits where a live one does. *)
Lemma fresh_request (h : gmap loc Request) (p : loc) (r : Request) :
  h !! p = Some r -> fresh (dom h) <> p.
Proof.
  intros Hp Heq. apply (is_fresh (dom h)). rewrite Heq.
  apply elem_of_dom. eauto.
Qed.

(** Projections of an updated world. *)
Ltac wsimpl :=
  cbv beta iota delta [log with_requests with_responses with_disk];
  cbn [requests responses disk trace fst snd].

(** Lookups in the heap of requests after the updates of a round trip. *)
Ltac heap :=
  repeat (progress
            (wsimpl; cbv beta iota;
             try first [ rewrite lookup_insert_eq
                       | rewrite lookup_insert_ne by assumption
                       | rewrite insert_insert_eq
                       | rewrite set_Body_Body
                       | match goal with
                         | H : requests _ !! _ = Some _ |- _ => rewrite H
                         end ])).

Section Record_run.

Variable os : OSEnv.
Variable http : HTTPLib.
Variable rt : option RoundTripper.
Variable basepath : string.
Variable f : option Filters.

(** The whole of a recorded round trip, by the outcome of each step. *)
Lemma Record_run (req : loc) (w : World) (r : Request) :
  requests w !! req = Some r ->
  (Record os http rt basepath f req w) =
    let dumpReq := fresh (dom (requests w)) in
    let res := fresh (dom (responses w)) in
    let d := request_filter f r in
    let sent := set_Body (Body d) r in
    let h2 := <[dumpReq := d]> (requests w) in
    let h3 := <[req := sent]> h2 in
    let '(merr, d1) := match make_dir os (disk w) basepath with
                       | Ok d1 => (None, d1)
                       | Err e => (Some e, disk w)
                       end in
    let t1 := trace w ++ [EvMkdirAll basepath merr] in
    match httputil_DumpRequest http d with
    | Err e => Some ((None, Some (recording (ErrLib e))), mkWorld h2 (responses w) d1 t1)
    | Ok b =>
        let reqname := (buildName b).1 in
        let resname := (buildName b).2 in
        match write_file os d1 basepath reqname b with
        | Err e =>
            Some ((None, Some (recording (ErrLib e))),
                  mkWorld h3 (responses w) (failed_write os d1 basepath reqname b)
                    (t1 ++ [EvWriteFile basepath reqname b (Some e)]))
        | Ok d2 =>
            let t3 := (t1 ++ [EvWriteFile basepath reqname b None])
                        ++ [EvRoundTrip sent (live http rt sent).2] in
            match live http rt sent with
            | (None, Some e) =>
                Some ((None, Some (recording e)), mkWorld h3 (responses w) d2 t3)
            | (Some live_res, Some e) =>
                Some ((Some res, Some (recording e)),
                      mkWorld h3 (<[res := live_res]> (responses w)) d2 t3)
            | (None, None) => None
            | (Some live_res, None) =>
                let kept := response_filter f live_res in
                let rs := <[res := kept]> (responses w) in
                match httputil_DumpResponse http kept with
                | Err e => Some ((None, Some (recording (ErrLib e))), mkWorld h3 rs d2 t3)
                | Ok b' =>
                    match write_file os d2 basepath resname b' with
                    | Err e =>
                        Some ((None, Some (recording (ErrLib e))),
                              mkWorld h3 rs (failed_write os d2 basepath resname b')
                                (t3 ++ [EvWriteFile basepath resname b' (Some e)]))
                    | Ok d3 =>
                        Some ((Some res, None),
                              mkWorld h3 rs d3
                                (t3 ++ [EvWriteFile basepath resname b' None]))
                    end
                end
            end
        end
    end.
Proof.
  intros Hreq.
  pose proof (fresh_request _ _ _ Hreq) as Hne.
  unfold Record. run.
  destruct (make_dir os (disk w) basepath) as [d1|me]; heap;
    destruct f as [[[g|] [rf|]]|];
    cbv beta iota delta [request_filter response_filter live]; heap;
    match goal with
    | |- context [httputil_DumpRequest http ?x] =>
        destruct (httputil_DumpRequest http x) as [b|e]
    end; try reflexivity;
    heap; destruct (buildName b) as [reqname resname]; heap;
    match goal with
    | |- context [write_file os ?d ?p ?n ?c] =>
        destruct (write_file os d p n c) as [d2|e]
    end; try reflexivity;
    heap;
    match goal with
    | |- context [match rt with Some x => x | None => ?y end ?a] =>
        destruct (match rt with Some x => x | None => y end a) as [[lr|] [e|]]
    end; heap; try reflexivity;
    match goal with
    | |- context [httputil_DumpResponse http ?x] =>
        destruct (httputil_DumpResponse http x) as [b'|e]
    end; try reflexivity;
    heap;
    match goal with
    | |- context [write_file os ?d ?p ?n ?c] =>
        destruct (write_file os d p n c) as [d3|e]
    end; reflexivity.
Qed.

End Record_run.

(** ** Errors and their causes *)

Lemma errors_Is_refl (e : error) : errors_Is e e = true.
Proof.
  destruct e; cbn [errors_Is];
    match goal with |- context [decide ?P] => destruct (decide P) end;
    congruence.
Qed.

(** [errors.Is(err, errNotFound)] holds exactly of the chains that end in
    the sentinel. *)
Lemma errors_Is_errNotFound (e : error) :
  errors_Is e errNotFound = true <-> root_cause e = errNotFound.
Proof.
  induction e as [| | | |fmt e IH args]; cbn [errors_Is root_cause];
    match goal with |- context [decide ?P] => destruct (decide P) end;
    try discriminate; try exact IH;
    split; congruence.
Qed.

(** ** Replaying *)

Section Replaying.

Variable http : HTTPLib.
Variable fsys : FS.

(** C3.  When more than one stored file name ends with the response
    file name of the request, the transport of [ReplayFS] fails with the
    "ambiguous response" error: it returns no response, reads no fixture
    and makes no response object; all it did was list the store. *)
Theorem ReplayFS_ambiguous (req : loc) (w : World) (r : Request) (b : bytes) :
  requests w !! req = Some r ->
  httputil_DumpRequest http r = Ok b ->
  (1 < length (fixtures_for fsys (disk w) b))%nat ->
  ReplayFS http fsys req w =
    Some ((None,
           Some (replaying
                   (Errorf "ambiguous response: multiple replay files match %q"
                      ["*" +:+ (buildName b).2]))),
          log (EvReadDir ".") w).
Proof.
  intros Hreq Hdump Hmany.
  rewrite (ReplayFS_run http fsys req w r b Hreq Hdump).
  destruct (fixtures_for fsys (disk w) b) as [|m0 [|m1 ms]];
    simpl in Hmany; try lia.
  reflexivity.
Qed.

(** C4.  When no stored file name ends with the response file name of
    the request (the empty store included), the transport of [ReplayFS]
    fails with an error that wraps [errNotFound], so that
    [errors.Is(err, errNotFound)] holds of it; and [errors.Is] holds of
    no error that the transport returns for another reason: one that it
    does hold of comes from a call that found no fixture, never from a
    request that could not be serialized, a fixture that could not be
    read or parsed, or an ambiguous match. *)
Theorem ReplayFS_not_found (req : loc) (w : World) (r : Request) (b : bytes) :
  requests w !! req = Some r ->
  httputil_DumpRequest http r = Ok b ->
  fixtures_for fsys (disk w) b = [] ->
  (exists e,
      ReplayFS http fsys req w = Some ((None, Some e), log (EvReadDir ".") w)
      /\ errors_Is e errNotFound = true)
  /\ (forall req' w' out e' w'',
         ReplayFS http fsys req' w' = Some ((out, Some e'), w'') ->
         errors_Is e' errNotFound = true ->
         exists r' b',
           requests w' !! req' = Some r'
           /\ httputil_DumpRequest http r' = Ok b'
           /\ fixtures_for fsys (disk w') b' = []).
Proof.
  intros Hreq Hdump Hnone. split.
  - rewrite (ReplayFS_run http fsys req w r b Hreq Hdump), Hnone.
    eexists. split; [reflexivity|]. reflexivity.
  - intros req' w' out e' w'' Hrun His.
    destruct (requests w' !! req') as [r'|] eqn:Hreq';
      [|rewrite (ReplayFS_nil http fsys req' w' Hreq') in Hrun; discriminate].
    destruct (httputil_DumpRequest http r') as [b'|e] eqn:Hdump'.
    + exists r', b'. split; [reflexivity|]. split; [exact Hdump'|].
      rewrite (ReplayFS_run http fsys req' w' r' b' Hreq' Hdump') in Hrun.
      destruct (fixtures_for fsys (disk w') b') as [|m0 [|m1 ms]];
        [reflexivity | |].
      * exfalso. revert Hrun. run. wsimpl.
        destruct (FS_ReadFile fsys (disk w') m0) as [c|e].
        -- heap.
           destruct (http_ReadResponse http c r') as [res|e]; intros [= <- <- <-];
             discriminate His.
        -- intros [= <- <- <-]. discriminate His.
      * injection Hrun as <- <- <-. discriminate His.
    + rewrite (ReplayFS_dump_error http fsys req' w' r' e Hreq' Hdump') in Hrun.
      injection Hrun as <- <- <-. discriminate His.
Qed.

(** C9.  The transport of [ReplayFS] invokes no network transport: the
    events of a call are reads of the fixture store.  And it is
    deterministic: two calls with requests that serialize to the same
    bytes, against the same files, either fail with the same error or
    both return what [http.ReadResponse] makes of the same fixture
    bytes. *)
Theorem ReplayFS_offline_deterministic
    (req1 req2 : loc) (w1 w2 : World) (r1 r2 : Request) :
  requests w1 !! req1 = Some r1 ->
  requests w2 !! req2 = Some r2 ->
  httputil_DumpRequest http r1 = httputil_DumpRequest http r2 ->
  disk w1 = disk w2 ->
  (forall out w1',
      ReplayFS http fsys req1 w1 = Some (out, w1') ->
      exists evs, trace w1' = trace w1 ++ evs
                  /\ Forall (fun e => is_network e = false) evs)
  /\ ((exists e,
          fst <$> ReplayFS http fsys req1 w1 = Some (None, Some e)
          /\ fst <$> ReplayFS http fsys req2 w2 = Some (None, Some e))
      \/ (exists name fixture,
             FS_ReadFile fsys (disk w1) name = Ok fixture
             /\ ReplayFS http fsys req1 w1 =
                  deferred "problem while replaying transport: %w"
                    (ReadResponse http fixture req1)
                    (log (EvReadFile name) (log (EvReadDir ".") w1))
             /\ ReplayFS http fsys req2 w2 =
                  deferred "problem while replaying transport: %w"
                    (ReadResponse http fixture req2)
                    (log (EvReadFile name) (log (EvReadDir ".") w2)))).
Proof.
  intros Hreq1 Hreq2 Hsame Hdisk. split.
  - intros out w1' Hrun.
    destruct (httputil_DumpRequest http r1) as [b|e] eqn:Hdump.
    + rewrite (ReplayFS_run http fsys req1 w1 r1 b Hreq1 Hdump) in Hrun.
      destruct (fixtures_for fsys (disk w1) b) as [|m0 [|m1 ms]].
      * injection Hrun as <- <-. exists [EvReadDir "."]. split; [reflexivity|].
        repeat constructor.
      * revert Hrun. run. wsimpl.
        destruct (FS_ReadFile fsys (disk w1) m0) as [c|e]; heap;
          [destruct (http_ReadResponse http c r1) as [res|e]|];
          intros [= <- <-]; exists [EvReadDir "."; EvReadFile m0];
          wsimpl; rewrite <- app_assoc;
          (split; [reflexivity | repeat constructor]).
      * injection Hrun as <- <-. exists [EvReadDir "."]. split; [reflexivity|].
        repeat constructor.
    + rewrite (ReplayFS_dump_error http fsys req1 w1 r1 e Hreq1 Hdump) in Hrun.
      injection Hrun as <- <-. exists []. split; [now rewrite app_nil_r|].
      constructor.
  - destruct (httputil_DumpRequest http r1) as [b|e] eqn:Hdump1;
      symmetry in Hsame.
    + rewrite (ReplayFS_run http fsys req1 w1 r1 b Hreq1 Hdump1),
              (ReplayFS_run http fsys req2 w2 r2 b Hreq2 Hsame), <- Hdisk.
      destruct (fixtures_for fsys (disk w1) b) as [|m0 [|m1 ms]].
      * left. eexists. split; reflexivity.
      * destruct (FS_ReadFile fsys (disk w1) m0) as [c|e] eqn:Hread.
        -- right. exists m0, c. split; [exact Hread|].
           run. wsimpl. rewrite <- Hdisk, Hread. split; reflexivity.
        -- left. run. wsimpl. rewrite <- Hdisk, Hread. eexists.
           split; reflexivity.
      * left. eexists. split; reflexivity.
    + rewrite (ReplayFS_dump_error http fsys req1 w1 r1 e Hreq1 Hdump1),
              (ReplayFS_dump_error http fsys req2 w2 r2 e Hreq2 Hsame).
      left. eexists. split; reflexivity.
Qed.

End Replaying.

(** ** The two names *)


Lemma buildName_distinct (b : bytes) : (buildName b).1 <> (buildName b).2.
Proof.
  destruct (buildName_shape b) as (prefix & _ & _ & ->). cbn [fst snd].
  intros H. apply (f_equal list_ascii_of_string) in H.
  rewrite !list_ascii_of_string_app in H. apply app_inv_head in H.
  discriminate H.
Qed.

(** The response file name is a fixture name for itself; the request file
    name is not, and neither ends with the other's suffix. *)
Lemma resname_fixture (b : bytes) :
  fixture_named (buildName b).2 (buildName b).2 = true.
Proof.
  destruct (glob_pattern_plain b) as [_ Hb]. unfold fixture_named.
  rewrite Hb. apply bool_decide_eq_true. reflexivity.
Qed.

Lemma reqname_not_fixture (b : bytes) :
  fixture_named (buildName b).2 (buildName b).1 = false.
Proof.
  destruct (buildName_shape b) as (prefix & _ & _ & ->). cbn [fst snd].
  unfold fixture_named, strings_HasSuffix.
  apply andb_false_iff. right. apply bool_decide_eq_false.
  rewrite !list_ascii_of_string_app. intros H.
  apply suffix_length_eq in H; [|rewrite !length_app; reflexivity].
  apply app_inv_head in H. discriminate H.
Qed.


(** ** The disk under MkdirAll and WriteFile *)

Section Disk.

Variable os : OSEnv.

Lemma make_dir_stored (d d' : gmap string (gmap string bytes)) (path name : string) :
  make_dir os d path = Ok d' -> stored d' path name = stored d path name.
Proof.
  unfold make_dir, stored.
  destruct (mkdir_fault os d path); [discriminate|].
  destruct (d !! path) as [entries|] eqn:Hd; intros [= <-].
  - rewrite Hd. reflexivity.
  - rewrite lookup_insert_eq. rewrite lookup_empty. reflexivity.
Qed.

Lemma write_file_Ok (d d' : gmap string (gmap string bytes)) (dir name : string)
    (data : bytes) :
  write_file os d dir name data = Ok d' ->
  exists entries,
    d !! dir = Some entries /\ d' = <[dir := <[name := data]> entries]> d.
Proof.
  unfold write_file.
  destruct (write_fault os d dir name) as [[e|e n]|]; [discriminate| |].
  - destruct (d !! dir); discriminate.
  - destruct (d !! dir) as [entries|]; [|discriminate].
    intros [= <-]. exists entries. auto.
Qed.

Lemma write_file_stored (d d' : gmap string (gmap string bytes)) (dir name : string)
    (data : bytes) :
  write_file os d dir name data = Ok d' ->
  stored d' dir name = Some data
  /\ forall other, other <> name -> stored d' dir other = stored d dir other.
Proof.
  intros H. apply write_file_Ok in H as (entries & Hd & ->).
  unfold stored. rewrite lookup_insert_eq, Hd. split.
  - apply lookup_insert_eq.
  - intros other Hne. apply lookup_insert_ne. congruence.
Qed.

End Disk.

(** ** Recording *)

(** Brings [trace w' = trace w ++ evs] to an equation on [evs]. *)
Ltac traces :=
  repeat match goal with
         | H : trace _ = _ |- _ => progress cbn [trace] in H
         | H : ((_ ++ _) ++ _) = _ |- _ => rewrite <- !app_assoc in H
         | H : ?t ++ _ = ?t ++ _ |- _ => apply app_inv_head in H
         end.

(** Splits a run described by [Record_run] into its outcomes. *)
Ltac outcomes H :=
  cbv zeta in H;
  repeat match type of H with
         | context [make_dir ?os ?d ?p] =>
             destruct (make_dir os d p) eqn:?
         | context [httputil_DumpRequest ?h ?x] =>
             destruct (httputil_DumpRequest h x) eqn:?
         | context [write_file ?os ?d ?p ?n ?c] =>
             destruct (write_file os d p n c) eqn:?
         | context [live ?h ?rt ?x] =>
             destruct (live h rt x) as [[?|] [?|]] eqn:?
         | context [httputil_DumpResponse ?h ?x] =>
             destruct (httputil_DumpResponse h x) eqn:?
         end;
  try discriminate H;
  apply (inj Some) in H; apply pair_eq in H as [<- <-].

Lemma errors_Is_wrapped (format : string) (e : error) (args : list string) :
  errors_Is (Errorf_w format e args) e = true.
Proof.
  cbn [errors_Is]. destruct (decide _); [reflexivity | apply errors_Is_refl].
Qed.

Section Recording.

Variable os : OSEnv.
Variable http : HTTPLib.
Variable rt : option RoundTripper.
Variable basepath : string.
Variable f : option Filters.

(** C8.  In a call in which the underlying transport returns an error,
    the caller gets that error wrapped ([errors.Is] still finds it) after
    a single attempt: the events of the call are the making of the
    directory, the successful write of the request fixture and one round
    trip, in this order.  The request fixture is in the store, and what
    the store holds under the response file name is what it held
    before. *)
Theorem Record_transport_error
    (req : loc) (w w' : World) (r sent : Request)
    (out : option loc * option error) (evs : list Event) (e : error) :
  requests w !! req = Some r ->
  (Record os http rt basepath f req w) = Some (out, w') ->
  trace w' = trace w ++ evs ->
  In (EvRoundTrip sent (Some e)) evs ->
  exists merr b,
    httputil_DumpRequest http (request_filter f r) = Ok b
    /\ sent = sent_request f r
    /\ (live http rt sent).2 = Some e
    /\ out.2 = Some (recording e)
    /\ errors_Is (recording e) e = true
    /\ evs = [EvMkdirAll basepath merr;
              EvWriteFile basepath (buildName b).1 b None;
              EvRoundTrip sent (Some e)]
    /\ stored (disk w') basepath (buildName b).1 = Some b
    /\ stored (disk w') basepath (buildName b).2
       = stored (disk w) basepath (buildName b).2.
Proof.
  intros Hreq Hrun Htrace Hin.
  rewrite (Record_run os http rt basepath f req w r Hreq) in Hrun.
  outcomes Hrun; traces; subst evs; cbn [In snd] in *;
    repeat (destruct Hin as [Hin|Hin]); try discriminate Hin; try contradiction.
  all: injection Hin as <- <-.
  all: match goal with
       | Hw : write_file _ _ _ _ ?b = Ok _ |- _ =>
           destruct (write_file_stored _ _ _ _ _ _ Hw) as [Hput Hkeep];
           eexists _, b
       end.
  all: repeat split; cbn [disk app];
    try (rewrite Hkeep by (symmetry; apply buildName_distinct));
    first [ reflexivity
          | exact Hput
          | apply errors_Is_wrapped
          | eapply make_dir_stored; eassumption
          | match goal with
            | H : live _ _ _ = _ |- _ => rewrite H; reflexivity
            end ].
Qed.





(** C6, as amended.  The response filter is applied in place: the
    response handed back to the caller is the filtered response, the
    very object whose dump is stored as the response fixture. *)
Theorem Record_filters_response_in_place
    (req : loc) (w w' : World) (r : Request) (p : loc) :
  requests w !! req = Some r ->
  (Record os http rt basepath f req w) = Some ((Some p, None), w') ->
  exists live_res b b',
    live http rt (sent_request f r) = (Some live_res, None)
    /\ responses w' !! p = Some (response_filter f live_res)
    /\ httputil_DumpRequest http (request_filter f r) = Ok b
    /\ httputil_DumpResponse http (response_filter f live_res) = Ok b'
    /\ stored (disk w') basepath (buildName b).2 = Some b'
    /\ exists evs,
        trace w' = trace w ++ evs
        /\ In (EvWriteFile basepath (buildName b).2 b' None) evs.
Proof.
  intros Hreq Hrun.
  rewrite (Record_run os http rt basepath f req w r Hreq) in Hrun.
  cbv zeta in Hrun. fold (sent_request f r) in Hrun.
  repeat match type of Hrun with
         | context [make_dir ?os ?d ?p] =>
             destruct (make_dir os d p) eqn:?
         | context [httputil_DumpRequest ?h ?x] =>
             destruct (httputil_DumpRequest h x) eqn:?
         | context [write_file ?os ?d ?p ?n ?c] =>
             destruct (write_file os d p n c) eqn:?
         | context [live ?h ?rt ?x] =>
             destruct (live h rt x) as [[?|] [?|]] eqn:?
         | context [httputil_DumpResponse ?h ?x] =>
             destruct (httputil_DumpResponse h x) eqn:?
         end;
    try discriminate Hrun.
  all: apply (inj Some) in Hrun; apply pair_eq in Hrun as [Hout <-];
    assert (p = fresh (dom (responses w))) as -> by congruence; clear Hout.
  all: match goal with
       | Hw : write_file _ _ _ (buildName _).2 _ = Ok _ |- _ =>
           destruct (write_file_stored _ _ _ _ _ _ Hw) as [Hput _]
       end.
  all: eexists _, _, _; cbn [responses disk trace];
    repeat split; try eassumption; try apply lookup_insert_eq;
    eexists; rewrite <- !app_assoc; (split; [reflexivity|]);
    cbn [app In]; auto.
Qed.

(** C7, as amended.  A failure to create the store directory is
    discarded: the call goes on to dump the request and to attempt the
    write of the request fixture; when that write succeeds the
    underlying transport is invoked, and when it fails the call returns
    the wrapped write error. *)
Theorem Record_ignores_MkdirAll_error
    (req : loc) (w : World) (r : Request) (e : LibError) (b : bytes) :
  requests w !! req = Some r ->
  make_dir os (disk w) basepath = Err e ->
  httputil_DumpRequest http (request_filter f r) = Ok b ->
  live http rt (sent_request f r) <> (None, None) ->
  exists out w' werr evs,
    (Record os http rt basepath f req w) = Some (out, w')
    /\ trace w' = trace w ++ EvMkdirAll basepath (Some e)
                    :: EvWriteFile basepath (buildName b).1 b werr :: evs
    /\ (werr = None ->
        exists rest,
          evs = EvRoundTrip (sent_request f r)
                  (live http rt (sent_request f r)).2 :: rest)
    /\ (forall e', werr = Some e' ->
                   out = (None, Some (recording (ErrLib e'))) /\ evs = []).
Proof.
  intros Hreq Hmk Hdump Hlive.
  rewrite (Record_run os http rt basepath f req w r Hreq).
  cbv zeta. fold (sent_request f r). rewrite Hmk, Hdump.
  destruct (write_file os (disk w) basepath (buildName b).1 b) as [d2|we].
  - destruct (live http rt (sent_request f r)) as [[lr|] [te|]] eqn:Hrt;
      try congruence;
      [| destruct (httputil_DumpResponse http (response_filter f lr)) as [b'|de];
         [destruct (write_file os d2 basepath (buildName b).2 b') as [d3|we]|] |];
      eexists _, _, None, _; cbn [trace]; rewrite <- !app_assoc; cbn [app];
      (split; [reflexivity|]); (split; [reflexivity|]);
      (split; [intros _; eexists; reflexivity | intros ? [=]]).
  - eexists _, _, (Some we), []. cbn [trace]. rewrite <- !app_assoc. cbn [app].
    split; [reflexivity|]. split; [reflexivity|].
    split; [intros [=] | intros ? [= <-]; auto].
Qed.


End Recording.

Lemma filter_none {A : Type} (P : A -> bool) (l : list A) :
  (forall y, y ∈ l -> P y = false) -> List.filter P l = [].
Proof.
  induction l as [|a l IH]; intros H; [reflexivity|].
  cbn [List.filter]. rewrite (H a) by left.
  apply IH. intros y Hy. apply H. now right.
Qed.

Lemma filter_one {A : Type} (P : A -> bool) (l : list A) (x : A) :
  NoDup l -> x ∈ l -> P x = true ->
  (forall y, y ∈ l -> P y = true -> y = x) ->
  List.filter P l = [x].
Proof.
  induction l as [|a l IH]; intros Hnd Hx HP Huniq.
  - inversion Hx.
  - apply NoDup_cons in Hnd as [Ha Hnd]. cbn [List.filter].
    apply elem_of_cons in Hx as [<- | Hx].
    + rewrite HP. f_equal. apply filter_none. intros y Hy.
      destruct (P y) eqn:HPy; [|reflexivity].
      exfalso. apply Ha. rewrite <- (Huniq y); [exact Hy | now right | exact HPy].
    + destruct (P a) eqn:HPa.
      * exfalso. apply Ha. rewrite (Huniq a); [exact Hx | now left | exact HPa].
      * apply IH; auto. intros y Hy. apply Huniq. now right.
Qed.

Section Round_trip.

Variable os : OSEnv.
Variable http : HTTPLib.
Variable rt : option RoundTripper.
Variable basepath : string.
Variable f : option Filters.

Lemma no_filters_id :
  no_filters f = true ->
  (forall r, request_filter f r = r) /\ (forall r, response_filter f r = r).
Proof.
  destruct f as [[[g|] [g'|]]|]; cbn; intros H; try discriminate H; auto.
Qed.

(** The one fixture of a request in a directory where a response fixture
    was just written and no other name ends with its name. *)
Lemma fixtures_after_write
    (d : gmap string (gmap string bytes)) (entries : gmap string bytes)
    (b content : bytes) :
  basepath <> EmptyString ->
  d !! basepath = Some (<[(buildName b).2 := content]> entries) ->
  (forall n, is_Some (entries !! n) ->
             fixture_named (buildName b).2 n = true -> n = (buildName b).2) ->
  fixtures_for (os_DirFS basepath) d b = [(buildName b).2].
Proof.
  intros Hbase Hd Huniq. unfold fixtures_for, listing, os_DirFS. cbn [FS_ReadDir].
  rewrite decide_False by exact Hbase.
  rewrite Hd, decide_True by reflexivity.
  apply filter_one.
  - apply NoDup_fst_map_to_list.
  - apply list_elem_of_fmap. exists ((buildName b).2, content). split; [reflexivity|].
    apply elem_of_map_to_list. apply lookup_insert_eq.
  - apply resname_fixture.
  - intros y Hy Hfix. apply list_elem_of_fmap in Hy as ([n c] & -> & Hin).
    apply elem_of_map_to_list in Hin. cbn [fst] in *.
    destruct (decide (n = (buildName b).2)) as [->|Hne]; [reflexivity|].
    rewrite lookup_insert_ne in Hin by congruence.
    apply Huniq; eauto.
Qed.

(** Replaying against a directory that holds one fixture for the
    request serves that fixture. *)
Lemma Replay_serves
    (req' : loc) (w1 : World) (r' : Request) (b content : bytes)
    (entries : gmap string bytes) :
  basepath <> EmptyString ->
  requests w1 !! req' = Some r' ->
  httputil_DumpRequest http r' = Ok b ->
  disk w1 !! basepath = Some (<[(buildName b).2 := content]> entries) ->
  (forall n, is_Some (entries !! n) ->
             fixture_named (buildName b).2 n = true -> n = (buildName b).2) ->
  Replay http basepath req' w1 =
    deferred "problem while replaying transport: %w"
      (ReadResponse http content req')
      (log (EvReadFile (buildName b).2) (log (EvReadDir ".") w1)).
Proof.
  intros Hbase Hreq' Hdump' Hd Huniq. unfold Replay.
  rewrite (ReplayFS_run http (os_DirFS basepath) req' w1 r' b Hreq' Hdump').
  cbv zeta. rewrite (fixtures_after_write _ _ _ _ Hbase Hd Huniq).
  run. wsimpl. unfold os_DirFS. cbn [FS_ReadFile].
  rewrite decide_False by exact Hbase.
  rewrite Hd, lookup_insert_eq. reflexivity.
Qed.

(** The store after a successful recording. *)
Lemma Record_store
    (req : loc) (w w1 : World) (r : Request) (p : loc) :
  requests w !! req = Some r ->
  (Record os http rt basepath f req w) = Some ((Some p, None), w1) ->
  exists b res c entries,
    httputil_DumpRequest http (request_filter f r) = Ok b
    /\ live http rt (sent_request f r) = (Some res, None)
    /\ httputil_DumpResponse http (response_filter f res) = Ok c
    /\ responses w1 !! p = Some (response_filter f res)
    /\ disk w1 !! basepath = Some (<[(buildName b).2 := c]> (<[(buildName b).1 := b]> entries))
    /\ (forall n, is_Some (entries !! n) -> is_Some (stored (disk w) basepath n)).
Proof.
  intros Hreq Hrun.
  rewrite (Record_run os http rt basepath f req w r Hreq) in Hrun.
  cbv zeta in Hrun. fold (sent_request f r) in Hrun.
  destruct (httputil_DumpRequest http (request_filter f r)) as [b|] eqn:Hdump;
    [|destruct (make_dir os (disk w) basepath); discriminate Hrun].
  destruct (live http rt (sent_request f r)) as [[lr|] [te|]] eqn:Hlive;
    try (destruct (make_dir os (disk w) basepath);
         destruct (write_file os _ basepath (buildName b).1 b); discriminate Hrun).
  destruct (httputil_DumpResponse http (response_filter f lr)) as [c|] eqn:Hdump';
    [|destruct (make_dir os (disk w) basepath);
      destruct (write_file os _ basepath (buildName b).1 b); discriminate Hrun].
  exists b, lr, c.
  destruct (make_dir os (disk w) basepath) as [d1|] eqn:Hmk;
    destruct (write_file os _ basepath (buildName b).1 b) as [d2|] eqn:Hw1;
    try discriminate Hrun;
    destruct (write_file os d2 basepath (buildName b).2 c) as [d3|] eqn:Hw2;
    try discriminate Hrun;
    apply (inj Some) in Hrun; apply pair_eq in Hrun as [Hout <-];
    assert (p = fresh (dom (responses w))) as -> by congruence;
    cbn [responses disk];
    apply write_file_Ok in Hw1 as (e1 & He1 & ->);
    apply write_file_Ok in Hw2 as (e2 & He2 & ->);
    rewrite lookup_insert_eq in He2; apply (inj Some) in He2; subst e2;
    exists e1; rewrite !lookup_insert_eq;
    do 5 (split; [first [reflexivity | assumption]|]);
    intros n Hn; try rewrite <- (make_dir_stored os _ _ _ n Hmk);
    unfold stored; rewrite He1; exact Hn.
Qed.

(** The caller's request after a successful recording. *)
Lemma Record_caller_request
    (req : loc) (w w1 : World) (r : Request) (p : loc) :
  requests w !! req = Some r ->
  (Record os http rt basepath f req w) = Some ((Some p, None), w1) ->
  requests w1 !! req = Some (sent_request f r).
Proof.
  intros Hreq Hrun.
  rewrite (Record_run os http rt basepath f req w r Hreq) in Hrun.
  cbv zeta in Hrun. fold (sent_request f r) in Hrun.
  destruct (httputil_DumpRequest http (request_filter f r)) as [b|] eqn:Hdump;
    [|destruct (make_dir os (disk w) basepath); discriminate Hrun].
  destruct (live http rt (sent_request f r)) as [[lr|] [te|]] eqn:Hlive;
    try (destruct (make_dir os (disk w) basepath);
         destruct (write_file os _ basepath (buildName b).1 b); discriminate Hrun).
  destruct (httputil_DumpResponse http (response_filter f lr)) as [c|] eqn:Hdump';
    [|destruct (make_dir os (disk w) basepath);
      destruct (write_file os _ basepath (buildName b).1 b); discriminate Hrun].
  destruct (make_dir os (disk w) basepath) as [d1|] eqn:Hmk;
    destruct (write_file os _ basepath (buildName b).1 b) as [d2|] eqn:Hw1;
    try discriminate Hrun;
    destruct (write_file os d2 basepath (buildName b).2 c) as [d3|] eqn:Hw2;
    try discriminate Hrun;
    apply (inj Some) in Hrun; apply pair_eq in Hrun as [_ <-];
    cbn [requests]; apply lookup_insert_eq.
Qed.

(** What a replay returns once the one fixture of the request is read:
    the response [http.ReadResponse] parses from it, as a new object, or
    the wrapped error of the parse. *)
Lemma Replay_parses
    (req' : loc) (w1 : World) (r' : Request) (b content : bytes)
    (entries : gmap string bytes) :
  basepath <> EmptyString ->
  requests w1 !! req' = Some r' ->
  httputil_DumpRequest http r' = Ok b ->
  disk w1 !! basepath = Some (<[(buildName b).2 := content]> entries) ->
  (forall n, is_Some (entries !! n) ->
             fixture_named (buildName b).2 n = true -> n = (buildName b).2) ->
  match http_ReadResponse http content r' with
  | Ok replayed =>
      exists q w2,
        Replay http basepath req' w1 = Some ((Some q, None), w2)
        /\ responses w1 !! q = None
        /\ responses w2 !! q = Some replayed
  | Err e =>
      exists w2,
        Replay http basepath req' w1
        = Some ((None, Some (replaying (ErrLib e))), w2)
  end.
Proof.
  intros Hbase Hreq' Hdump' Hd Huniq.
  pose proof (Replay_serves req' w1 r' b content entries Hbase Hreq' Hdump' Hd Huniq)
    as Hrun.
  revert Hrun. run. wsimpl. rewrite Hreq'.
  destruct (http_ReadResponse http content r') as [replayed|e]; intros Hrun.
  - eexists _, _. split; [exact Hrun|]. cbn [responses].
    split; [|apply lookup_insert_eq].
    apply eq_None_not_Some. intros Hs. apply elem_of_dom in Hs.
    exact (is_fresh _ Hs).
  - eexists. exact Hrun.
Qed.

(** C1, as amended.  With no filters installed and a base path that is
    not empty, a request and the response recorded for it, in a store
    that held no other file whose name ends with the response file name:
    the response fixture holds the bytes [httputil.DumpResponse] wrote
    for the recorded response, and replaying a request with the same
    dump returns what [http.ReadResponse] reads from those bytes, the
    parsed response with a nil error or the wrapped error of the
    parse. *)
Theorem Record_then_Replay
    (req req' : loc) (w w1 : World) (r r' : Request) (b : bytes)
    (p : loc) (recorded : Response) :
  basepath <> EmptyString ->
  no_filters f = true ->
  requests w !! req = Some r ->
  (Record os http rt basepath f req w) = Some ((Some p, None), w1) ->
  responses w1 !! p = Some recorded ->
  requests w1 !! req' = Some r' ->
  httputil_DumpRequest http r = Ok b ->
  httputil_DumpRequest http r' = Ok b ->
  (forall n, is_Some (stored (disk w) basepath n) ->
             fixture_named (buildName b).2 n = true -> n = (buildName b).2) ->
  exists fixture,
    httputil_DumpResponse http recorded = Ok fixture
    /\ stored (disk w1) basepath (buildName b).2 = Some fixture
    /\ match http_ReadResponse http fixture r' with
       | Ok replayed =>
           exists q w2,
             Replay http basepath req' w1 = Some ((Some q, None), w2)
             /\ responses w1 !! q = None
             /\ responses w2 !! q = Some replayed
       | Err e =>
           exists w2,
             Replay http basepath req' w1
             = Some ((None, Some (replaying (ErrLib e))), w2)
       end.
Proof.
  intros Hbase Hnf Hreq Hrun Hrec Hreq' Hdump Hdump' Huniq.
  destruct (no_filters_id Hnf) as [Hqf Hsf].
  destruct (Record_store req w w1 r p Hreq Hrun)
    as (b0 & res & c & entries & Hb0 & Hlive & Hc & Hp & Hd & Hold).
  rewrite Hqf in Hb0. assert (b0 = b) as -> by congruence.
  rewrite Hsf in Hc, Hp. assert (recorded = res) as -> by congruence.
  exists c. split; [exact Hc|].
  split; [unfold stored; rewrite Hd; apply lookup_insert_eq|].
  apply (Replay_parses req' w1 r' b c _ Hbase Hreq' Hdump' Hd).
  intros n Hn Hfix.
  destruct (decide (n = (buildName b).1)) as [->|Hne];
    [rewrite reqname_not_fixture in Hfix; discriminate Hfix|].
  rewrite lookup_insert_ne in Hn by congruence. apply Huniq; auto.
Qed.

End Round_trip.

(** ** The properties on the examples *)

Import example.

(** The names of [get_status], and its recording: a directory made, the
    request fixture written, one round trip, the response fixture
    written. *)
Example get_status_names :
  buildName get_status_bytes = ("F8_GfuNf.req.txt", "F8_GfuNf.res.txt").
Proof. vm_compute. reflexivity. Qed.

Example recorded_run_trace :
  result_of recorded_run = (Some 0%nat, None)
  /\ trace (world_of recorded_run)
     = [ EvMkdirAll "fixtures" None;
         EvWriteFile "fixtures" "F8_GfuNf.req.txt" get_status_bytes None;
         EvRoundTrip get_status None;
         EvWriteFile "fixtures" "F8_GfuNf.res.txt" up_bytes None ].
Proof. split; vm_compute; reflexivity. Qed.

(** Through the request filter the fixture has no Authorization line (and
    another name), and the transport still gets the header. *)
Example filtered_run_fixture :
  stored (disk (world_of filtered_run)) "fixtures" "LCn34liz.req.txt"
  = Some (bytes_of_string
            ("GET /status HTTP/1.1" +:+ wire.CRLF
             +:+ "Host: example.com" +:+ wire.CRLF +:+ wire.CRLF))
  /\ nth_error (trace (world_of filtered_run)) 2 = Some (EvRoundTrip get_status None)
  /\ Header get_status !! "Authorization" = Some ["Bearer X"].
Proof. repeat split; vm_compute; reflexivity. Qed.

(** Through the response filter the caller's response has lost its
    Set-Cookie header. *)
Example cookie_run_response :
  result_of cookie_run = (Some 0%nat, None)
  /\ (ResHeader <$> responses (world_of cookie_run) !! 0%nat)
     = Some {[ "Content-Type" := ["text/plain"] ]}
  /\ ResHeader up !! "Set-Cookie" = Some ["session=1"].
Proof. repeat split; vm_compute; reflexivity. Qed.

(** With the empty base path the directory cannot be made and the
    recording goes through all the same. *)
Example working_dir_run_trace :
  result_of working_dir_run = (Some 0%nat, None)
  /\ trace (world_of working_dir_run)
     = [ EvMkdirAll EmptyString
           (Some (PathError "mkdir" EmptyString "no such file or directory"));
         EvWriteFile EmptyString "F8_GfuNf.req.txt" get_status_bytes None;
         EvRoundTrip get_status None;
         EvWriteFile EmptyString "F8_GfuNf.res.txt" up_bytes None ].
Proof. split; vm_compute; reflexivity. Qed.

(** Next to a labelled fixture the recording succeeds and the replay is
    ambiguous. *)
Example labelled_run_replay :
  result_of labelled_run = (Some 0%nat, None)
  /\ result_of (Replay http "fixtures" 0%nat (world_of labelled_run))
     = (None,
        Some (replaying
                (Errorf "ambiguous response: multiple replay files match %q"
                   ["*F8_GfuNf.res.txt"]))).
Proof. split; vm_compute; reflexivity. Qed.

Lemma ReplayFS_ambiguous_witness :
  ReplayFS http two_fixtures 0%nat start
  = Some ((None,
           Some (replaying
                   (Errorf "ambiguous response: multiple replay files match %q"
                      ["*F8_GfuNf.res.txt"]))),
          log (EvReadDir ".") start).
Proof.
  apply (ReplayFS_ambiguous http two_fixtures 0%nat start get_status get_status_bytes).
  - vm_compute. reflexivity.
  - vm_compute. reflexivity.
  - vm_compute. lia.
Defined.

Lemma ReplayFS_not_found_witness :
  exists e,
    ReplayFS http no_fixture 0%nat start = Some ((None, Some e), log (EvReadDir ".") start)
    /\ errors_Is e errNotFound = true.
Proof.
  apply (ReplayFS_not_found http no_fixture 0%nat start get_status get_status_bytes).
  - vm_compute. reflexivity.
  - vm_compute. reflexivity.
  - vm_compute. reflexivity.
Defined.

Lemma ReplayFS_offline_deterministic_witness :
  exists name fixture,
    FS_ReadFile one_fixture (disk start) name = Ok fixture
    /\ ReplayFS http one_fixture 0%nat start =
         deferred "problem while replaying transport: %w"
           (ReadResponse http fixture 0%nat)
           (log (EvReadFile name) (log (EvReadDir ".") start))
    /\ ReplayFS http one_fixture 0%nat (log (EvReadDir ".") start) =
         deferred "problem while replaying transport: %w"
           (ReadResponse http fixture 0%nat)
           (log (EvReadFile name) (log (EvReadDir ".") (log (EvReadDir ".") start))).
Proof.
  destruct (ReplayFS_offline_deterministic http one_fixture 0%nat 0%nat
              start (log (EvReadDir ".") start) get_status get_status)
    as [_ [(e & H1 & _) | H]].
  - vm_compute. reflexivity.
  - vm_compute. reflexivity.
  - reflexivity.
  - reflexivity.
  - vm_compute in H1. discriminate H1.
  - exact H.
Defined.


Lemma Record_filters_response_in_place_witness :
  responses (world_of cookie_run) !! 0%nat = Some (ResHeader_Del "Set-Cookie" up).
Proof.
  destruct (Record_filters_response_in_place sound_os http (Some upstream) "fixtures"
              (Some (mkFilters None (Some (ResHeader_Del "Set-Cookie"))))
              0%nat start (world_of cookie_run) get_status 0%nat)
    as (live_res & b & b' & Hlive & Hres & _).
  - vm_compute. reflexivity.
  - vm_compute. reflexivity.
  - injection Hlive as <-. exact Hres.
Defined.

Lemma response_filter_alters_live_response :
  ~ live_response_unaltered sound_os http (Some upstream) "fixtures"
      (Some (mkFilters None (Some (ResHeader_Del "Set-Cookie")))) 0%nat start.
Proof.
  intros H.
  specialize (H get_status 0%nat (world_of cookie_run) up None).
  assert (Hup : responses (world_of cookie_run) !! 0%nat = Some up).
  { apply H; vm_compute; reflexivity. }
  vm_compute in Hup. discriminate Hup.
Qed.

Lemma MkdirAll_failure_does_not_abort :
  ~ aborts_when_MkdirAll_fails working_dir_os http (Some upstream) EmptyString None
      0%nat in_working_dir.
Proof.
  intros H.
  destruct (H (PathError "mkdir" EmptyString "no such file or directory") eq_refl)
    as (out & err & w' & evs & Hrun & _).
  vm_compute in Hrun. discriminate Hrun.
Qed.

Lemma Record_ignores_MkdirAll_error_witness :
  exists out w' werr evs,
    working_dir_run = Some (out, w')
    /\ trace w' = trace in_working_dir
                    ++ EvMkdirAll EmptyString
                         (Some (PathError "mkdir" EmptyString "no such file or directory"))
                    :: EvWriteFile EmptyString (buildName get_status_bytes).1 get_status_bytes werr
                    :: evs
    /\ (werr = None ->
        exists rest, evs = EvRoundTrip get_status (upstream get_status).2 :: rest).
Proof.
  destruct (Record_ignores_MkdirAll_error working_dir_os http (Some upstream) EmptyString None
              0%nat in_working_dir get_status
              (PathError "mkdir" EmptyString "no such file or directory") get_status_bytes)
    as (out & w' & werr & evs & H1 & H2 & H3 & _).
  - vm_compute. reflexivity.
  - vm_compute. reflexivity.
  - vm_compute. reflexivity.
  - vm_compute. discriminate.
  - exists out, w', werr, evs. repeat split; assumption.
Defined.

Lemma Record_transport_error_witness :
  (result_of unreachable_run).2
  = Some (recording (ErrTransport "connection refused"))
  /\ stored (disk (world_of unreachable_run)) "fixtures" "F8_GfuNf.req.txt"
     = Some get_status_bytes
  /\ stored (disk (world_of unreachable_run)) "fixtures" "F8_GfuNf.res.txt" = None.
Proof.
  destruct (Record_transport_error sound_os http (Some unreachable) "fixtures" None
              0%nat start (world_of unreachable_run) get_status get_status
              (result_of unreachable_run) (trace (world_of unreachable_run))
              (ErrTransport "connection refused"))
    as (merr & b & Hb & _ & _ & Hout & _ & _ & Hreq & Hres).
  - vm_compute. reflexivity.
  - vm_compute. reflexivity.
  - vm_compute. reflexivity.
  - vm_compute. auto.
  - vm_compute in Hb. injection Hb as <-.
    split; [exact Hout|]. split; [exact Hreq|]. exact Hres.
Defined.

Lemma Record_then_Replay_witness :
  exists q w2 replayed,
    Replay http "fixtures" 0%nat (world_of recorded_run) = Some ((Some q, None), w2)
    /\ responses w2 !! q = Some replayed
    /\ StatusCode replayed = 200
    /\ ResBody replayed = Some (bytes_of_string "up")
    /\ ResHeader replayed = <[ "Content-Length" := ["2"] ]> (ResHeader up).
Proof.
  destruct (Record_then_Replay sound_os http (Some upstream) "fixtures" None
              0%nat 0%nat start (world_of recorded_run) get_status get_status
              get_status_bytes 0%nat up)
    as (fixture & Hfix & _ & Hreplay).
  - discriminate.
  - reflexivity.
  - vm_compute. reflexivity.
  - vm_compute. reflexivity.
  - vm_compute. reflexivity.
  - vm_compute. reflexivity.
  - vm_compute. reflexivity.
  - vm_compute. reflexivity.
  - intros n [x Hx]. vm_compute in Hx. discriminate Hx.
  - assert (fixture = up_bytes) as ->
      by (vm_compute in Hfix; injection Hfix as <-; vm_compute; reflexivity).
    assert (Hread : exists replayed,
               http_ReadResponse http up_bytes get_status = Ok replayed
               /\ StatusCode replayed = 200
               /\ ResBody replayed = Some (bytes_of_string "up")
               /\ ResHeader replayed = <[ "Content-Length" := ["2"] ]> (ResHeader up)).
    { eexists. repeat split; vm_compute; reflexivity. }
    destruct Hread as (replayed & Hread & Hcode & Hbody & Hheader).
    rewrite Hread in Hreplay. destruct Hreplay as (q & w2 & Hrun & _ & Hres).
    exists q, w2, replayed. repeat split; assumption.
Defined.

(** The round trip of C1 as first stated fails in three ways: next to a
    labelled fixture of the same request the replay is ambiguous; with
    an empty base path [Record] writes into the working directory and
    [Replay] finds nothing; and in an empty store the replayed response
    has a [Content-Length] header that the recorded response did not
    have. *)
Lemma round_trip_breaks :
  ~ replays_what_was_recorded sound_os http (Some upstream) "fixtures"
      0%nat 0%nat labelled
  /\ ~ replays_what_was_recorded working_dir_os http (Some upstream) EmptyString
         0%nat 0%nat in_working_dir
  /\ ~ replays_what_was_recorded sound_os http (Some upstream) "fixtures"
         0%nat 0%nat start.
Proof.
  split; [|split].
  - intros H.
    destruct (H get_status get_status 0%nat (world_of labelled_run) up)
      as (q & w2 & replayed & Hrun & _).
    + vm_compute. reflexivity.
    + vm_compute. reflexivity.
    + vm_compute. reflexivity.
    + vm_compute. reflexivity.
    + reflexivity.
    + vm_compute in Hrun. discriminate Hrun.
  - intros H.
    destruct (H get_status get_status 0%nat (world_of working_dir_run) up)
      as (q & w2 & replayed & Hrun & _).
    + vm_compute. reflexivity.
    + vm_compute. reflexivity.
    + vm_compute. reflexivity.
    + vm_compute. reflexivity.
    + reflexivity.
    + vm_compute in Hrun. discriminate Hrun.
  - intros H.
    destruct (H get_status get_status 0%nat (world_of recorded_run) up)
      as (q & w2 & replayed & Hrun & Hres & _ & Hheader & _).
    + vm_compute. reflexivity.
    + vm_compute. reflexivity.
    + vm_compute. reflexivity.
    + vm_compute. reflexivity.
    + reflexivity.
    + vm_compute in Hrun. injection Hrun as <- <-.
      vm_compute in Hres. injection Hres as <-.
      apply (f_equal (fun h => h !! "Content-Length")) in Hheader.
      vm_compute in Hheader. discriminate Hheader.
Qed.

(** * More of the recorder *)

Section Disk_frame.

Variable os : OSEnv.

Lemma make_dir_frame (d d' : gmap string (gmap string bytes)) (path dir name : string) :
  make_dir os d path = Ok d' -> stored d' dir name = stored d dir name.
Proof.
  intros H. destruct (decide (dir = path)) as [->|Hne].
  - exact (make_dir_stored os d d' path name H).
  - revert H. unfold make_dir, stored.
    destruct (mkdir_fault os d path); [discriminate|].
    destruct (d !! path); intros [= <-]; [reflexivity|].
    rewrite lookup_insert_ne by congruence. reflexivity.
Qed.

Lemma after_MkdirAll_frame (d : gmap string (gmap string bytes)) (path dir name : string) :
  stored (after_MkdirAll os d path) dir name = stored d dir name.
Proof.
  unfold after_MkdirAll. destruct (make_dir os d path) eqn:H; [|reflexivity].
  exact (make_dir_frame _ _ _ _ _ H).
Qed.

Lemma write_file_frame (d d' : gmap string (gmap string bytes))
    (dir name : string) (data : bytes) (dir' name' : string) :
  write_file os d dir name data = Ok d' ->
  dir' <> dir \/ name' <> name ->
  stored d' dir' name' = stored d dir' name'.
Proof.
  intros H Hne. destruct (decide (dir' = dir)) as [->|Hd].
  - destruct Hne as [Hne|Hne]; [contradiction|].
    destruct (write_file_stored os _ _ _ _ _ H) as [_ Hk]. exact (Hk _ Hne).
  - apply write_file_Ok in H as (entries & _ & ->).
    unfold stored. rewrite lookup_insert_ne by congruence. reflexivity.
Qed.

Lemma failed_write_frame (d : gmap string (gmap string bytes))
    (dir name : string) (data : bytes) (dir' name' : string) :
  dir' <> dir \/ name' <> name ->
  stored (failed_write os d dir name data) dir' name' = stored d dir' name'.
Proof.
  intros Hne. unfold failed_write.
  destruct (write_fault os d dir name) as [[e|e n]|]; try reflexivity.
  destruct (d !! dir) as [entries|] eqn:Hd; [|reflexivity].
  unfold stored. destruct (decide (dir' = dir)) as [->|Hdir].
  - rewrite lookup_insert_eq, Hd. apply lookup_insert_ne.
    destruct Hne as [Hne|Hne]; congruence.
  - rewrite lookup_insert_ne by congruence. reflexivity.
Qed.

(** A write that failed leaves the file as it was, or cut to a part of
    the data. *)
Lemma failed_write_file (d : gmap string (gmap string bytes))
    (dir name : string) (data : bytes) :
  stored (failed_write os d dir name data) dir name = stored d dir name
  \/ exists n, stored (failed_write os d dir name data) dir name = Some (take n data).
Proof.
  unfold failed_write.
  destruct (write_fault os d dir name) as [[e|e n]|]; auto.
  destruct (d !! dir) as [entries|] eqn:Hd; auto.
  right. exists n. unfold stored. rewrite lookup_insert_eq. apply lookup_insert_eq.
Qed.

Lemma same_files_refl (d : gmap string (gmap string bytes)) : same_files d d.
Proof. intros dir name. reflexivity. Qed.

Lemma same_files_trans (d d' d'' : gmap string (gmap string bytes)) :
  same_files d d' -> same_files d' d'' -> same_files d d''.
Proof. intros H1 H2 dir name. rewrite (H2 dir name). apply H1. Qed.

Lemma make_dir_same_files (d d' : gmap string (gmap string bytes)) (path : string) :
  make_dir os d path = Ok d' -> same_files d d'.
Proof.
  intros H dir name. rewrite (make_dir_frame d d' path dir name H). reflexivity.
Qed.

Lemma write_file_same_files (d d' : gmap string (gmap string bytes))
    (dir name : string) (data : bytes) :
  write_file os d dir name data = Ok d' ->
  is_Some (stored d dir name) ->
  same_files d d'.
Proof.
  intros H Hthere dir' name'.
  destruct (decide (dir' = dir /\ name' = name)) as [[-> ->]|Hne].
  - destruct (write_file_stored os _ _ _ _ _ H) as [-> _]. split; eauto.
  - rewrite (write_file_frame d d' dir name data dir' name' H); [reflexivity|].
    destruct (decide (dir' = dir)); [right|left]; auto.
Qed.

Lemma failed_write_same_files (d : gmap string (gmap string bytes))
    (dir name : string) (data : bytes) :
  is_Some (stored d dir name) ->
  same_files d (failed_write os d dir name data).
Proof.
  intros Hthere dir' name'.
  destruct (decide (dir' = dir /\ name' = name)) as [[-> ->]|Hne].
  - destruct (failed_write_file d dir name data) as [-> | [n ->]];
      [reflexivity | split; eauto].
  - rewrite failed_write_frame; [reflexivity|].
    destruct (decide (dir' = dir)); [right|left]; auto.
Qed.

End Disk_frame.

Section Recording_more.

Variable os : OSEnv.
Variable http : HTTPLib.
Variable rt : option RoundTripper.
Variable basepath : string.
Variable f : option Filters.

(** X1.  A recording touches two files at most: whatever the outcome of
    the call, a file of another directory, or of the store under a name
    that is neither the request nor the response file name of the
    request, holds what it held before. *)
Theorem Record_leaves_other_files
    (req : loc) (w w' : World) (r : Request)
    (out : option loc * option error) (dir name : string) :
  requests w !! req = Some r ->
  (Record os http rt basepath f req w) = Some (out, w') ->
  (dir <> basepath
   \/ forall b, httputil_DumpRequest http (request_filter f r) = Ok b ->
                name <> (buildName b).1 /\ name <> (buildName b).2) ->
  stored (disk w') dir name = stored (disk w) dir name.
Proof.
  intros Hreq Hrun Hother.
  rewrite (Record_run os http rt basepath f req w r Hreq) in Hrun.
  assert (Hne : forall b, httputil_DumpRequest http (request_filter f r) = Ok b ->
                  (dir <> basepath \/ name <> (buildName b).1)
                  /\ (dir <> basepath \/ name <> (buildName b).2)).
  { intros b Hb. destruct Hother as [H|H]; [auto|]. destruct (H b Hb). auto. }
  clear Hother.
  outcomes Hrun; cbn [disk];
    try (destruct (Hne _ eq_refl) as [? ?]);
    rewrite ?(failed_write_frame os) by assumption;
    repeat match goal with
           | H : write_file _ _ _ _ _ = Ok ?d |- context [stored ?d _ _] =>
               rewrite (write_file_frame os _ _ _ _ _ dir name H) by assumption
           end;
    try match goal with
        | H : make_dir _ _ _ = Ok _ |- _ =>
            rewrite (make_dir_frame os _ _ _ dir name H)
        end;
    reflexivity.
Qed.

(** X2.  When the request cannot be serialized the call returns the
    wrapped error and no response right after [os.MkdirAll]: no fixture
    is written, the transport is not called, no response object is
    made. *)
Theorem Record_dump_error
    (req : loc) (w : World) (r : Request) (e : LibError) :
  requests w !! req = Some r ->
  httputil_DumpRequest http (request_filter f r) = Err e ->
  exists w',
    (Record os http rt basepath f req w)
    = Some ((None, Some (recording (ErrLib e))), w')
    /\ trace w' = trace w ++ [EvMkdirAll basepath (MkdirAll_error os (disk w) basepath)]
    /\ disk w' = after_MkdirAll os (disk w) basepath
    /\ responses w' = responses w.
Proof.
  intros Hreq Hdump.
  rewrite (Record_run os http rt basepath f req w r Hreq). cbv zeta.
  unfold MkdirAll_error, after_MkdirAll. rewrite Hdump.
  destruct (make_dir os (disk w) basepath); eexists;
    (split; [reflexivity|]); cbn [trace disk requests responses];
    repeat split.
Qed.

(** X3.  When the request fixture cannot be written the call returns
    the wrapped write error and no response after two steps; the
    transport is not called and no response object is made.  Every other
    file is as it was; the request fixture is as it was too, or, when the
    write failed after the file was opened, cut to a part of the
    dump. *)
Theorem Record_request_fixture_error
    (req : loc) (w : World) (r : Request) (b : bytes) (e : LibError) :
  requests w !! req = Some r ->
  httputil_DumpRequest http (request_filter f r) = Ok b ->
  write_file os (after_MkdirAll os (disk w) basepath) basepath (buildName b).1 b = Err e ->
  exists w',
    (Record os http rt basepath f req w)
    = Some ((None, Some (recording (ErrLib e))), w')
    /\ trace w' = trace w
                    ++ [EvMkdirAll basepath (MkdirAll_error os (disk w) basepath);
                        EvWriteFile basepath (buildName b).1 b (Some e)]
    /\ responses w' = responses w
    /\ (forall dir name,
           dir <> basepath \/ name <> (buildName b).1 ->
           stored (disk w') dir name = stored (disk w) dir name)
    /\ (stored (disk w') basepath (buildName b).1
        = stored (disk w) basepath (buildName b).1
        \/ exists n, stored (disk w') basepath (buildName b).1 = Some (take n b)).
Proof.
  intros Hreq Hdump Hwrite.
  rewrite (Record_run os http rt basepath f req w r Hreq). cbv zeta.
  pose proof (after_MkdirAll_frame os (disk w) basepath) as Hmk.
  unfold MkdirAll_error. unfold after_MkdirAll in Hwrite, Hmk |- *. rewrite Hdump.
  destruct (make_dir os (disk w) basepath) as [d1|me]; rewrite Hwrite; eexists;
    (split; [reflexivity|]); cbn [trace disk responses]; rewrite <- app_assoc;
    (split; [reflexivity|]); (split; [reflexivity|]);
    (split; [intros dir name Hne; rewrite failed_write_frame by exact Hne; apply Hmk|]);
    match goal with
    | |- context [failed_write os ?d ?dir ?name ?data] =>
        destruct (failed_write_file os d dir name data) as [Hsame | [n Hcut]]
    end;
    [left; rewrite Hsame; apply Hmk | right; eauto
    |left; rewrite Hsame; apply Hmk | right; eauto].
Qed.

(** X4.  A call that fails after a successful round trip (the response
    cannot be serialized, or its fixture cannot be written) returns the
    wrapped library error and no response, although the transport
    answered; the request fixture stays in the store, and the response
    file is as it was or, when the write failed after the file was
    opened, cut to a part of the dump of the response. *)
Theorem Record_late_failure
    (req : loc) (w w' : World) (r sent : Request)
    (out : option loc * option error) (evs : list Event) :
  requests w !! req = Some r ->
  (Record os http rt basepath f req w) = Some (out, w') ->
  trace w' = trace w ++ evs ->
  In (EvRoundTrip sent None) evs ->
  is_Some out.2 ->
  exists b e,
    httputil_DumpRequest http (request_filter f r) = Ok b
    /\ out = (None, Some (recording (ErrLib e)))
    /\ stored (disk w') basepath (buildName b).1 = Some b
    /\ (stored (disk w') basepath (buildName b).2
        = stored (disk w) basepath (buildName b).2
        \/ exists res b' n,
            live http rt (sent_request f r) = (Some res, None)
            /\ httputil_DumpResponse http (response_filter f res) = Ok b'
            /\ stored (disk w') basepath (buildName b).2 = Some (take n b')).
Proof.
  intros Hreq Hrun Htrace Hin [x Hx].
  rewrite (Record_run os http rt basepath f req w r Hreq) in Hrun.
  fold (sent_request f r) in Hrun.
  outcomes Hrun; traces; subst evs; cbn [In snd disk] in *;
    try discriminate Hx;
    repeat (destruct Hin as [Hin|Hin]); try discriminate Hin; try contradiction.
  all: match goal with
       | Hw : write_file _ _ _ (buildName ?b).1 ?b = Ok _ |- _ =>
           destruct (write_file_stored _ _ _ _ _ _ Hw) as [Hput Hkeep];
           exists b; eexists
       end.
  all: split; [reflexivity|]; split; [reflexivity|].
  all: rewrite ?(failed_write_frame os)
         by (right; apply buildName_distinct).
  all: split; [exact Hput|].
  all: try (left; rewrite Hkeep by (symmetry; apply buildName_distinct);
            first [ reflexivity | eapply make_dir_stored; eassumption ]).
  all: match goal with
       | |- context [failed_write os ?d ?dir ?name ?data] =>
           destruct (failed_write_file os d dir name data) as [Hsame | [n Hcut]]
       end.
  all: try (left; rewrite Hsame, Hkeep by (symmetry; apply buildName_distinct);
            first [ reflexivity | eapply make_dir_stored; eassumption ]).
  all: right; eexists _, _, n;
    (split; [match goal with H : live _ _ _ = _ |- _ => exact H end|]);
    split; [eassumption | exact Hcut].
Qed.

(** X5.  Where the file system takes every write, a request that
    serializes and a transport that answers with a response that
    serializes make the call succeed: it returns a new response object,
    the filtered response, after exactly four steps, and both fixtures
    are in the store. *)
Theorem Record_stores_both_fixtures
    (req : loc) (w : World) (r : Request) (b b' : bytes) (res : Response) :
  (forall d path, mkdir_fault os d path = None) ->
  (forall d dir name, write_fault os d dir name = None) ->
  requests w !! req = Some r ->
  httputil_DumpRequest http (request_filter f r) = Ok b ->
  live http rt (sent_request f r) = (Some res, None) ->
  httputil_DumpResponse http (response_filter f res) = Ok b' ->
  exists p w',
    (Record os http rt basepath f req w) = Some ((Some p, None), w')
    /\ responses w !! p = None
    /\ responses w' !! p = Some (response_filter f res)
    /\ stored (disk w') basepath (buildName b).1 = Some b
    /\ stored (disk w') basepath (buildName b).2 = Some b'
    /\ trace w' = trace w
                    ++ [EvMkdirAll basepath None;
                        EvWriteFile basepath (buildName b).1 b None;
                        EvRoundTrip (sent_request f r) None;
                        EvWriteFile basepath (buildName b).2 b' None].
Proof.
  intros Hmk Hwr Hreq Hdump Hlive Hdump'.
  rewrite (Record_run os http rt basepath f req w r Hreq). cbv zeta.
  fold (sent_request f r). rewrite Hdump, Hlive, Hdump'.
  unfold make_dir. rewrite Hmk.
  set (d1 := match disk w !! basepath with
             | Some _ => disk w
             | None => <[basepath := ∅]> (disk w)
             end).
  assert (Hd1 : is_Some (d1 !! basepath)).
  { subst d1. destruct (disk w !! basepath) eqn:H; [rewrite H; eauto|].
    rewrite lookup_insert_eq. eauto. }
  destruct Hd1 as [entries Hd1].
  unfold write_file. rewrite Hwr, Hd1, Hwr, lookup_insert_eq.
  eexists _, _. split; [reflexivity|]. cbn [responses disk trace snd].
  split; [apply eq_None_not_Some; intros Hs; apply elem_of_dom in Hs;
          exact (is_fresh _ Hs)|].
  split; [apply lookup_insert_eq|].
  unfold stored. rewrite !lookup_insert_eq.
  split; [rewrite lookup_insert_ne by (symmetry; apply buildName_distinct);
          apply lookup_insert_eq|].
  split; [first [reflexivity | apply lookup_insert_eq]|].
  rewrite <- !app_assoc. reflexivity.
Qed.

(** X6.  Recording the exchange of a request once more, whatever the
    transport answers this time and whatever the outcome, adds no file
    to the store and removes none: the two fixtures are written over in
    place.  When the second call succeeds the store holds the request
    fixture and the dump of the response of the second call.  The
    request is one whose body the request filter leaves alone. *)
Theorem Record_again_adds_no_file
    (rt' : option RoundTripper) (req : loc) (w w1 w2 : World) (r : Request) (p : loc)
    (out2 : option loc * option error) :
  requests w !! req = Some r ->
  sent_request f r = r ->
  (Record os http rt basepath f req w) = Some ((Some p, None), w1) ->
  (Record os http rt' basepath f req w1) = Some (out2, w2) ->
  same_files (disk w1) (disk w2)
  /\ (forall p2, out2 = (Some p2, None) ->
        exists b res2 b2,
          httputil_DumpRequest http (request_filter f r) = Ok b
          /\ live http rt' (sent_request f r) = (Some res2, None)
          /\ httputil_DumpResponse http (response_filter f res2) = Ok b2
          /\ stored (disk w2) basepath (buildName b).1 = Some b
          /\ stored (disk w2) basepath (buildName b).2 = Some b2).
Proof.
  intros Hreq Hsent Hrun1 Hrun2.
  destruct (Record_store os http rt basepath f req w w1 r p Hreq Hrun1)
    as (b & res & c & entries & Hb & Hlive & Hc & Hp & Hd & _).
  assert (Hreq1 : requests w1 !! req = Some r).
  { pose proof (Record_caller_request os http rt basepath f req w w1 r p Hreq Hrun1)
      as H.
    rewrite Hsent in H. exact H. }
  assert (Hq : is_Some (stored (disk w1) basepath (buildName b).1)).
  { unfold stored. rewrite Hd.
    rewrite lookup_insert_ne by (symmetry; apply buildName_distinct).
    rewrite lookup_insert_eq. eauto. }
  assert (Hs : is_Some (stored (disk w1) basepath (buildName b).2)).
  { unfold stored. rewrite Hd, lookup_insert_eq. eauto. }
  split.
  - rewrite (Record_run os http rt' basepath f req w1 r Hreq1) in Hrun2.
    assert (Hmk : forall d1, make_dir os (disk w1) basepath = Ok d1 -> d1 = disk w1).
    { unfold make_dir. destruct (mkdir_fault os (disk w1) basepath); [discriminate|].
      rewrite Hd. congruence. }
    cbv zeta in Hrun2. rewrite Hb in Hrun2.
    destruct (make_dir os (disk w1) basepath) as [d1|me] eqn:Hm;
      [rewrite (Hmk d1 eq_refl) in *|];
      (destruct (write_file os (disk w1) basepath (buildName b).1 b) as [d2|we] eqn:Hw1;
       [ pose proof (write_file_same_files os _ _ _ _ _ Hw1 Hq) as H12;
         assert (Hs2 : is_Some (stored d2 basepath (buildName b).2))
           by (apply H12; exact Hs);
         destruct (live http rt' (set_Body (Body (request_filter f r)) r))
           as [[lr|] [te|]];
         try discriminate Hrun2;
         try (destruct (httputil_DumpResponse http (response_filter f lr)) as [b2|de];
              [destruct (write_file os d2 basepath (buildName b).2 b2)
                 as [d3|we2] eqn:Hw2|])
       | ]);
      apply (inj Some) in Hrun2; apply pair_eq in Hrun2 as [_ <-]; cbn [disk];
      first [ exact H12
            | exact (same_files_trans _ _ _ H12
                       (write_file_same_files os _ _ _ _ _ Hw2 Hs2))
            | exact (same_files_trans _ _ _ H12
                       (failed_write_same_files os _ _ _ _ Hs2))
            | exact (failed_write_same_files os _ _ _ _ Hq) ].
  - intros p2 ->.
    destruct (Record_store os http rt' basepath f req w1 w2 r p2 Hreq1 Hrun2)
      as (b0 & res2 & b2 & entries2 & Hb0 & Hlive2 & Hb2 & _ & Hd2 & _).
    assert (b0 = b) as -> by congruence.
    exists b, res2, b2. do 3 (split; [assumption|]).
    unfold stored. rewrite Hd2. split.
    + rewrite lookup_insert_ne by (symmetry; apply buildName_distinct).
      apply lookup_insert_eq.
    + apply lookup_insert_eq.
Qed.

(** X7.  [req.Body = dumpReq.Body]: the request the transport is called
    with, which is the caller's request after the call, has the caller's
    method, URL, host and headers, and the body that the request filter
    left on the clone. *)
Theorem Record_sends_the_clone_body
    (req : loc) (w w' : World) (r sent : Request)
    (out : option loc * option error) (evs : list Event) (err : option error) :
  requests w !! req = Some r ->
  (Record os http rt basepath f req w) = Some (out, w') ->
  trace w' = trace w ++ evs ->
  In (EvRoundTrip sent err) evs ->
  Body sent = Body (request_filter f r)
  /\ Method sent = Method r /\ URL sent = URL r /\ Host sent = Host r
  /\ Header sent = Header r
  /\ requests w' !! req = Some sent.
Proof.
  intros Hreq Hrun Htrace Hin.
  rewrite (Record_run os http rt basepath f req w r Hreq) in Hrun.
  outcomes Hrun; traces; subst evs; cbn [In requests] in *;
    repeat (destruct Hin as [Hin|Hin]); try discriminate Hin; try contradiction.
  all: assert (sent = set_Body (Body (request_filter f r)) r) as -> by congruence.
  all: repeat split; apply lookup_insert_eq.
Qed.

End Recording_more.

Section Replaying_more.

Variable http : HTTPLib.
Variable fsys : FS.

(** What a replay does to the world when one fixture matches. *)
Lemma ReplayFS_single (req : loc) (w : World) (r : Request) (b : bytes) (m : string) :
  requests w !! req = Some r ->
  httputil_DumpRequest http r = Ok b ->
  fixtures_for fsys (disk w) b = [m] ->
  ReplayFS http fsys req w =
    let w2 := log (EvReadFile m) (log (EvReadDir ".") w) in
    match FS_ReadFile fsys (disk w) m with
    | Err e => Some ((None, Some (replaying (ErrLib e))), w2)
    | Ok c =>
        match http_ReadResponse http c r with
        | Err e => Some ((None, Some (replaying (ErrLib e))), w2)
        | Ok res =>
            let q := fresh (dom (responses w)) in
            Some ((Some q, None), with_responses (<[q := res]> (responses w)) w2)
        end
    end.
Proof.
  intros Hreq Hdump Hone.
  rewrite (ReplayFS_run http fsys req w r b Hreq Hdump). cbv zeta.
  rewrite Hone. run. wsimpl.
  destruct (FS_ReadFile fsys (disk w) m) as [c|e]; [|reflexivity].
  run. wsimpl. rewrite Hreq. destruct (http_ReadResponse http c r); reflexivity.
Qed.

(** X8.  When exactly one stored file name ends with the response file
    name of the request, whatever precedes it in the name, [ReplayFS]
    reads that file after listing the directory and returns what
    [http.ReadResponse] makes of it, as a new response object, with a
    nil error. *)
Theorem ReplayFS_serves_the_fixture
    (req : loc) (w : World) (r : Request) (b c : bytes) (m : string)
    (res : Response) :
  requests w !! req = Some r ->
  httputil_DumpRequest http r = Ok b ->
  fixtures_for fsys (disk w) b = [m] ->
  FS_ReadFile fsys (disk w) m = Ok c ->
  http_ReadResponse http c r = Ok res ->
  exists q w',
    ReplayFS http fsys req w = Some ((Some q, None), w')
    /\ responses w !! q = None
    /\ responses w' !! q = Some res
    /\ trace w' = trace w ++ [EvReadDir "."; EvReadFile m]
    /\ fixture_named (buildName b).2 m = true.
Proof.
  intros Hreq Hdump Hone Hread Hparse.
  rewrite (ReplayFS_single req w r b m Hreq Hdump Hone). cbv zeta.
  rewrite Hread, Hparse.
  eexists _, _. split; [reflexivity|]. wsimpl.
  split; [apply eq_None_not_Some; intros Hs; apply elem_of_dom in Hs;
          exact (is_fresh _ Hs)|].
  split; [apply lookup_insert_eq|].
  split; [rewrite <- app_assoc; reflexivity|].
  assert (Hin : In m (fixtures_for fsys (disk w) b)) by (rewrite Hone; now left).
  apply filter_In in Hin as [_ Hin]. exact Hin.
Qed.

(** X9.  When the one matching fixture cannot be read, or is no HTTP
    response, [ReplayFS] returns the wrapped library error and no
    response; the error is not [errNotFound], and no response object is
    made. *)
Theorem ReplayFS_bad_fixture
    (req : loc) (w : World) (r : Request) (b : bytes) (m : string)
    (e : LibError) :
  requests w !! req = Some r ->
  httputil_DumpRequest http r = Ok b ->
  fixtures_for fsys (disk w) b = [m] ->
  match FS_ReadFile fsys (disk w) m with
  | Ok c => http_ReadResponse http c r
  | Err e => Err e
  end = Err e ->
  exists w',
    ReplayFS http fsys req w = Some ((None, Some (replaying (ErrLib e))), w')
    /\ errors_Is (replaying (ErrLib e)) errNotFound = false
    /\ responses w' = responses w
    /\ trace w' = trace w ++ [EvReadDir "."; EvReadFile m].
Proof.
  intros Hreq Hdump Hone Hbad.
  rewrite (ReplayFS_single req w r b m Hreq Hdump Hone). cbv zeta.
  destruct (FS_ReadFile fsys (disk w) m) as [c|e'];
    [destruct (http_ReadResponse http c r) as [res|e']; [discriminate Hbad|]|];
    assert (e' = e) as -> by congruence;
    (eexists; split; [reflexivity|]; wsimpl;
     split; [reflexivity|]; split; [reflexivity|];
     rewrite <- app_assoc; reflexivity).
Qed.

(** X10.  [ReplayFS] only reads: whatever it returns, the disk and the
    requests are as before, the responses there were are still there,
    and it has added no network event to the trace. *)
Theorem ReplayFS_only_reads
    (req : loc) (w w' : World) (out : option loc * option error) :
  ReplayFS http fsys req w = Some (out, w') ->
  disk w' = disk w
  /\ requests w' = requests w
  /\ (forall p res, responses w !! p = Some res -> responses w' !! p = Some res)
  /\ (forall ev, In ev (trace w') -> In ev (trace w) \/ is_network ev = false).
Proof.
  intros Hrun.
  destruct (requests w !! req) as [r|] eqn:Hreq;
    [|rewrite (ReplayFS_nil http fsys req w Hreq) in Hrun; discriminate Hrun].
  destruct (httputil_DumpRequest http r) as [b|e] eqn:Hdump.
  - rewrite (ReplayFS_run http fsys req w r b Hreq Hdump) in Hrun. cbv zeta in Hrun.
    destruct (fixtures_for fsys (disk w) b) as [|m [|m' ms]] eqn:Hfix.
    + apply (inj Some) in Hrun. apply pair_eq in Hrun as [_ <-]. wsimpl.
      repeat split; auto. intros ev Hin. apply in_app_or in Hin as [Hin|[<-|[]]]; auto.
    + revert Hrun. run. wsimpl.
      destruct (FS_ReadFile fsys (disk w) m) as [c|e]; run; wsimpl.
      * rewrite Hreq. destruct (http_ReadResponse http c r) as [res|e];
          intros Hrun; apply (inj Some) in Hrun; apply pair_eq in Hrun as [_ <-];
          wsimpl; repeat split; auto.
        -- intros p res' Hp. rewrite lookup_insert_ne; [exact Hp|].
           intros <-. apply (is_fresh (dom (responses w))). apply elem_of_dom. eauto.
        -- intros ev Hin. apply in_app_or in Hin as [Hin|[<-|[]]]; auto.
           apply in_app_or in Hin as [Hin|[<-|[]]]; auto.
        -- intros ev Hin. apply in_app_or in Hin as [Hin|[<-|[]]]; auto.
           apply in_app_or in Hin as [Hin|[<-|[]]]; auto.
      * intros Hrun; apply (inj Some) in Hrun; apply pair_eq in Hrun as [_ <-];
          wsimpl; repeat split; auto.
        intros ev Hin. apply in_app_or in Hin as [Hin|[<-|[]]]; auto.
        apply in_app_or in Hin as [Hin|[<-|[]]]; auto.
    + apply (inj Some) in Hrun. apply pair_eq in Hrun as [_ <-]. wsimpl.
      repeat split; auto. intros ev Hin. apply in_app_or in Hin as [Hin|[<-|[]]]; auto.
  - rewrite (ReplayFS_dump_error http fsys req w r e Hreq Hdump) in Hrun.
    apply (inj Some) in Hrun. apply pair_eq in Hrun as [_ <-]. repeat split; auto.
Qed.

End Replaying_more.

Section Replay_dir.

Variable http : HTTPLib.
Variable basepath : string.

(** X11.  [Replay] over a directory that does not exist, or that holds
    no file, reports [errNotFound] after one look at the directory, for
    every request that serializes. *)
Theorem Replay_without_store
    (req : loc) (w : World) (r : Request) (b : bytes) :
  requests w !! req = Some r ->
  httputil_DumpRequest http r = Ok b ->
  (forall name, stored (disk w) basepath name = None) ->
  exists e,
    Replay http basepath req w = Some ((None, Some e), log (EvReadDir ".") w)
    /\ errors_Is e errNotFound = true.
Proof.
  intros Hreq Hdump Hnone. unfold Replay.
  rewrite (ReplayFS_run http (os_DirFS basepath) req w r b Hreq Hdump). cbv zeta.
  assert (Hfix : fixtures_for (os_DirFS basepath) (disk w) b = []).
  { unfold fixtures_for, listing, os_DirFS. cbn [FS_ReadDir].
    destruct (decide (basepath = EmptyString)) as [Hempty|Hbase]; [reflexivity|].
    destruct (disk w !! basepath) as [entries|] eqn:Hd; [|reflexivity].
    rewrite decide_True by reflexivity.
    apply filter_none. intros y Hy.
    apply list_elem_of_fmap in Hy as ([n c] & -> & Hin).
    apply elem_of_map_to_list in Hin.
    specialize (Hnone n). unfold stored in Hnone. rewrite Hd in Hnone. congruence. }
  rewrite Hfix. eexists. split; [reflexivity|].
  apply errors_Is_errNotFound. reflexivity.
Qed.

End Replay_dir.

Lemma list_ascii_length (s : string) :
  length (list_ascii_of_string s) = String.length s.
Proof. induction s as [|c s IH]; [reflexivity|]. cbn. now rewrite IH. Qed.

(** The names of one dump are fixture names of another dump only when the
    response names coincide. *)
Lemma fixture_named_other (b b' : bytes) :
  fixture_named (buildName b').2 (buildName b).1 = false
  /\ ((buildName b').2 <> (buildName b).2 ->
      fixture_named (buildName b').2 (buildName b).2 = false).
Proof.
  destruct (buildName_shape b) as (p & Hp & _ & Hb).
  destruct (buildName_shape b') as (p' & Hp' & _ & Hb').
  rewrite Hb, Hb'. cbn [fst snd].
  assert (Hl : length (list_ascii_of_string p) = length (list_ascii_of_string p')).
  { rewrite !list_ascii_length. congruence. }
  unfold fixture_named, strings_HasSuffix. split.
  - apply andb_false_iff. right. apply bool_decide_eq_false.
    rewrite !list_ascii_of_string_app. intros H.
    apply suffix_length_eq in H; [|rewrite !length_app, Hl; reflexivity].
    apply app_inj_1 in H as [_ H]; [discriminate H | congruence].
  - intros Hne. apply andb_false_iff. right. apply bool_decide_eq_false.
    rewrite !list_ascii_of_string_app. intros H.
    apply suffix_length_eq in H; [|rewrite !length_app, Hl; reflexivity].
    apply app_inj_1 in H as [H _]; [|congruence].
    apply Hne. f_equal.
    rewrite <- (string_of_list_ascii_of_string p), <- (string_of_list_ascii_of_string p').
    congruence.
Qed.

(** X12.  The two names [buildName] returns are file names of sixteen
    characters, without a path separator and without a character that
    [path.Match] takes for a pattern, and they differ. *)
Theorem buildName_file_names (b : bytes) :
  let '(reqname, resname) := buildName b in
  String.length reqname = 16%nat /\ String.length resname = 16%nat
  /\ base_name reqname = true /\ base_name resname = true
  /\ forallb plain (list_ascii_of_string reqname) = true
  /\ forallb plain (list_ascii_of_string resname) = true
  /\ reqname <> resname.
Proof.
  pose proof (buildName_distinct b) as Hne.
  destruct (buildName_shape b) as (p & Hp & Hsafe & Hb).
  rewrite Hb in *. cbn [fst snd] in Hne.
  assert (Hplain : forall s, forallb url_safe (list_ascii_of_string s) = true ->
                   forallb plain (list_ascii_of_string s) = true
                   /\ base_name s = true).
  { intros s Hs. unfold base_name. rewrite forallb_forall in Hs.
    split; apply forallb_forall; intros c Hc; specialize (Hs c Hc).
    - apply url_safe_plain. exact Hs.
    - destruct c as [[] [] [] [] [] [] [] []]; try reflexivity; discriminate Hs. }
  destruct (Hplain p Hsafe) as [Hpl Hbn].
  assert (Hlen : forall s, String.length (p +:+ s) = (8 + String.length s)%nat).
  { intros s. rewrite <- !list_ascii_length, list_ascii_of_string_app,
      length_app, !list_ascii_length. congruence. }
  unfold base_name.
  rewrite !Hlen, !list_ascii_of_string_app, !forallb_app, Hpl.
  unfold base_name in Hbn. rewrite Hbn.
  repeat split; try reflexivity. exact Hne.
Qed.

Section Round_trip_more.

Variable os : OSEnv.
Variable http : HTTPLib.
Variable rt : option RoundTripper.
Variable basepath : string.
Variable f : option Filters.

(** X13.  The round trip with filters installed, for a base path that
    is not empty: after a recording, in a store that held no other file
    whose name ends with the response file name, the recorded response is
    the filtered live response, the response fixture holds its dump, and
    the replay of a request whose dump is the dump of the filtered clone
    returns what [http.ReadResponse] reads from that fixture: the parsed
    response with a nil error, or the wrapped error of the parse. *)
Theorem Record_then_Replay_filtered
    (req req' : loc) (w w1 : World) (r r' : Request) (b : bytes)
    (p : loc) (recorded : Response) :
  basepath <> EmptyString ->
  requests w !! req = Some r ->
  (Record os http rt basepath f req w) = Some ((Some p, None), w1) ->
  responses w1 !! p = Some recorded ->
  requests w1 !! req' = Some r' ->
  httputil_DumpRequest http (request_filter f r) = Ok b ->
  httputil_DumpRequest http r' = Ok b ->
  (forall n, is_Some (stored (disk w) basepath n) ->
             fixture_named (buildName b).2 n = true -> n = (buildName b).2) ->
  exists live_response fixture,
    live http rt (sent_request f r) = (Some live_response, None)
    /\ recorded = response_filter f live_response
    /\ httputil_DumpResponse http recorded = Ok fixture
    /\ stored (disk w1) basepath (buildName b).2 = Some fixture
    /\ match http_ReadResponse http fixture r' with
       | Ok replayed =>
           exists q w2,
             Replay http basepath req' w1 = Some ((Some q, None), w2)
             /\ responses w1 !! q = None
             /\ responses w2 !! q = Some replayed
       | Err e =>
           exists w2,
             Replay http basepath req' w1
             = Some ((None, Some (replaying (ErrLib e))), w2)
       end.
Proof.
  intros Hbase Hreq Hrun Hrec Hreq' Hdump Hdump' Huniq.
  destruct (Record_store os http rt basepath f req w w1 r p Hreq Hrun)
    as (b0 & res & c & entries & Hb0 & Hlive & Hc & Hp & Hd & Hold).
  assert (b0 = b) as -> by congruence.
  assert (recorded = response_filter f res) as -> by congruence.
  exists res, c. do 3 (split; [first [assumption | reflexivity]|]).
  split; [unfold stored; rewrite Hd; apply lookup_insert_eq|].
  apply (Replay_parses http basepath req' w1 r' b c _ Hbase Hreq' Hdump' Hd).
  intros n Hn Hfix.
  destruct (decide (n = (buildName b).1)) as [->|Hne];
    [rewrite reqname_not_fixture in Hfix; discriminate Hfix|].
  rewrite lookup_insert_ne in Hn by congruence. apply Huniq; auto.
Qed.

(** X14.  A recording serves no other request: after a recording, the
    replay of a request with another response file name, for which the
    store held nothing before, reports [errNotFound]. *)
Theorem Record_then_Replay_other_request
    (req req' : loc) (w w1 : World) (r r' : Request) (b b' : bytes) (p : loc) :
  requests w !! req = Some r ->
  (Record os http rt basepath f req w) = Some ((Some p, None), w1) ->
  requests w1 !! req' = Some r' ->
  httputil_DumpRequest http (request_filter f r) = Ok b ->
  httputil_DumpRequest http r' = Ok b' ->
  (buildName b').2 <> (buildName b).2 ->
  (forall n, is_Some (stored (disk w) basepath n) ->
             fixture_named (buildName b').2 n = false) ->
  exists e,
    Replay http basepath req' w1 = Some ((None, Some e), log (EvReadDir ".") w1)
    /\ errors_Is e errNotFound = true.
Proof.
  intros Hreq Hrun Hreq' Hdump Hdump' Hne Hnone.
  destruct (Record_store os http rt basepath f req w w1 r p Hreq Hrun)
    as (b0 & res & c & entries & Hb0 & Hlive & Hc & Hp & Hd & Hold).
  assert (b0 = b) as -> by congruence.
  destruct (fixture_named_other b b') as [Hq Hs]. specialize (Hs Hne).
  unfold Replay.
  rewrite (ReplayFS_run http (os_DirFS basepath) req' w1 r' b' Hreq' Hdump'). cbv zeta.
  assert (Hfix : fixtures_for (os_DirFS basepath) (disk w1) b' = []).
  { unfold fixtures_for, listing, os_DirFS. cbn [FS_ReadDir].
    destruct (decide (basepath = EmptyString)) as [Hempty|Hbase]; [reflexivity|].
    rewrite Hd, decide_True by reflexivity.
    apply filter_none. intros y Hy.
    apply list_elem_of_fmap in Hy as ([n c'] & -> & Hin).
    apply elem_of_map_to_list in Hin. cbn [fst].
    destruct (decide (n = (buildName b).2)) as [->|H2]; [exact Hs|].
    rewrite lookup_insert_ne in Hin by congruence.
    destruct (decide (n = (buildName b).1)) as [->|H1]; [exact Hq|].
    rewrite lookup_insert_ne in Hin by congruence.
    apply Hnone, Hold. eauto. }
  rewrite Hfix. eexists. split; [reflexivity|].
  apply errors_Is_errNotFound. reflexivity.
Qed.

End Round_trip_more.

(** ** More of the recorder on the examples *)

Import scenario.

Example no_dump_run_trace :
  result_of no_dump_run
  = (None, Some (recording (ErrLib (CodecError "http: ContentLength=16 with Body length 0"))))
  /\ trace (world_of no_dump_run) = [EvMkdirAll "fixtures" None].
Proof. split; vm_compute; reflexivity. Qed.

Example redacted_run_trace :
  nth_error (trace (world_of redacted_run)) 2
  = Some (EvRoundTrip (set_Body (Some (bytes_of_string "REDACTED")) post_login) None).
Proof. vm_compute. reflexivity. Qed.

Lemma Record_leaves_other_files_witness :
  stored (disk (world_of labelled_run)) "fixtures" "login-F8_GfuNf.res.txt"
  = Some up_bytes.
Proof.
  rewrite (Record_leaves_other_files sound_os http (Some upstream) "fixtures" None
             0%nat labelled (world_of labelled_run) get_status (result_of labelled_run)
             "fixtures" "login-F8_GfuNf.res.txt").
  - vm_compute. reflexivity.
  - vm_compute. reflexivity.
  - vm_compute. reflexivity.
  - right. intros b Hb. vm_compute in Hb. injection Hb as <-.
    split; vm_compute; discriminate.
Defined.

Lemma Record_dump_error_witness :
  exists w',
    no_dump_run
    = Some ((None,
             Some (recording
                     (ErrLib (CodecError "http: ContentLength=16 with Body length 0")))),
            w')
    /\ trace w' = [EvMkdirAll "fixtures" None]
    /\ responses w' = ∅.
Proof.
  destruct (Record_dump_error sound_os no_dump (Some upstream) "fixtures" None
              0%nat start get_status
              (CodecError "http: ContentLength=16 with Body length 0"))
    as (w' & Hrun & Htrace & _ & Hres).
  - vm_compute. reflexivity.
  - vm_compute. reflexivity.
  - exists w'. split; [exact Hrun|]. split; [exact Htrace | exact Hres].
Defined.

Lemma Record_request_fixture_error_witness :
  exists w',
    read_only_run
    = Some ((None,
             Some (recording
                     (ErrLib (PathError "open" "fixtures/F8_GfuNf.req.txt"
                                "read-only file system")))),
            w')
    /\ responses w' = ∅
    /\ stored (disk w') "fixtures" "F8_GfuNf.req.txt" = None.
Proof.
  destruct (Record_request_fixture_error read_only_os http (Some upstream) "fixtures" None
              0%nat in_working_dir get_status get_status_bytes
              (PathError "open" "fixtures/F8_GfuNf.req.txt" "read-only file system"))
    as (w' & Hrun & _ & Hres & _ & Hfile).
  - vm_compute. reflexivity.
  - vm_compute. reflexivity.
  - vm_compute. reflexivity.
  - exists w'. split; [exact Hrun|]. split; [exact Hres|].
    vm_compute in Hrun. injection Hrun as <-. vm_compute. reflexivity.
Defined.

Example full_disk_run_store :
  stored (disk (world_of full_disk_run)) "fixtures" "F8_GfuNf.req.txt"
  = Some get_status_bytes
  /\ stored (disk (world_of full_disk_run)) "fixtures" "F8_GfuNf.res.txt" = Some [].
Proof. split; vm_compute; reflexivity. Qed.

Lemma Record_late_failure_witness :
  exists b e,
    result_of full_disk_run = (None, Some (recording (ErrLib e)))
    /\ stored (disk (world_of full_disk_run)) "fixtures" (buildName b).1 = Some b
    /\ (stored (disk (world_of full_disk_run)) "fixtures" (buildName b).2 = None
        \/ exists b' n,
            httputil_DumpResponse http up = Ok b'
            /\ stored (disk (world_of full_disk_run)) "fixtures" (buildName b).2
               = Some (take n b')).
Proof.
  destruct (Record_late_failure full_disk_os http (Some upstream) "fixtures" None
              0%nat start (world_of full_disk_run) get_status get_status
              (result_of full_disk_run) (trace (world_of full_disk_run)))
    as (b & e & _ & Hout & Hreq & Hres).
  - vm_compute. reflexivity.
  - vm_compute. reflexivity.
  - vm_compute. reflexivity.
  - vm_compute. auto.
  - vm_compute. eexists. reflexivity.
  - exists b, e. split; [exact Hout|]. split; [exact Hreq|].
    destruct Hres as [Hsame | (res & b' & n & Hlive & Hdump & Hcut)].
    + left. exact Hsame.
    + right. exists b', n. split; [|exact Hcut].
      injection Hlive as <-. exact Hdump.
Defined.

Lemma Record_stores_both_fixtures_witness :
  exists p w',
    recorded_run = Some ((Some p, None), w')
    /\ responses w' !! p = Some up
    /\ stored (disk w') "fixtures" (buildName get_status_bytes).1 = Some get_status_bytes
    /\ stored (disk w') "fixtures" (buildName get_status_bytes).2 = Some up_bytes.
Proof.
  destruct (Record_stores_both_fixtures sound_os http (Some upstream) "fixtures" None
              0%nat start get_status get_status_bytes up_bytes up)
    as (p & w' & Hrun & _ & Hres & Hq & Hs & _).
  - reflexivity.
  - reflexivity.
  - vm_compute. reflexivity.
  - vm_compute. reflexivity.
  - vm_compute. reflexivity.
  - vm_compute. reflexivity.
  - exists p, w'. repeat split; assumption.
Defined.

Lemma Record_again_adds_no_file_witness :
  same_files (disk (world_of recorded_run)) (disk (world_of second_run))
  /\ exists b,
      httputil_DumpResponse http down = Ok b
      /\ stored (disk (world_of second_run)) "fixtures" "F8_GfuNf.res.txt" = Some b.
Proof.
  destruct (Record_again_adds_no_file sound_os http (Some upstream) "fixtures" None
              (Some upstream_later)
              0%nat start (world_of recorded_run) (world_of second_run) get_status
              0%nat (result_of second_run))
    as [Hsame Hlast].
  - vm_compute. reflexivity.
  - vm_compute. reflexivity.
  - vm_compute. reflexivity.
  - vm_compute. reflexivity.
  - split; [exact Hsame|].
    destruct (Hlast 1%nat) as (b & res2 & b2 & Hb & Hlive & Hb2 & _ & Hs).
    + vm_compute. reflexivity.
    + exists b2. injection Hlive as <-. split; [exact Hb2|].
      vm_compute in Hb. injection Hb as <-. exact Hs.
Defined.

Lemma Record_sends_the_clone_body_witness :
  Body (set_Body (Some (bytes_of_string "REDACTED")) post_login)
  = Body (redact_body post_login)
  /\ requests (world_of redacted_run) !! 0%nat
     = Some (set_Body (Some (bytes_of_string "REDACTED")) post_login).
Proof.
  destruct (Record_sends_the_clone_body sound_os http (Some upstream) "fixtures"
              (Some (mkFilters (Some redact_body) None))
              0%nat login_start (world_of redacted_run) post_login
              (set_Body (Some (bytes_of_string "REDACTED")) post_login)
              (result_of redacted_run) (trace (world_of redacted_run)) None)
    as (Hbody & _ & _ & _ & _ & Hreq).
  - vm_compute. reflexivity.
  - vm_compute. reflexivity.
  - vm_compute. reflexivity.
  - vm_compute. auto.
  - split; [exact Hbody | exact Hreq].
Defined.

Lemma ReplayFS_serves_the_fixture_witness :
  exists q w',
    ReplayFS http one_fixture 0%nat start = Some ((Some q, None), w')
    /\ (ResBody <$> responses w' !! q) = Some (Some (bytes_of_string "up"))
    /\ trace w' = [EvReadDir "."; EvReadFile "status-F8_GfuNf.res.txt"].
Proof.
  assert (Hread : exists res, wire.ReadResponse up_bytes get_status = Ok res
                              /\ ResBody res = Some (bytes_of_string "up")).
  { eexists. split; vm_compute; reflexivity. }
  destruct Hread as (res & Hread & Hbody).
  destruct (ReplayFS_serves_the_fixture http one_fixture 0%nat start get_status
              get_status_bytes up_bytes "status-F8_GfuNf.res.txt" res)
    as (q & w' & Hrun & _ & Hres & Htrace & _).
  - vm_compute. reflexivity.
  - vm_compute. reflexivity.
  - vm_compute. reflexivity.
  - vm_compute. reflexivity.
  - exact Hread.
  - exists q, w'. split; [exact Hrun|]. split; [|exact Htrace].
    rewrite Hres. cbn. now rewrite Hbody.
Defined.

Lemma ReplayFS_bad_fixture_witness :
  exists e w',
    ReplayFS http garbled 0%nat start = Some ((None, Some (replaying (ErrLib e))), w')
    /\ errors_Is (replaying (ErrLib e)) errNotFound = false
    /\ responses w' = ∅.
Proof.
  assert (Hbad : exists e, wire.ReadResponse (bytes_of_string "garbled") get_status = Err e).
  { eexists. vm_compute. reflexivity. }
  destruct Hbad as (e & Hbad).
  destruct (ReplayFS_bad_fixture http garbled 0%nat start get_status
              get_status_bytes "F8_GfuNf.res.txt" e)
    as (w' & Hrun & Hnot & Hres & _).
  - vm_compute. reflexivity.
  - vm_compute. reflexivity.
  - vm_compute. reflexivity.
  - exact Hbad.
  - exists e, w'. split; [exact Hrun|]. split; [exact Hnot | exact Hres].
Defined.

Lemma ReplayFS_only_reads_witness :
  disk (world_of (ReplayFS http one_fixture 0%nat start)) = disk start
  /\ requests (world_of (ReplayFS http one_fixture 0%nat start)) = requests start.
Proof.
  destruct (ReplayFS_only_reads http one_fixture 0%nat start
              (world_of (ReplayFS http one_fixture 0%nat start))
              (result_of (ReplayFS http one_fixture 0%nat start)))
    as (Hdisk & Hreq & _).
  - vm_compute. reflexivity.
  - split; [exact Hdisk | exact Hreq].
Defined.

Lemma Replay_without_store_witness :
  exists e,
    Replay http "fixtures" 0%nat start = Some ((None, Some e), log (EvReadDir ".") start)
    /\ errors_Is e errNotFound = true.
Proof.
  apply (Replay_without_store http "fixtures" 0%nat start get_status get_status_bytes).
  - vm_compute. reflexivity.
  - vm_compute. reflexivity.
  - intros name. reflexivity.
Defined.

Lemma Record_then_Replay_filtered_witness :
  exists q w2 replayed,
    Replay http "fixtures" 1%nat (world_of filtered_run) = Some ((Some q, None), w2)
    /\ responses w2 !! q = Some replayed
    /\ StatusCode replayed = 200
    /\ ResBody replayed = Some (bytes_of_string "up")
    /\ ResHeader replayed = <[ "Content-Length" := ["2"] ]> (ResHeader up).
Proof.
  destruct (Record_then_Replay_filtered sound_os http (Some upstream) "fixtures"
              (Some (mkFilters (Some (Header_Del "Authorization")) None))
              0%nat 1%nat start (world_of filtered_run) get_status
              (Header_Del "Authorization" get_status)
              (dumped (wire.DumpRequest (Header_Del "Authorization" get_status)))
              0%nat up)
    as (live_response & fixture & _ & _ & Hfix & _ & Hreplay).
  - discriminate.
  - vm_compute. reflexivity.
  - vm_compute. reflexivity.
  - vm_compute. reflexivity.
  - vm_compute. reflexivity.
  - vm_compute. reflexivity.
  - vm_compute. reflexivity.
  - intros n [x Hx]. vm_compute in Hx. discriminate Hx.
  - assert (fixture = up_bytes) as ->
      by (vm_compute in Hfix; injection Hfix as <-; vm_compute; reflexivity).
    assert (Hread : exists replayed,
               http_ReadResponse http up_bytes (Header_Del "Authorization" get_status)
               = Ok replayed
               /\ StatusCode replayed = 200
               /\ ResBody replayed = Some (bytes_of_string "up")
               /\ ResHeader replayed = <[ "Content-Length" := ["2"] ]> (ResHeader up)).
    { eexists. repeat split; vm_compute; reflexivity. }
    destruct Hread as (replayed & Hread & Hcode & Hbody & Hheader).
    rewrite Hread in Hreplay. destruct Hreplay as (q & w2 & Hrun & _ & Hres).
    exists q, w2, replayed. repeat split; assumption.
Defined.

Lemma Record_then_Replay_other_request_witness :
  exists e,
    Replay http "fixtures" 1%nat (world_of two_requests_run)
    = Some ((None, Some e), log (EvReadDir ".") (world_of two_requests_run))
    /\ errors_Is e errNotFound = true.
Proof.
  apply (Record_then_Replay_other_request sound_os http (Some upstream) "fixtures" None
           0%nat 1%nat two_requests (world_of two_requests_run) get_status get_health
           get_status_bytes (dumped (wire.DumpRequest get_health)) 0%nat).
  - vm_compute. reflexivity.
  - vm_compute. reflexivity.
  - vm_compute. reflexivity.
  - vm_compute. reflexivity.
  - vm_compute. reflexivity.
  - vm_compute. discriminate.
  - intros n [x Hx]. vm_compute in Hx. discriminate Hx.
Defined.

(** * The command line *)

Import cmdline.

(** ** Strings *)

Lemma append_nonempty (s : string) (b : ascii) :
  s +:+ String b EmptyString <> EmptyString.
Proof. destruct s; discriminate. Qed.

Lemma append_cons (x : ascii) (a b : string) :
  String x a +:+ b = String x (a +:+ b).
Proof. reflexivity. Qed.

Lemma append_assoc (a b c : string) : (a +:+ b) +:+ c = a +:+ (b +:+ c).
Proof.
  induction a as [|x a IH]; [reflexivity|].
  change (String x ((a +:+ b) +:+ c) = String x (a +:+ (b +:+ c))). now rewrite IH.
Qed.

Lemma append_nil_r (a : string) : a +:+ EmptyString = a.
Proof.
  induction a as [|x a IH]; [reflexivity|].
  change (String x (a +:+ EmptyString) = String x a). now rewrite IH.
Qed.

Lemma Replace_idempotent (s : string) :
  Replace (Replace s "-" "_") "-" "_" = Replace s "-" "_".
Proof.
  induction s as [|b s IH]; [reflexivity|]. cbn [Replace]. rewrite IH.
  destruct (Ascii.eqb b "-") eqn:Hb; [reflexivity|]. now rewrite Hb.
Qed.

Lemma canonical_idempotent (k : string) : canonical (canonical k) = canonical k.
Proof. apply Replace_idempotent. Qed.

Lemma Index_ge (s : string) (c : ascii) : -1 <= Index s c.
Proof.
  induction s as [|b s IH]; cbn [Index]; [lia|].
  destruct (Ascii.eqb b c); [lia|].
  destruct (Index s c =? -1) eqn:H; lia.
Qed.

(** No occurrence before the first one. *)
Lemma Index_slice_to (s : string) (c : ascii) :
  Index s c <> -1 -> Index (slice_to (Z.to_nat (Index s c)) s) c = -1.
Proof.
  unfold slice_to. induction s as [|b s IH]; cbn [Index]; [reflexivity|].
  destruct (Ascii.eqb b c) eqn:Hb; [reflexivity|].
  destruct (Index s c =? -1) eqn:Hi; [intros H; now contradiction H|].
  intros _. apply Z.eqb_neq in Hi. pose proof (Index_ge s c) as Hge.
  replace (Z.to_nat (Index s c + 1)) with (S (Z.to_nat (Index s c))) by lia.
  cbn [substring Index]. rewrite Hb, (IH Hi). reflexivity.
Qed.

Lemma Index_Replace (s : string) :
  Index (Replace s "-" "_") "=" = Index s "=".
Proof.
  induction s as [|b s IH]; [reflexivity|]. cbn [Replace Index]. rewrite IH.
  destruct (Ascii.eqb b "-") eqn:Hb; [|reflexivity].
  apply Ascii.eqb_eq in Hb. subst b. reflexivity.
Qed.

Lemma key_of_no_equals (flag : string) : Index (key_of flag) "=" = -1.
Proof.
  unfold key_of. destruct (Index flag "=" =? -1) eqn:H.
  - now apply Z.eqb_eq in H.
  - apply Index_slice_to. now apply Z.eqb_neq in H.
Qed.

Lemma TrimLeft_head (s cutset : string) (c : ascii) (rest : string) :
  TrimLeft s cutset = String c rest -> in_cutset cutset c = false.
Proof.
  induction s as [|b s IH]; cbn [TrimLeft]; [discriminate|].
  destruct (in_cutset cutset b) eqn:Hb; [exact IH|].
  intros [= <- <-]. exact Hb.
Qed.

Lemma TrimLeft_suffix (s cutset : string) :
  exists front, s = front +:+ TrimLeft s cutset.
Proof.
  induction s as [|b s [front IH]]; [exists EmptyString; reflexivity|].
  cbn [TrimLeft]. destruct (in_cutset cutset b).
  - exists (String b front). rewrite append_cons. now rewrite <- IH.
  - exists EmptyString. reflexivity.
Qed.

Lemma TrimRight_last (s cutset : string) (c : ascii) :
  forall front, TrimRight s cutset = front +:+ String c EmptyString ->
                in_cutset cutset c = false.
Proof.
  induction s as [|b s IH]; intros front; cbn [TrimRight].
  - destruct front; discriminate.
  - destruct (TrimRight s cutset) as [|k kept] eqn:Hk.
    + destruct (in_cutset cutset b) eqn:Hb; [destruct front; discriminate|].
      destruct front as [|x [|y front]]; rewrite ?append_cons;
        change (EmptyString +:+ String c EmptyString) with (String c EmptyString);
        intros H; try (injection H as <-; exact Hb);
        discriminate H.
    + destruct front as [|x front]; rewrite ?append_cons;
        change (EmptyString +:+ String c EmptyString) with (String c EmptyString);
        [discriminate|].
      intros [= <- H]. apply (IH front). exact H.
Qed.

Lemma Trim_trimmed (s cutset : string) : trimmed cutset (Trim s cutset).
Proof.
  intros c Hc. unfold Trim. split.
  - intros rest H. apply TrimLeft_head in H. congruence.
  - intros front H.
    destruct (TrimLeft_suffix (TrimRight s cutset) cutset) as [pre Hpre].
    rewrite H, <- append_assoc in Hpre. apply TrimRight_last in Hpre. congruence.
Qed.

Lemma TrimRight_cut (s cutset : string) (c : ascii) :
  in_cutset cutset c = true ->
  TrimRight (s +:+ String c EmptyString) cutset = TrimRight s cutset.
Proof.
  intros Hc. induction s as [|b s IH].
  - change (TrimRight (String c EmptyString) cutset = EmptyString).
    cbn [TrimRight]. now rewrite Hc.
  - rewrite append_cons. cbn [TrimRight]. rewrite IH. reflexivity.
Qed.

Lemma TrimRight_keep (s cutset : string) (c : ascii) :
  in_cutset cutset c = false ->
  TrimRight (s +:+ String c EmptyString) cutset = s +:+ String c EmptyString.
Proof.
  intros Hc. induction s as [|b s IH].
  - change (TrimRight (String c EmptyString) cutset = String c EmptyString).
    cbn [TrimRight]. now rewrite Hc.
  - rewrite append_cons. cbn [TrimRight]. rewrite IH. destruct s; reflexivity.
Qed.

Lemma TrimLeft_keep (s cutset : string) (c : ascii) :
  in_cutset cutset c = false -> TrimLeft (String c s) cutset = String c s.
Proof. intros Hc. cbn [TrimLeft]. now rewrite Hc. Qed.

(** ** Fields *)

Lemma FieldsFunc_loop_nonempty {S : Type} (f : S -> rune -> bool * S) (s : string) :
  forall st skip cur,
    (forall field, cur = Some field -> field <> EmptyString) ->
    Forall (fun field => field <> EmptyString) (FieldsFunc_loop f st skip cur s).
Proof.
  induction s as [|b rest IH]; intros st skip cur Hcur; cbn [FieldsFunc_loop].
  - destruct cur; [|constructor]. constructor; [now apply Hcur | constructor].
  - destruct skip as [|k].
    + destruct (DecodeRuneInString (String b rest)) as [r size].
      destruct (f st r) as [[] st'].
      * apply Forall_app. split; [|apply IH; discriminate].
        destruct cur; [|constructor]. constructor; [now apply Hcur | constructor].
      * apply IH. intros field [= <-]. apply append_nonempty.
    + apply IH. intros field Hf. destruct cur; [|discriminate].
      cbn in Hf. injection Hf as <-. apply append_nonempty.
Qed.

(** [doParse] as a fold over the fields, the test on the length gone. *)
Lemma doParse_fold {S : Type} (input : string)
    (handler : string -> string -> string -> string -> string -> S -> S) (st : S) :
  doParse input handler st
  = fold_left
      (fun st flag =>
         handler flag (key_of flag) (canonical (key_of flag))
           (raw_value_of flag) (value_of flag) st)
      (FieldsFunc input quotedFieldsCheck 0) st.
Proof.
  unfold doParse.
  pose proof (FieldsFunc_loop_nonempty quotedFieldsCheck input 0 0%nat None) as Hne.
  fold (FieldsFunc input quotedFieldsCheck 0) in Hne.
  specialize (Hne ltac:(discriminate)).
  revert st. induction Hne as [|flag fs Hflag _ IH]; intros st; [reflexivity|].
  cbn [fold_left]. rewrite <- IH. f_equal.
  destruct flag as [|b flag]; [contradiction|].
  unfold value_of, raw_value_of, key_of, canonical.
  cbn [String.length Nat.eqb].
  destruct (Index (String b flag) "=" =? -1); reflexivity.
Qed.

Lemma parseToMap_fold (input : string) :
  parseToMap input = fold_left store (FieldsFunc input quotedFieldsCheck 0) ∅.
Proof. unfold parseToMap. rewrite doParse_fold. reflexivity. Qed.

Lemma AsMap_parse (reader : Reader) :
  AsMap (parse reader) = fold_left store (flags (content reader)) ∅.
Proof. unfold parse, io_ReadAll, flags. cbn [AsMap]. apply parseToMap_fold. Qed.

(** The entry of a canonical key is that of the last flag with that
    key. *)
Lemma fold_store_lookup (fs : list string) (key : string) :
  forall m found,
    m !! canonical key = value_of <$> found ->
    fold_left store fs m !! canonical key = value_of <$> fold_left (pick key) fs found.
Proof.
  induction fs as [|flag fs IH]; intros m found Hm; [exact Hm|].
  cbn [fold_left]. apply IH. unfold store, pick.
  destruct (bool_decide (canonical (key_of flag) = canonical key)) eqn:Hk.
  - apply bool_decide_eq_true in Hk. cbn [fmap option_fmap option_map].
    destruct (decide (key_of flag = canonical key)) as [->|Hne].
    + apply lookup_insert_eq.
    + rewrite lookup_insert_ne by exact Hne. rewrite Hk. apply lookup_insert_eq.
  - apply bool_decide_eq_false in Hk.
    rewrite lookup_insert_ne, lookup_insert_ne; [exact Hm | exact Hk |].
    intros H. apply Hk. rewrite H. apply canonical_idempotent.
Qed.

Lemma AsMap_lookup (reader : Reader) (key : string) :
  AsMap (parse reader) !! canonical key
  = value_of <$> last_flag key (flags (content reader)).
Proof.
  rewrite AsMap_parse. apply fold_store_lookup. apply lookup_empty.
Qed.

Section Flags.

Variable Map_unicode_ToLower : string -> string.

(** X15.  [Flag], [ContainsFlag] and [AsBool] answer for the last flag
    of the command line whose key is the queried one, dashes and
    underscores taken for the same character in both: [Flag] returns its
    value, trimmed of quotes, and true; [AsBool] tells whether that
    value, in lower case, is [1], [yes] or [true]; with no such flag the
    answers are the empty string and false. *)
Theorem Flag_last_flag (reader : Reader) (flag : string) :
  let c := parse reader in
  let truthy v :=
    let l := ToLower Map_unicode_ToLower v in
    bool_decide (l = "1") || bool_decide (l = "yes") || bool_decide (l = "true") in
  match last_flag flag (flags (content reader)) with
  | Some f =>
      Flag c flag = (value_of f, true)
      /\ ContainsFlag c flag = true
      /\ AsBool Map_unicode_ToLower c flag = truthy (value_of f)
  | None =>
      Flag c flag = (EmptyString, false)
      /\ ContainsFlag c flag = false
      /\ AsBool Map_unicode_ToLower c flag = false
  end.
Proof.
  cbv zeta. pose proof (AsMap_lookup reader flag) as H.
  unfold ContainsFlag, Flag, AsBool. fold (canonical flag).
  destruct (AsMap (parse reader) !! canonical flag) as [v|];
    destruct (last_flag flag (flags (content reader))); cbn in H;
    try discriminate H; try (injection H as ->); cbn; auto.
Qed.

(** X16.  A flag given without a value reads as set: when the last flag
    with the queried key has no equals sign, [Flag] returns [1] and
    [AsBool] returns true. *)
Theorem bare_flag_is_set (reader : Reader) (flag f : string) :
  last_flag flag (flags (content reader)) = Some f ->
  Index f "=" = -1 ->
  Flag (parse reader) flag = ("1", true)
  /\ AsBool Map_unicode_ToLower (parse reader) flag = true.
Proof.
  intros Hlast Hbare. pose proof (AsMap_lookup reader flag) as H.
  rewrite Hlast in H. cbn [fmap option_fmap option_map] in H.
  assert (Hv : value_of f = "1").
  { unfold value_of, raw_value_of. rewrite Hbare. reflexivity. }
  rewrite Hv in H. unfold Flag, AsBool. fold (canonical flag). rewrite H.
  split; reflexivity.
Qed.

End Flags.

(** X17.  Every key of [AsMap] is there in its canonical spelling too,
    so that [ContainsFlag] finds it; and no key holds an equals sign. *)
Theorem AsMap_keys (reader : Reader) (key : string) :
  is_Some (AsMap (parse reader) !! key) ->
  is_Some (AsMap (parse reader) !! canonical key)
  /\ ContainsFlag (parse reader) key = true
  /\ Index key "=" = -1.
Proof.
  assert (Hinv : forall fs m,
             (forall k, is_Some (m !! k) ->
                        is_Some (m !! canonical k) /\ Index k "=" = -1) ->
             forall k, is_Some (fold_left store fs m !! k) ->
                       is_Some (fold_left store fs m !! canonical k)
                       /\ Index k "=" = -1).
  { induction fs as [|flag fs IH]; intros m Hm; [exact Hm|].
    cbn [fold_left]. apply IH. intros k. unfold store.
    destruct (decide (k = key_of flag)) as [->|Hk].
    - intros _. split; [|apply key_of_no_equals].
      destruct (decide (key_of flag = canonical (key_of flag))) as [<-|Hne].
      + rewrite lookup_insert_eq. eauto.
      + rewrite lookup_insert_ne by exact Hne. rewrite lookup_insert_eq. eauto.
    - rewrite (lookup_insert_ne _ (key_of flag) k) by congruence.
      destruct (decide (k = canonical (key_of flag))) as [->|Hc].
      + intros _. rewrite canonical_idempotent. split.
        * destruct (decide (key_of flag = canonical (key_of flag))) as [<-|Hne];
            [rewrite lookup_insert_eq; eauto|].
          rewrite lookup_insert_ne by exact Hne. rewrite lookup_insert_eq. eauto.
        * unfold canonical. rewrite Index_Replace. apply key_of_no_equals.
      + rewrite lookup_insert_ne by congruence. intros Hs.
        destruct (Hm k Hs) as [Hcan Heq]. split; [|exact Heq].
        destruct (decide (key_of flag = canonical k)) as [<-|H1];
          [rewrite lookup_insert_eq; eauto|].
        rewrite lookup_insert_ne by exact H1.
        destruct (decide (canonical (key_of flag) = canonical k)) as [<-|H2];
          [rewrite lookup_insert_eq; eauto|].
        rewrite lookup_insert_ne by exact H2. exact Hcan. }
  rewrite AsMap_parse. intros Hs.
  destruct (Hinv (flags (content reader)) ∅
              ltac:(intros k [x Hx]; rewrite lookup_empty in Hx; discriminate Hx)
              key Hs) as [Hcan Heq].
  split; [exact Hcan|]. split; [|exact Heq].
  unfold ContainsFlag, Flag. fold (canonical key). rewrite AsMap_parse.
  destruct Hcan as [v ->]. reflexivity.
Qed.

(** X18.  No value of [AsMap] begins or ends with a double or a single
    quote. *)
Theorem AsMap_values_trimmed (reader : Reader) (key value : string) :
  AsMap (parse reader) !! key = Some value ->
  trimmed quotes value.
Proof.
  assert (Hinv : forall fs m,
             (forall k v, m !! k = Some v -> trimmed quotes v) ->
             forall k v, fold_left store fs m !! k = Some v -> trimmed quotes v).
  { induction fs as [|flag fs IH]; intros m Hm; [exact Hm|].
    cbn [fold_left]. apply IH. intros k v. unfold store.
    destruct (decide (k = key_of flag)) as [->|Hk].
    - rewrite lookup_insert_eq. intros [= <-]. apply Trim_trimmed.
    - rewrite lookup_insert_ne by congruence.
      destruct (decide (k = canonical (key_of flag))) as [->|Hc].
      + rewrite lookup_insert_eq. intros [= <-]. apply Trim_trimmed.
      + rewrite lookup_insert_ne by congruence. apply Hm. }
  rewrite AsMap_parse. apply Hinv. intros k v Hv.
  rewrite lookup_empty in Hv. discriminate Hv.
Qed.

(** X19.  Newlines at the end of the input do not count: [parse]
    returns the same [CmdLine], raw line included, with and without
    them. *)
Theorem parse_trailing_newlines (s tail : string) (e : option string) :
  forallb (Ascii.eqb "010") (list_ascii_of_string tail) = true ->
  parse (mkReader (s +:+ tail) e) = parse (mkReader s e).
Proof.
  intros Htail.
  assert (H : TrimRight (s +:+ tail) newline = TrimRight s newline).
  { revert s. induction tail as [|c tail IH]; intros s.
    - now rewrite append_nil_r.
    - cbn [list_ascii_of_string forallb] in Htail.
      apply andb_prop in Htail as [Hc Htail].
      apply Ascii.eqb_eq in Hc. subst c.
      change (String "010" tail) with (String "010" EmptyString +:+ tail).
      rewrite <- append_assoc, (IH Htail). apply TrimRight_cut. reflexivity. }
  unfold parse, io_ReadAll. cbn [content failure]. rewrite H. reflexivity.
Qed.

(** X20.  [doParse] calls its handler once for every field that
    [strings.FieldsFunc] returns, in order; no field is empty, so the
    test on the length of the flag never skips one. *)
Theorem doParse_visits_fields (input : string) :
  doParse input (fun flag key canonicalKey value trimmedValue seen => seen ++ [flag]) []
  = FieldsFunc input quotedFieldsCheck 0
  /\ Forall (fun flag => flag <> EmptyString) (FieldsFunc input quotedFieldsCheck 0).
Proof.
  split.
  - rewrite doParse_fold.
    assert (H : forall fs (acc : list string),
               fold_left (fun st flag => st ++ [flag]) fs acc = acc ++ fs).
    { induction fs as [|x fs IH]; intros acc; cbn [fold_left].
      - now rewrite app_nil_r.
      - rewrite IH, <- app_assoc. reflexivity. }
    apply (H _ []).
  - apply FieldsFunc_loop_nonempty. discriminate.
Qed.

(** ** Runes *)

Lemma byte_val_range (c : ascii) : 0 <= byte_val c < 256.
Proof. unfold byte_val. pose proof (nat_ascii_bounded c). lia. Qed.

Lemma byte_val_inj (a b : ascii) : byte_val a = byte_val b -> a = b.
Proof.
  unfold byte_val. intros H. apply Nat2Z.inj in H.
  rewrite <- (ascii_nat_embedding a), <- (ascii_nat_embedding b). now rewrite H.
Qed.

Lemma lor_ge_128 (a b : Z) :
  0 <= a -> 0 <= b -> 128 <= a \/ 128 <= b -> 128 <= Z.lor a b.
Proof.
  intros Ha Hb H.
  assert (H7 : 7 <= Z.log2 (Z.lor a b)).
  { rewrite Z.log2_lor by assumption.
    destruct H as [H|H];
      [etransitivity; [|apply Z.le_max_l] | etransitivity; [|apply Z.le_max_r]];
      apply Z.log2_le_pow2; lia. }
  destruct (Z.le_gt_cases (Z.lor a b) 0) as [Hle|Hgt].
  - rewrite (Z.log2_nonpos _ Hle) in H7. lia.
  - change 128 with (2 ^ 7). apply Z.log2_le_pow2; assumption.
Qed.

Lemma land_shiftl_low (x m k : Z) :
  0 <= x -> 0 <= m -> 0 <= k -> 0 <= Z.shiftl (Z.land x m) k.
Proof.
  intros Hx Hm Hk. apply Z.shiftl_nonneg. apply Z.land_nonneg. auto.
Qed.

Lemma land_31 (x : Z) : 194 <= x <= 223 -> 128 <= Z.shiftl (Z.land x 31) 6.
Proof.
  intros H. change 31 with (Z.ones 5). rewrite Z.land_ones by lia.
  rewrite Z.shiftl_mul_pow2 by lia. change (2 ^ 5) with 32. change (2 ^ 6) with 64.
  Z.to_euclidean_division_equations. lia.
Qed.

Lemma land_15 (x : Z) : 225 <= x <= 239 -> 128 <= Z.shiftl (Z.land x 15) 12.
Proof.
  intros H. change 15 with (Z.ones 4). rewrite Z.land_ones by lia.
  rewrite Z.shiftl_mul_pow2 by lia. change (2 ^ 4) with 16. change (2 ^ 12) with 4096.
  Z.to_euclidean_division_equations. lia.
Qed.

Lemma land_7 (x : Z) : 241 <= x <= 244 -> 128 <= Z.shiftl (Z.land x 7) 18.
Proof.
  intros H. change 7 with (Z.ones 3). rewrite Z.land_ones by lia.
  rewrite Z.shiftl_mul_pow2 by lia. change (2 ^ 3) with 8. change (2 ^ 18) with 262144.
  Z.to_euclidean_division_equations. lia.
Qed.

Lemma land_63 (x k : Z) :
  144 <= x <= 191 -> 6 <= k <= 12 -> 128 <= Z.shiftl (Z.land x 63) k.
Proof.
  intros H Hk. change 63 with (Z.ones 6). rewrite Z.land_ones by lia.
  rewrite Z.shiftl_mul_pow2 by lia. change (2 ^ 6) with 64.
  assert (16 <= x mod 64) by (Z.to_euclidean_division_equations; lia).
  assert (2 ^ 6 <= 2 ^ k) by (apply Z.pow_le_mono_r; lia).
  change (2 ^ 6) with 64 in *. nia.
Qed.

Ltac rune_nonneg :=
  repeat match goal with
         | |- 0 <= Z.lor _ _ => apply Z.lor_nonneg; split
         | |- 0 <= Z.shiftl (Z.land _ _) _ => apply land_shiftl_low; lia
         | |- 0 <= Z.land _ _ => apply Z.land_nonneg; lia
         end.

Ltac rune_bound :=
  match goal with
  | |- 128 <= Z.lor _ _ =>
      apply lor_ge_128;
      [ rune_nonneg | rune_nonneg
      | first [ left; rune_bound | right; rune_bound ] ]
  | |- 128 <= Z.shiftl (Z.land _ 31) _ => apply land_31; lia
  | |- 128 <= Z.shiftl (Z.land _ 15) _ => apply land_15; lia
  | |- 128 <= Z.shiftl (Z.land _ 7) _ => apply land_7; lia
  | |- 128 <= Z.shiftl (Z.land _ 63) _ => apply land_63; lia
  end.

(** A rune is its byte when that is ASCII; otherwise it is no ASCII
    character, and the bytes it spans are not ASCII either. *)
Lemma DecodeRuneInString_spec (b : ascii) (rest : string) :
  let '(r, n) := DecodeRuneInString (String b rest) in
  (r = byte_val b /\ n = 1%nat /\ byte_val b < 128)
  \/ (128 <= r /\ (1 <= n)%nat /\ continued (n - 1) rest = true).
Proof.
  unfold DecodeRuneInString.
  pose proof (byte_val_range b) as Hb.
  destruct (byte_val b <? 128) eqn:H0; [left; repeat split; lia|].
  apply Z.ltb_ge in H0.
  assert (Herr : (RuneError = byte_val b /\ 1%nat = 1%nat /\ byte_val b < 128)
                 \/ (128 <= RuneError /\ (1 <= 1)%nat
                     /\ continued (1 - 1) rest = true)).
  { right. unfold RuneError. repeat split; lia. }
  destruct (first (byte_val b)) as [[[sz lo] hi]|] eqn:Hf; [|exact Herr].
  unfold first in Hf.
  repeat match type of Hf with
         | (if ?c then _ else _) = _ => destruct c eqn:?
         end; try discriminate Hf; injection Hf as <- <- <-.
  all: destruct rest as [|c1 [|c2 [|c3 rest]]];
    cbn [String.length Nat.ltb Nat.leb at_index get];
    try exact Herr.
  all: try pose proof (byte_val_range c1) as Hc1;
    try pose proof (byte_val_range c2) as Hc2;
    try pose proof (byte_val_range c3) as Hc3.
  all: repeat match goal with
              | |- context [if ?c then _ else _] => destruct c eqn:?
              end;
    try exact Herr; clear Herr; right.
  all: repeat match goal with
              | H : (_ || _) = false |- _ => apply orb_false_iff in H as [? ?]
              | H : (_ && _) = true |- _ => apply andb_true_iff in H as [? ?]
              | H : (_ <? _) = false |- _ => apply Z.ltb_ge in H
              | H : (_ <=? _) = true |- _ => apply Z.leb_le in H
              | H : (_ =? _) = true |- _ => apply Z.eqb_eq in H
              end.
  all: cbn [continued Nat.sub];
    repeat match goal with
           | |- context [128 <=? ?x] =>
               replace (128 <=? x) with true by (symmetry; apply Z.leb_le; lia)
           end;
    cbn [andb]; (split; [|split; [lia | reflexivity]]).
  all: rune_bound.
Qed.

(** ** Separators, words and quotations *)

Lemma DecodeRuneInString_ASCII (c : ascii) (rest : string) :
  byte_val c < 128 -> DecodeRuneInString (String c rest) = (byte_val c, 1%nat).
Proof.
  intros H. unfold DecodeRuneInString.
  replace (byte_val c <? 128) with true by (symmetry; apply Z.ltb_lt; exact H).
  reflexivity.
Qed.

Lemma space_byte_separates (c : ascii) :
  space_byte c = true ->
  byte_val c < 128 /\ quotedFieldsCheck 0 (byte_val c) = (true, 0).
Proof.
  unfold space_byte. intros H. apply andb_prop in H as [Hlt Hsp].
  apply Z.ltb_lt in Hlt. split; [exact Hlt|].
  pose proof (byte_val_range c) as Hc.
  unfold quotedFieldsCheck, Quotation_Mark, within.
  unfold IsSpace, within in Hsp.
  replace (byte_val c <=? 255) with true in Hsp by (symmetry; apply Z.leb_le; lia).
  assert (Hv : 9 <= byte_val c <= 13 \/ byte_val c = 32) by lia.
  assert (Hs : IsSpace (byte_val c) = true).
  { unfold IsSpace, within.
    replace (byte_val c <=? 255) with true by (symmetry; apply Z.leb_le; lia).
    exact Hsp. }
  rewrite Hs.
  repeat match goal with
         | |- context [?a =? ?b] =>
             replace (a =? b) with false by (symmetry; apply Z.eqb_neq; lia)
         | |- context [?a <=? ?b] =>
             first [ replace (a <=? b) with false by (symmetry; apply Z.leb_gt; lia)
                   | replace (a <=? b) with true by (symmetry; apply Z.leb_le; lia) ]
         end.
  reflexivity.
Qed.

Lemma plain_byte_joins (c : ascii) :
  plain_byte c = true ->
  byte_val c < 128 /\ quotedFieldsCheck 0 (byte_val c) = (false, 0).
Proof.
  unfold plain_byte. intros H.
  apply andb_prop in H as [H Hq]. apply andb_prop in H as [Hlt Hsp].
  apply Z.ltb_lt in Hlt. apply negb_true_iff in Hq, Hsp.
  split; [exact Hlt|]. unfold quotedFieldsCheck.
  destruct (byte_val c =? 0) eqn:H0; [reflexivity|].
  cbn [Z.eqb negb]. rewrite Hq, Hsp. reflexivity.
Qed.

Lemma forallb_TrimRight (P : ascii -> bool) (s cutset : string) :
  forallb P (list_ascii_of_string s) = true ->
  forallb P (list_ascii_of_string (TrimRight s cutset)) = true.
Proof.
  induction s as [|b s IH]; [auto|].
  cbn [list_ascii_of_string forallb TrimRight]. intros H.
  apply andb_prop in H as [Hb Hs]. specialize (IH Hs).
  destruct (TrimRight s cutset) as [|k kept].
  - destruct (in_cutset cutset b); [reflexivity|].
    cbn [list_ascii_of_string forallb]. now rewrite Hb.
  - cbn [list_ascii_of_string forallb] in *. now rewrite Hb.
Qed.

Lemma FieldsFunc_loop_blank (s : string) :
  forallb space_byte (list_ascii_of_string s) = true ->
  FieldsFunc_loop quotedFieldsCheck 0 0 None s = [].
Proof.
  induction s as [|b s IH]; [reflexivity|].
  cbn [list_ascii_of_string forallb]. intros H.
  apply andb_prop in H as [Hb Hs].
  destruct (space_byte_separates b Hb) as [Hlt Hsep].
  cbn [FieldsFunc_loop]. rewrite (DecodeRuneInString_ASCII b s Hlt), Hsep.
  cbn [Nat.sub app]. exact (IH Hs).
Qed.

(** Plain bytes outside a quotation go to the field under way. *)
Lemma FieldsFunc_loop_plain (word : string) :
  forall cur rest,
    word <> EmptyString ->
    forallb plain_byte (list_ascii_of_string word) = true ->
    FieldsFunc_loop quotedFieldsCheck 0 0 cur (word +:+ rest)
    = FieldsFunc_loop quotedFieldsCheck 0 0
        (Some (default EmptyString cur +:+ word)) rest.
Proof.
  induction word as [|b word IH]; intros cur rest Hne Hall; [contradiction|].
  cbn [list_ascii_of_string forallb] in Hall.
  apply andb_prop in Hall as [Hb Hall].
  destruct (plain_byte_joins b Hb) as [Hlt Hjoin].
  rewrite append_cons. cbn [FieldsFunc_loop].
  rewrite (DecodeRuneInString_ASCII b _ Hlt), Hjoin. cbn [Nat.sub].
  destruct word as [|b' word].
  - reflexivity.
  - rewrite (IH _ rest ltac:(discriminate) Hall). cbn [from_option id].
    rewrite append_assoc. reflexivity.
Qed.

(** Inside a quotation every byte goes to the field, up to the quotation
    mark that closes it. *)
Lemma FieldsFunc_loop_quoted (q : ascii) (body : string) :
  byte_val q < 128 -> byte_val q <> 0 ->
  forallb (fun c => negb (Ascii.eqb c q)) (list_ascii_of_string body) = true ->
  forall skip field rest,
    continued skip (body +:+ String q rest) = true ->
    FieldsFunc_loop quotedFieldsCheck (byte_val q) skip (Some field)
      (body +:+ String q rest)
    = FieldsFunc_loop quotedFieldsCheck 0 0
        (Some (field +:+ body +:+ String q EmptyString)) rest.
Proof.
  intros Hq Hq0. induction body as [|b body IH]; intros Hbody skip field rest Hskip.
  - change (EmptyString +:+ String q rest) with (String q rest) in *.
    destruct skip as [|k].
    + cbn [FieldsFunc_loop]. rewrite (DecodeRuneInString_ASCII q rest Hq).
      unfold quotedFieldsCheck. rewrite Z.eqb_refl. reflexivity.
    + cbn [continued] in Hskip. apply andb_prop in Hskip as [Hge _].
      apply Z.leb_le in Hge. lia.
  - cbn [list_ascii_of_string forallb] in Hbody.
    apply andb_prop in Hbody as [Hb Hbody]. apply negb_true_iff in Hb.
    rewrite append_cons in *.
    assert (Hassoc : forall f, (f +:+ String b EmptyString) +:+ body +:+ String q EmptyString
                               = f +:+ String b body +:+ String q EmptyString).
    { intros f. rewrite append_assoc. reflexivity. }
    destruct skip as [|k].
    + cbn [FieldsFunc_loop].
      pose proof (DecodeRuneInString_spec b (body +:+ String q rest)) as Hdec.
      destruct (DecodeRuneInString (String b (body +:+ String q rest))) as [r n].
      assert (Hr : quotedFieldsCheck (byte_val q) r = (false, byte_val q)).
      { unfold quotedFieldsCheck.
        assert (Hne : r <> byte_val q).
        { destruct Hdec as [(-> & _ & _) | (Hge & _ & _)]; [|lia].
          intros H. apply byte_val_inj in H. subst b.
          rewrite Ascii.eqb_refl in Hb. discriminate Hb. }
        apply Z.eqb_neq in Hne. rewrite Hne.
        apply Z.eqb_neq in Hq0. rewrite Hq0. reflexivity. }
      rewrite Hr. cbn [from_option id].
      rewrite IH; [apply f_equal2; [f_equal; apply Hassoc | reflexivity] | exact Hbody |].
      destruct Hdec as [(_ & -> & _) | (_ & _ & Hc)]; [reflexivity | exact Hc].
    + cbn [FieldsFunc_loop fmap option_fmap option_map].
      cbn [continued] in Hskip. apply andb_prop in Hskip as [_ Hskip].
      rewrite IH; [apply f_equal2; [f_equal; apply Hassoc | reflexivity]
                  | exact Hbody | exact Hskip].
Qed.

Lemma Index_first (key rest : string) (c : ascii) :
  forallb (fun b => negb (Ascii.eqb b c)) (list_ascii_of_string key) = true ->
  Index (key +:+ String c rest) c = Z.of_nat (String.length key).
Proof.
  induction key as [|b key IH]; intros H.
  - change (EmptyString +:+ String c rest) with (String c rest).
    cbn [Index]. now rewrite Ascii.eqb_refl.
  - cbn [list_ascii_of_string forallb] in H. apply andb_prop in H as [Hb H].
    apply negb_true_iff in Hb. rewrite append_cons. cbn [Index String.length].
    rewrite Hb, (IH H).
    replace (Z.of_nat (String.length key) =? -1) with false
      by (symmetry; apply Z.eqb_neq; lia).
    lia.
Qed.

Lemma slice_to_append (key rest : string) :
  slice_to (String.length key) (key +:+ rest) = key.
Proof.
  unfold slice_to. induction key as [|b key IH].
  - destruct rest; reflexivity.
  - rewrite append_cons. cbn [String.length substring]. now rewrite IH.
Qed.

Lemma substring_all (s : string) : substring 0 (String.length s) s = s.
Proof. induction s as [|b s IH]; [reflexivity|]. cbn. now rewrite IH. Qed.

Lemma length_append (a b : string) :
  String.length (a +:+ b) = (String.length a + String.length b)%nat.
Proof.
  induction a as [|x a IH]; [reflexivity|].
  rewrite append_cons. cbn [String.length]. now rewrite IH.
Qed.

Lemma slice_from_append (key rest : string) :
  slice_from (String.length key) (key +:+ rest) = rest.
Proof.
  unfold slice_from. rewrite length_append.
  replace (String.length key + String.length rest - String.length key)%nat
    with (String.length rest) by lia.
  induction key as [|b key IH].
  - apply substring_all.
  - rewrite append_cons. cbn [String.length substring]. exact IH.
Qed.

Lemma Trim_quoted (q : ascii) (body cutset : string) :
  in_cutset cutset q = true ->
  Trim (String q body +:+ String q EmptyString) cutset = Trim body cutset.
Proof.
  intros Hq. unfold Trim. rewrite (TrimRight_cut _ _ _ Hq). cbn [TrimRight].
  destruct (TrimRight body cutset) as [|k kept].
  - rewrite Hq. reflexivity.
  - cbn [TrimLeft]. rewrite Hq. reflexivity.
Qed.

(** X21.  An input of nothing but ASCII white space has no flags: the
    map is empty and [Flag] finds nothing. *)
Theorem blank_command_line (reader : Reader) :
  forallb space_byte (list_ascii_of_string (content reader)) = true ->
  AsMap (parse reader) = ∅
  /\ forall flag, Flag (parse reader) flag = (EmptyString, false).
Proof.
  intros H.
  assert (Hmap : AsMap (parse reader) = ∅).
  { rewrite AsMap_parse. unfold flags, FieldsFunc.
    rewrite FieldsFunc_loop_blank; [reflexivity|].
    apply forallb_TrimRight. exact H. }
  split; [exact Hmap|]. intros flag. unfold Flag. rewrite Hmap, lookup_empty.
  reflexivity.
Qed.

(** X22.  A value between two quotation marks of the same kind is kept
    whole, white space and the other kind of quote included: the line
    [key=] followed by the quoted value is one flag, and [Flag] returns
    the value without the outer quotes. *)
Theorem quoted_value_is_one_flag (key body : string) (q : ascii) (e : option string) :
  forallb word_byte (list_ascii_of_string key) = true ->
  in_cutset quotes q = true ->
  forallb (fun c => negb (Ascii.eqb c q)) (list_ascii_of_string body) = true ->
  let line := key +:+ "=" +:+ String q body +:+ String q EmptyString in
  flags line = [line]
  /\ Flag (parse (mkReader line e)) key = (Trim body quotes, true)
  /\ AsMap (parse (mkReader line e)) !! key = Some (Trim body quotes).
Proof.
  intros Hkey Hq Hbody line.
  assert (Hq' : q = "034"%char \/ q = "039"%char).
  { unfold in_cutset, quotes in Hq. cbn [list_ascii_of_string existsb] in Hq.
    apply orb_prop in Hq as [Hq|Hq]; [left|right].
    - now apply Ascii.eqb_eq in Hq.
    - apply orb_prop in Hq as [Hq|Hq]; [|discriminate Hq].
      now apply Ascii.eqb_eq in Hq. }
  assert (Hq128 : byte_val q < 128) by (destruct Hq' as [-> | ->]; reflexivity).
  assert (Hq0 : byte_val q <> 0) by (destruct Hq' as [-> | ->]; discriminate).
  assert (Hopen : quotedFieldsCheck 0 (byte_val q) = (false, byte_val q))
    by (destruct Hq' as [-> | ->]; reflexivity).
  assert (Hnl : in_cutset newline q = false)
    by (destruct Hq' as [-> | ->]; reflexivity).
  assert (Hplain : forallb plain_byte (list_ascii_of_string (key +:+ "=")) = true).
  { clear -Hkey. induction key as [|b key IH]; [reflexivity|].
    cbn [list_ascii_of_string forallb] in Hkey.
    apply andb_prop in Hkey as [Hb Hkey]. unfold word_byte in Hb.
    apply andb_prop in Hb as [Hb _].
    rewrite append_cons. cbn [list_ascii_of_string forallb].
    rewrite Hb. exact (IH Hkey). }
  assert (Hnoeq : forallb (fun b => negb (Ascii.eqb b "=")) (list_ascii_of_string key)
                  = true).
  { clear -Hkey. induction key as [|b key IH]; [reflexivity|].
    cbn [list_ascii_of_string forallb] in *.
    apply andb_prop in Hkey as [Hb Hkey]. unfold word_byte in Hb.
    apply andb_prop in Hb as [_ Hb]. rewrite Hb. exact (IH Hkey). }
  assert (Hline : line = (key +:+ "=") +:+ String q (body +:+ String q EmptyString)).
  { subst line. rewrite append_assoc. reflexivity. }
  assert (Hflags : flags line = [line]).
  { unfold flags.
    assert (Htrim : TrimRight line newline = line).
    { subst line. rewrite <- !append_assoc.
      apply TrimRight_keep. exact Hnl. }
    rewrite Htrim. unfold FieldsFunc. rewrite Hline at 1.
    rewrite FieldsFunc_loop_plain; [|destruct key; discriminate | exact Hplain].
    cbn [from_option id FieldsFunc_loop].
    rewrite (DecodeRuneInString_ASCII q _ Hq128), Hopen. cbn [Nat.sub from_option id].
    rewrite (FieldsFunc_loop_quoted q body Hq128 Hq0 Hbody 0%nat _ EmptyString eq_refl).
    cbn [FieldsFunc_loop]. f_equal. rewrite Hline.
    change (EmptyString +:+ (key +:+ "=")) with (key +:+ "=").
    rewrite !append_assoc. reflexivity. }
  assert (Hkeyof : key_of line = key /\ value_of line = Trim body quotes).
  { assert (Hidx : Index line "=" = Z.of_nat (String.length key))
      by (apply Index_first; exact Hnoeq).
    unfold key_of, value_of, raw_value_of. rewrite Hidx.
    replace (Z.of_nat (String.length key) =? -1) with false
      by (symmetry; apply Z.eqb_neq; lia).
    rewrite Nat2Z.id. split; [apply slice_to_append|].
    replace (Z.to_nat (Z.of_nat (String.length key) + 1))
      with (String.length (key +:+ "=")) by (rewrite length_append; cbn; lia).
    subst line. rewrite <- (append_assoc key "=").
    rewrite slice_from_append. apply Trim_quoted. exact Hq. }
  destruct Hkeyof as [Hk Hv].
  split; [exact Hflags|].
  pose proof (AsMap_lookup (mkReader line e) key) as Hcan.
  pose proof (AsMap_parse (mkReader line e)) as Hmap.
  cbn [content] in Hcan, Hmap. rewrite Hflags in Hcan, Hmap.
  unfold last_flag in Hcan. cbn [fold_left] in Hcan, Hmap.
  unfold pick in Hcan. rewrite Hk, bool_decide_eq_true_2 in Hcan by reflexivity.
  cbn [fmap option_fmap option_map] in Hcan. rewrite Hv in Hcan.
  split.
  - unfold Flag. fold (canonical key). rewrite Hcan. reflexivity.
  - rewrite Hmap. unfold store. rewrite Hk, Hv. apply lookup_insert_eq.
Qed.

(** X23.  Words of plain bytes with one space between them are the
    flags, one for each word in order, and the map is what storing them
    one after the other gives. *)
Theorem plain_words_are_the_flags (ws : list string) :
  Forall plain_word ws ->
  FieldsFunc (unwords ws) quotedFieldsCheck 0 = ws
  /\ parseToMap (unwords ws) = fold_left store ws ∅.
Proof.
  intros Hws.
  assert (H : FieldsFunc (unwords ws) quotedFieldsCheck 0 = ws).
  { unfold FieldsFunc. induction Hws as [|w ws [Hne Hplain] Hws IH]; [reflexivity|].
    destruct ws as [|w' ws].
    - cbn [unwords]. rewrite <- (append_nil_r w) at 1.
      rewrite (FieldsFunc_loop_plain w None EmptyString Hne Hplain). reflexivity.
    - change (unwords (w :: w' :: ws)) with (w +:+ " " +:+ unwords (w' :: ws)).
      rewrite (FieldsFunc_loop_plain w None _ Hne Hplain).
      change (" " +:+ unwords (w' :: ws)) with (String " " (unwords (w' :: ws))).
      cbn [FieldsFunc_loop from_option id].
      rewrite (DecodeRuneInString_ASCII " " _ eq_refl).
      change (quotedFieldsCheck 0 (byte_val " ")) with (true, 0).
      cbn [Nat.sub]. rewrite IH. reflexivity. }
  split; [exact H|]. rewrite parseToMap_fold, H. reflexivity.
Qed.

(** Inside a quotation that is never closed every byte goes to the
    field. *)
Lemma FieldsFunc_loop_open (q : ascii) (body : string) :
  byte_val q < 128 -> byte_val q <> 0 ->
  forallb (fun c => negb (Ascii.eqb c q)) (list_ascii_of_string body) = true ->
  forall skip field,
    continued skip body = true ->
    FieldsFunc_loop quotedFieldsCheck (byte_val q) skip (Some field) body
    = [field +:+ body].
Proof.
  intros Hq Hq0. induction body as [|b body IH]; intros Hbody skip field Hskip.
  - rewrite append_nil_r. reflexivity.
  - cbn [list_ascii_of_string forallb] in Hbody.
    apply andb_prop in Hbody as [Hb Hbody]. apply negb_true_iff in Hb.
    assert (Hassoc : forall f, (f +:+ String b EmptyString) +:+ body
                               = f +:+ String b body).
    { intros f. rewrite append_assoc. reflexivity. }
    destruct skip as [|k].
    + cbn [FieldsFunc_loop].
      pose proof (DecodeRuneInString_spec b body) as Hdec.
      destruct (DecodeRuneInString (String b body)) as [r n].
      assert (Hr : quotedFieldsCheck (byte_val q) r = (false, byte_val q)).
      { unfold quotedFieldsCheck.
        assert (Hne : r <> byte_val q).
        { destruct Hdec as [(-> & _ & _) | (Hge & _ & _)]; [|lia].
          intros H. apply byte_val_inj in H. subst b.
          rewrite Ascii.eqb_refl in Hb. discriminate Hb. }
        apply Z.eqb_neq in Hne. rewrite Hne.
        apply Z.eqb_neq in Hq0. rewrite Hq0. reflexivity. }
      rewrite Hr. cbn [from_option id].
      rewrite IH; [rewrite Hassoc; reflexivity | exact Hbody |].
      destruct Hdec as [(_ & -> & _) | (_ & _ & Hc)]; [reflexivity | exact Hc].
    + cbn [FieldsFunc_loop fmap option_fmap option_map].
      cbn [continued] in Hskip. apply andb_prop in Hskip as [_ Hskip].
      rewrite IH; [rewrite Hassoc; reflexivity | exact Hbody | exact Hskip].
Qed.

(** X24.  A quotation mark that is never closed takes the rest of the
    input, spaces and all, into the flag it opens: the input is one
    flag, stored under its key with the value trimmed of quotes at both
    ends. *)
Theorem unclosed_quote_takes_the_rest (key body : string) (q : ascii) :
  forallb word_byte (list_ascii_of_string key) = true ->
  in_cutset quotes q = true ->
  forallb (fun c => negb (Ascii.eqb c q)) (list_ascii_of_string body) = true ->
  let input := key +:+ "=" +:+ String q body in
  FieldsFunc input quotedFieldsCheck 0 = [input]
  /\ parseToMap input !! key = Some (Trim (String q body) quotes).
Proof.
  intros Hkey Hq Hbody input.
  assert (Hq' : q = "034"%char \/ q = "039"%char).
  { unfold in_cutset, quotes in Hq. cbn [list_ascii_of_string existsb] in Hq.
    apply orb_prop in Hq as [Hq|Hq]; [left|right].
    - now apply Ascii.eqb_eq in Hq.
    - apply orb_prop in Hq as [Hq|Hq]; [|discriminate Hq].
      now apply Ascii.eqb_eq in Hq. }
  assert (Hq128 : byte_val q < 128) by (destruct Hq' as [-> | ->]; reflexivity).
  assert (Hq0 : byte_val q <> 0) by (destruct Hq' as [-> | ->]; discriminate).
  assert (Hopen : quotedFieldsCheck 0 (byte_val q) = (false, byte_val q))
    by (destruct Hq' as [-> | ->]; reflexivity).
  assert (Hplain : forallb plain_byte (list_ascii_of_string (key +:+ "=")) = true).
  { clear -Hkey. induction key as [|b key IH]; [reflexivity|].
    cbn [list_ascii_of_string forallb] in Hkey.
    apply andb_prop in Hkey as [Hb Hkey]. unfold word_byte in Hb.
    apply andb_prop in Hb as [Hb _].
    rewrite append_cons. cbn [list_ascii_of_string forallb].
    rewrite Hb. exact (IH Hkey). }
  assert (Hnoeq : forallb (fun b => negb (Ascii.eqb b "=")) (list_ascii_of_string key)
                  = true).
  { clear -Hkey. induction key as [|b key IH]; [reflexivity|].
    cbn [list_ascii_of_string forallb] in *.
    apply andb_prop in Hkey as [Hb Hkey]. unfold word_byte in Hb.
    apply andb_prop in Hb as [_ Hb]. rewrite Hb. exact (IH Hkey). }
  assert (Hinput : input = (key +:+ "=") +:+ String q body).
  { subst input. rewrite append_assoc. reflexivity. }
  assert (Hfields : FieldsFunc input quotedFieldsCheck 0 = [input]).
  { unfold FieldsFunc. rewrite Hinput.
    rewrite FieldsFunc_loop_plain; [|destruct key; discriminate | exact Hplain].
    cbn [from_option id FieldsFunc_loop].
    rewrite (DecodeRuneInString_ASCII q _ Hq128), Hopen. cbn [Nat.sub from_option id].
    rewrite (FieldsFunc_loop_open q body Hq128 Hq0 Hbody 0%nat _ eq_refl).
    change (EmptyString +:+ (key +:+ "=")) with (key +:+ "=").
    rewrite !append_assoc. reflexivity. }
  split; [exact Hfields|].
  rewrite parseToMap_fold, Hfields. cbn [fold_left]. unfold store.
  assert (Hidx : Index input "=" = Z.of_nat (String.length key))
    by (apply Index_first; exact Hnoeq).
  assert (Hk : key_of input = key).
  { unfold key_of. rewrite Hidx.
    replace (Z.of_nat (String.length key) =? -1) with false
      by (symmetry; apply Z.eqb_neq; lia).
    rewrite Nat2Z.id. apply slice_to_append. }
  assert (Hv : value_of input = Trim (String q body) quotes).
  { unfold value_of, raw_value_of. rewrite Hidx.
    replace (Z.of_nat (String.length key) =? -1) with false
      by (symmetry; apply Z.eqb_neq; lia).
    replace (Z.to_nat (Z.of_nat (String.length key) + 1))
      with (String.length (key +:+ "=")) by (rewrite length_append; cbn; lia).
    rewrite Hinput, slice_from_append. reflexivity. }
  rewrite Hk, Hv. apply lookup_insert_eq.
Qed.

(** ** The command line of the test *)

Example exampleCmdLine_parsed :
  size (AsMap (FromString exampleCmdLine)) = 21%nat
  /\ ContainsFlag (FromString exampleCmdLine) "biosdevname" = true
  /\ ContainsFlag (FromString exampleCmdLine) "fsck.repair" = true
  /\ ContainsFlag (FromString exampleCmdLine) "biosname" = false
  /\ Flag (FromString exampleCmdLine) "security" = ("selinux", true)
  /\ Raw (FromString exampleCmdLine) = exampleCmdLine
  /\ Err (New badreader) = Some "io: read/write on closed pipe".
Proof. repeat split; vm_compute; reflexivity. Qed.

Example exampleCmdLine_AsBool (Map_unicode_ToLower : string -> string) :
  AsBool Map_unicode_ToLower (FromString exampleCmdLine) "enforcing" = false
  /\ AsBool Map_unicode_ToLower (FromString exampleCmdLine) "fsck.repair" = true.
Proof. split; vm_compute; reflexivity. Qed.

Lemma bare_flag_is_set_witness :
  Flag (FromString exampleCmdLine) "test-flag" = ("1", true)
  /\ AsBool (fun s => s) (FromString exampleCmdLine) "test-flag" = true.
Proof.
  apply (bare_flag_is_set (fun s => s) (strings_NewReader exampleCmdLine)
           "test-flag" "test-flag").
  - vm_compute. reflexivity.
  - vm_compute. reflexivity.
Defined.

Lemma AsMap_keys_witness :
  is_Some (AsMap (FromString exampleCmdLine) !! "test2_flag")
  /\ ContainsFlag (FromString exampleCmdLine) "test2-flag" = true
  /\ Index "test2-flag" "=" = -1.
Proof.
  apply (AsMap_keys (strings_NewReader exampleCmdLine) "test2-flag").
  vm_compute. eexists. reflexivity.
Defined.

Lemma AsMap_values_trimmed_witness :
  trimmed quotes "systemd test-flag=3  test2-flag runlevel=2".
Proof.
  apply (AsMap_values_trimmed (strings_NewReader exampleCmdLine) "uroot.initflags").
  vm_compute. reflexivity.
Defined.

Lemma parse_trailing_newlines_witness :
  parse (mkReader ("ro quiet" +:+ newline +:+ newline) None)
  = parse (mkReader "ro quiet" None).
Proof.
  apply (parse_trailing_newlines "ro quiet" (newline +:+ newline) None).
  vm_compute. reflexivity.
Defined.

Lemma blank_command_line_witness :
  AsMap (FromString ("  " +:+ newline)) = ∅
  /\ forall flag, Flag (FromString ("  " +:+ newline)) flag = (EmptyString, false).
Proof.
  apply (blank_command_line (strings_NewReader ("  " +:+ newline))).
  vm_compute. reflexivity.
Defined.

Lemma quoted_value_is_one_flag_witness :
  Flag (FromString ("uroot.initflags=" +:+ String "034" "systemd test-flag=3"
                    +:+ String "034" EmptyString))
    "uroot.initflags"
  = ("systemd test-flag=3", true).
Proof.
  destruct (quoted_value_is_one_flag "uroot.initflags" "systemd test-flag=3" "034" None)
    as (_ & H & _).
  - vm_compute. reflexivity.
  - vm_compute. reflexivity.
  - vm_compute. reflexivity.
  - exact H.
Defined.

Lemma plain_words_are_the_flags_witness :
  FieldsFunc "ro quiet console=tty0" quotedFieldsCheck 0
  = ["ro"; "quiet"; "console=tty0"].
Proof.
  destruct (plain_words_are_the_flags ["ro"; "quiet"; "console=tty0"]) as [H _].
  - repeat constructor; discriminate.
  - exact H.
Defined.

Lemma unclosed_quote_takes_the_rest_witness :
  parseToMap ("init=" +:+ String "034" "/bin/sh -c") !! "init" = Some "/bin/sh -c".
Proof.
  destruct (unclosed_quote_takes_the_rest "init" "/bin/sh -c" "034") as [_ H].
  - vm_compute. reflexivity.
  - vm_compute. reflexivity.
  - vm_compute. reflexivity.
  - exact H.
Defined.
